(** * ExcelSync: structure extraction, validation and schema projection

    A shallow embedding of [excelsync/excel_sync.py] and
    [excelsync/schema.py], followed by the properties proved about them.

    Conventions of the embedding:
    - Python [int] is [Z]; Python [str] is [string]; a Python [float] is a
      [spec_float] (IEEE 754 binary floating point as an inductive type).
    - A Python [dict] used as a map keeps insertion order and has unique
      keys: it is an association list handled through [Dict.set], which
      overwrites in place and appends new keys at the end.
    - A Python [dict] used as a struct (fixed keys) is a record; a key that
      the code treats as optional is an [option] field.
    - Code that can raise returns a [result]; methods that touch [self] or
      the file system are state transformers over [world].
    - Strings are ASCII text.  What the Python runtime and the libraries
      supply is either written out ([int], [str] of an integer, the
      worksheet's [cell], paths, the validation keywords) or taken as a
      parameter ([repr] of a float, the validation engine's choice of one
      error).
    - The interpreter refuses to convert between an integer and a text of
      more digits than a limit it is configured with (4300 by default).
      [str_int] and [py_int] are the conversions without that limit;
      [small_int] and [small_key] say what stays within the default. *)

From Stdlib Require Import ZArith List String Ascii Bool Lia.
From Stdlib Require Import Numbers.DecimalString Floats.SpecFloat.
From Stdlib Require Numbers.DecimalPos.
Import ListNotations.

Local Open Scope string_scope.
Local Open Scope Z_scope.
Local Open Scope list_scope.

(** ** Exceptions and fallible computations *)

Inductive exn : Type :=
| ValueError
| KeyError
| TypeError
| FileNotFoundError
| IsADirectoryError
| PermissionError
| InvalidFileException
| BadZipFile
| UnicodeDecodeError
| JSONDecodeError.

Inductive result (A : Type) : Type :=
| Ok (a : A)
| Raise (e : exn).

Arguments Ok {A} a.
Arguments Raise {A} e.

Definition bind {A B : Type} (c : result A) (k : A -> result B) : result B :=
  match c with
  | Ok a => k a
  | Raise e => Raise e
  end.

Declare Scope result_scope.
Delimit Scope result_scope with result.
Notation "x <- c ;; k" := (bind c (fun x => k))
  (at level 61, c at next level, right associativity) : result_scope.
Local Open Scope result_scope.

(** ** Python dictionaries as ordered association lists *)

Module Dict.
Section Ops.
Context {K V : Type}.
Variable eqb : K -> K -> bool.

(** [d.get(k)] *)
Fixpoint get (d : list (K * V)) (k : K) : option V :=
  match d with
  | [] => None
  | (k', v) :: rest => if eqb k k' then Some v else get rest k
  end.

(** [k in d] *)
Definition mem (d : list (K * V)) (k : K) : bool :=
  match get d k with
  | Some _ => true
  | None => false
  end.

(** [d[k] = v]: an existing key keeps its position, a new key goes last. *)
Fixpoint set (d : list (K * V)) (k : K) (v : V) : list (K * V) :=
  match d with
  | [] => [(k, v)]
  | (k', v') :: rest =>
      if eqb k k' then (k', v) :: rest else (k', v') :: set rest k v
  end.

(** [d[k]], raising [KeyError] on a missing key. *)
Definition item (d : list (K * V)) (k : K) : result V :=
  match get d k with
  | Some v => Ok v
  | None => Raise KeyError
  end.

(** The dictionary built by assigning the pairs of [kvs] in order. *)
Definition of_items (kvs : list (K * V)) : list (K * V) :=
  fold_left (fun d kv => set d (fst kv) (snd kv)) kvs [].
End Ops.

(** Iteration order of the keys. *)
Definition keys {K V : Type} (d : list (K * V)) : list K := map fst d.
End Dict.

(** ** Python values held by worksheet cells *)

(** An object of any other class, seen through what the code asks of it:
    [type(o).__name__], [bool(o)] and [str(o)]. *)
Record pyobject : Type := {
  type_name : string;
  obj_truthy : bool;
  obj_str : string
}.

Inductive pyvalue : Type :=
| PyNone
| PyBool (b : bool)
| PyInt (n : Z)
| PyFloat (x : spec_float)
| PyStr (s : string)
| PyObject (o : pyobject).

(** [isinstance(value, cls)] for the four classes the code tests.  [bool]
    is a subclass of [int], so a boolean is an instance of both. *)
Definition isinstance_bool (v : pyvalue) : bool :=
  match v with PyBool _ => true | _ => false end.

Definition isinstance_int (v : pyvalue) : bool :=
  match v with PyBool _ | PyInt _ => true | _ => false end.

Definition isinstance_float (v : pyvalue) : bool :=
  match v with PyFloat _ => true | _ => false end.

Definition isinstance_str (v : pyvalue) : bool :=
  match v with PyStr _ => true | _ => false end.

Definition is_none (v : pyvalue) : bool :=
  match v with PyNone => true | _ => false end.

(** [bool(value)], the test behind [if cell.value:]. *)
Definition py_truthy (v : pyvalue) : bool :=
  match v with
  | PyNone => false
  | PyBool b => b
  | PyInt n => negb (n =? 0)
  | PyFloat x => match x with S754_zero _ => false | _ => true end
  | PyStr s => negb (String.eqb s "")
  | PyObject o => obj_truthy o
  end.

(** [str(n)] for an integer. *)
Definition str_int (n : Z) : string :=
  NilEmpty.string_of_int (Z.to_int n).

(** An f-string: the concatenation of its literal and formatted parts. *)
Definition fstring (parts : list string) : string :=
  String.concat "" parts.

(** [type(value).__name__] *)
Definition py_type_name (v : pyvalue) : string :=
  match v with
  | PyNone => "NoneType"
  | PyBool _ => "bool"
  | PyInt _ => "int"
  | PyFloat _ => "float"
  | PyStr _ => "str"
  | PyObject o => type_name o
  end.

(** ** String helpers: [str.lower] and the substring test [a in b] *)

Definition lower_ascii (c : ascii) : ascii :=
  let n := nat_of_ascii c in
  if ((65 <=? n) && (n <=? 90))%nat then ascii_of_nat (n + 32) else c.

Fixpoint lower (s : string) : string :=
  match s with
  | EmptyString => EmptyString
  | String c rest => String (lower_ascii c) (lower rest)
  end.

Fixpoint str_contains (needle hay : string) : bool :=
  String.prefix needle hay ||
  match hay with
  | EmptyString => false
  | String _ rest => str_contains needle rest
  end.

(** ** [ExcelSync._detect_data_type] *)

Definition date_indicators : list string := ["/"; "-"; "date"; "time"].

(** The text of a [str] value (only consulted under [isinstance_str]). *)
Definition str_value (v : pyvalue) : string :=
  match v with PyStr s => s | _ => "" end.

Definition _detect_data_type (value : pyvalue) : string :=
  if is_none value then "null"
  else if isinstance_bool value then "boolean"
  else if isinstance_int value then "integer"
  else if isinstance_float value then "number"
  else if isinstance_str value then
    if existsb (fun date_indicator =>
                  str_contains date_indicator (lower (str_value value)))
               date_indicators
    then "datetime"
    else "string"
  else py_type_name value.

(** ** The workbook as the spreadsheet library presents it *)

(** A worksheet as the code finds it: the populated range and the grid of
    cell values ([PyNone] for an empty cell), with [str(r)] for each
    merged range. *)
Record Worksheet : Type := {
  max_row : Z;
  max_column : Z;
  cell_value : Z -> Z -> pyvalue;
  sheet_merged_cells : list string
}.

(** [sheet.cell(row=row, column=column).value]: indices are 1-based and
    the library rejects smaller ones; a position outside the populated
    range holds no value. *)
Definition cell (sheet : Worksheet) (row column : Z) : result pyvalue :=
  if (row <? 1) || (column <? 1) then Raise ValueError
  else if (row <=? max_row sheet) && (column <=? max_column sheet)
       then Ok (cell_value sheet row column)
       else Ok PyNone.

(** The library keeps the cells a sheet has and computes the populated
    range from them.  [sheet.cell(row=row, column=column)] creates the cell
    when the sheet has none at that position, so a position outside the
    populated range makes the range reach it; the new cell holds no value.
    Inside the populated range nothing that the code can observe
    changes. *)
Definition touch (sheet : Worksheet) (row column : Z) : Worksheet :=
  if (row <=? max_row sheet) && (column <=? max_column sheet) then sheet
  else
    {| max_row := Z.max (max_row sheet) row;
       max_column := Z.max (max_column sheet) column;
       cell_value := fun r c =>
         if (r <=? max_row sheet) && (c <=? max_column sheet)
         then cell_value sheet r c
         else PyNone;
       sheet_merged_cells := sheet_merged_cells sheet |}.

(** [sheet.cell(row=row, column=column).value] with what it leaves of the
    sheet. *)
Definition cell_access (sheet : Worksheet) (row column : Z)
  : result pyvalue * Worksheet :=
  match cell sheet row column with
  | Ok value => (Ok value, touch sheet row column)
  | Raise e => (Raise e, sheet)
  end.

(** [workbook.sheetnames] is [map fst worksheets]; [workbook[name]] looks
    the sheet up by name.  [defined_names] is [None] when the workbook
    object has no such attribute. *)
Record Workbook : Type := {
  worksheets : list (string * Worksheet);
  defined_names : option (list (string * string))
}.

Definition sheetnames (wb : Workbook) : list string :=
  map fst (worksheets wb).

Definition workbook_getitem (wb : Workbook) (sheet_name : string)
  : result Worksheet :=
  Dict.item String.eqb (worksheets wb) sheet_name.

(** The sheet that [workbook[name]] returns is the workbook's own object:
    [with_sheet wb name sheet] is the workbook once that object has become
    [sheet]. *)
Fixpoint put_sheet (sheets : list (string * Worksheet)) (sheet_name : string)
    (sheet : Worksheet) : list (string * Worksheet) :=
  match sheets with
  | [] => []
  | (n, s) :: rest =>
      if String.eqb sheet_name n then (n, sheet) :: rest
      else (n, s) :: put_sheet rest sheet_name sheet
  end.

Definition with_sheet (wb : Workbook) (sheet_name : string) (sheet : Worksheet)
  : Workbook :=
  {| worksheets := put_sheet (worksheets wb) sheet_name sheet;
     defined_names := defined_names wb |}.

(** [openpyxl.utils.get_column_letter]: the spreadsheet base-26 letter
    encoding of a column index (A=1 ... Z=26, AA=27, ...).  The library
    defines it up to column 18278 (ZZZ), beyond any column of a worksheet
    read from a file. *)
Fixpoint column_letters (fuel : nat) (idx : Z) : string :=
  match fuel with
  | O => ""
  | S fuel' =>
      if idx <=? 0 then ""
      else String.append
             (column_letters fuel' ((idx - 1) / 26))
             (String (ascii_of_N (Z.to_N (65 + (idx - 1) mod 26))) "")
  end.

Definition get_column_letter (idx : Z) : string :=
  column_letters (Z.to_nat idx) idx.

(** [range(lo, hi)] *)
Definition py_range (lo hi : Z) : list Z :=
  map (fun i => lo + Z.of_nat i) (seq 0 (Z.to_nat (hi - lo))).

(** ** The structural document *)

(** Keys of a [headers] mapping: integers when the document was just
    extracted, strings when it went through JSON. *)
Inductive colkey : Type :=
| KInt (n : Z)
| KStr (s : string).

Definition colkey_eqb (a b : colkey) : bool :=
  match a, b with
  | KInt m, KInt n => m =? n
  | KStr s, KStr t => String.eqb s t
  | _, _ => false
  end.

(** [{"name": ..., "column_letter": ..., "data_type": ...}]; the last key
    is written only when the sheet has a data row. *)
Record HeaderInfo : Type := {
  name : string;
  column_letter : string;
  data_type : option string
}.

Definition Headers : Type := list (colkey * HeaderInfo).

Record SheetStructure : Type := {
  columns : Headers;
  rows : Z;
  columns_count : Z;
  merged_cells : list string;
  headers : option Headers
}.

Record FileProperties : Type := {
  filename : option string;
  sheet_count : option Z;
  fp_header_row : option Z
}.

Record Structure : Type := {
  sheets : option (list (string * SheetStructure));
  named_ranges : option (list (string * string));
  file_properties : option FileProperties
}.

(** [d.get(key, {})] for an optional mapping. *)
Definition get_or_empty {A : Type} (o : option (list A)) : list A :=
  match o with Some l => l | None => [] end.

(** [headers[col]["data_type"] = data_type] *)
Definition set_data_type (hs : Headers) (col : colkey) (dt : string) : Headers :=
  match Dict.get colkey_eqb hs col with
  | Some info =>
      Dict.set colkey_eqb hs col
        {| name := name info;
           column_letter := column_letter info;
           data_type := Some dt |}
  | None => hs
  end.

(** ** [int(s)] on a string

    Surrounding white space is dropped, a sign may lead, and the digits may
    be grouped by single underscores.  The white space [int] drops is the
    blank and the characters 9 to 13; in a text that leaves ASCII it also
    drops the two white space characters of Latin-1, 133 and 160.  The
    characters 28 to 31, which [str.isspace] counts as white space, are not
    dropped: [int] raises [ValueError] on them. *)

Definition is_space (c : ascii) : bool :=
  let n := nat_of_ascii c in
  ((n =? 32) || ((9 <=? n) && (n <=? 13)) || (n =? 133) || (n =? 160))%nat.

Definition digit_value (c : ascii) : option Z :=
  let n := nat_of_ascii c in
  if ((48 <=? n) && (n <=? 57))%nat then Some (Z.of_nat n - 48) else None.

Fixpoint lstrip (s : string) : string :=
  match s with
  | EmptyString => EmptyString
  | String c rest => if is_space c then lstrip rest else s
  end.

Fixpoint rstrip (s : string) : string :=
  match s with
  | EmptyString => EmptyString
  | String c rest =>
      match rstrip rest with
      | EmptyString => if is_space c then EmptyString else String c EmptyString
      | kept => String c kept
      end
  end.

Definition strip (s : string) : string := rstrip (lstrip s).

(** Decimal digits, single underscores allowed between digits. *)
Fixpoint parse_digits (s : string) (acc : Z) (after_digit : bool) : option Z :=
  match s with
  | EmptyString => if after_digit then Some acc else None
  | String c rest =>
      match digit_value c with
      | Some d => parse_digits rest (10 * acc + d) true
      | None =>
          if Ascii.eqb c "_" && after_digit then parse_digits rest acc false
          else None
      end
  end.

(** [int(s)], without the interpreter's limit on the number of digits. *)
Definition py_int (s : string) : result Z :=
  match strip s with
  | EmptyString => Raise ValueError
  | String c rest as body =>
      let signed :=
        if Ascii.eqb c "-" then (true, rest)
        else if Ascii.eqb c "+" then (false, rest)
        else (false, body) in
      match parse_digits (snd signed) 0 false with
      | Some n => Ok (if fst signed then - n else n)
      | None => Raise ValueError
      end
  end.

(** ** Instances, files and the world a method runs in *)

(** [ExcelSchema]: the structure it holds. *)
Record ExcelSchema : Type := {
  structure : Structure
}.

(** [ExcelSchema.__init__]: [structure or {...}].  A mapping without any
    key is falsy, so it is replaced by the default like [None] is; the
    default has an empty mapping under each of the three keys. *)
Definition empty_properties : FileProperties :=
  {| filename := None; sheet_count := None; fp_header_row := None |}.

Definition default_structure : Structure :=
  {| sheets := Some [];
     named_ranges := Some [];
     file_properties := Some empty_properties |}.

(** [bool(structure)] *)
Definition structure_truthy (s : Structure) : bool :=
  match sheets s, named_ranges s, file_properties s with
  | None, None, None => false
  | _, _, _ => true
  end.

Definition ExcelSchema_init (s : option Structure) : ExcelSchema :=
  {| structure :=
       match s with
       | Some given =>
           if structure_truthy given then given else default_structure
       | None => default_structure
       end |}.

(** [ExcelSchema.load_structure] *)
Definition schema_load_structure (sch : ExcelSchema) (s : Structure)
  : ExcelSchema :=
  {| structure := s |}.

(** The fields of an [ExcelSync] instance. *)
Record ExcelSync : Type := {
  excel_file : string;
  workbook : Workbook;
  schema : ExcelSchema;
  header_row : Z
}.

(** One row of exported data: header name to cell value. *)
Definition RowData : Type := list (string * pyvalue).

(** What a file may hold:
    - [XlsxFile]: the bytes of a workbook, a zip archive and so no UTF-8
      text;
    - [JsonText]: the text [json.dump] writes for a structure;
    - [YamlText]: the text [yaml.dump] writes for an export, in block
      style, which is no JSON document;
    - [PlainText]: any other UTF-8 text that is no JSON document;
    - [Binary]: any other bytes that are no UTF-8 text and no zip
      archive.
    A file whose text is a JSON document other than a structure is not
    among them, and neither is a zip archive other than a workbook. *)
Inductive File : Type :=
| XlsxFile (wb : Workbook)
| JsonText (s : Structure)
| YamlText (yaml_schema : Structure) (yaml_data : list (string * list RowData))
| PlainText
| Binary.

(** A file is known by its place, not by the spelling of a path: the
    operating system takes a path to a place, and several paths may lead
    to one place. *)
Definition location : Type := nat.

Inductive mode : Type :=
| Reading
| Writing.

(** What a path leads to: the place of a regular file, which need not
    exist yet, or something that [open] refuses in every mode (the empty
    path, a directory, a name under a directory that does not exist), with
    what [exists()] answers for it and the exception [open] raises. *)
Inductive node : Type :=
| FileNode (l : location)
| NoFile (there : bool) (refusal : exn).

(** The files: where each path leads, what each place holds ([None] where
    no file exists), and the exception [open] raises at a place in a mode
    that is not permitted. *)
Record FileSystem : Type := {
  node_of : string -> node;
  content : location -> option File;
  denied : mode -> location -> option exn
}.

(** [path.exists()] *)
Definition path_exists (fs : FileSystem) (p : string) : bool :=
  match node_of fs p with
  | FileNode l =>
      match content fs l with
      | Some _ => true
      | None => false
      end
  | NoFile there _ => there
  end.

(** [open(p, mode)]: the place of the file that is opened.  Reading needs
    the file to exist; writing creates it. *)
Definition open_for (fs : FileSystem) (m : mode) (p : string)
  : result location :=
  match node_of fs p with
  | FileNode l =>
      match m, content fs l with
      | Reading, None => Raise FileNotFoundError
      | _, _ =>
          match denied fs m l with
          | Some e => Raise e
          | None => Ok l
          end
      end
  | NoFile _ refusal => Raise refusal
  end.

(** What a place holds once [f] has been written there. *)
Definition write_file (fs : FileSystem) (l : location) (f : File)
  : FileSystem :=
  {| node_of := node_of fs;
     content := fun l' => if Nat.eqb l' l then Some f else content fs l';
     denied := denied fs |}.

(** [if not path.exists(): raise FileNotFoundError(...)] followed by
    [with open(path, 'r', encoding='utf-8') as f:], up to the file that is
    then read. *)
Definition read_file (fs : FileSystem) (p : string) : result File :=
  if negb (path_exists fs p) then Raise FileNotFoundError
  else
    l <- open_for fs Reading p ;;
    match content fs l with
    | Some f => Ok f
    | None => Raise FileNotFoundError
    end.

(** [json.dump] writes every key of a mapping as a string, and [json.load]
    reads a mapping back key by key, a repeated key keeping its first
    position and its last value. *)
Definition key_text (k : colkey) : string :=
  match k with
  | KInt n => str_int n
  | KStr s => s
  end.

Definition json_headers (hs : Headers) : Headers :=
  Dict.of_items colkey_eqb (map (fun kv => (KStr (key_text (fst kv)), snd kv)) hs).

Definition json_sheet (sh : SheetStructure) : SheetStructure :=
  {| columns := json_headers (columns sh);
     rows := rows sh;
     columns_count := columns_count sh;
     merged_cells := merged_cells sh;
     headers := option_map json_headers (headers sh) |}.

Definition json_structure (s : Structure) : Structure :=
  {| sheets :=
       option_map (map (fun kv => (fst kv, json_sheet (snd kv)))) (sheets s);
     named_ranges := named_ranges s;
     file_properties := file_properties s |}.

(** [json.load(f)] for a file opened as UTF-8 text: bytes that are no
    UTF-8 text fail to decode, and text that is no JSON document fails to
    parse. *)
Definition json_load (f : File) : result Structure :=
  match f with
  | JsonText s => Ok (json_structure s)
  | XlsxFile _ | Binary => Raise UnicodeDecodeError
  | YamlText _ _ | PlainText => Raise JSONDecodeError
  end.

(** *** Paths as [pathlib] reads them *)

(** [p.split("/")] *)
Fixpoint split_slash (p : string) (current : string) : list string :=
  match p with
  | EmptyString => [current]
  | String c rest =>
      if Ascii.eqb c "/" then current :: split_slash rest EmptyString
      else split_slash rest (String.append current (String c EmptyString))
  end.

(** The root of a path: a slash when the path starts with one, two when
    it starts with exactly two. *)
Definition path_root (p : string) : string :=
  match p with
  | String "/" (String "/" (String "/" _)) => "/"
  | String "/" (String "/" _) => "//"
  | String "/" _ => "/"
  | _ => ""
  end.

(** The components of [Path(p)]: empty ones and [.] are dropped. *)
Definition path_parts (p : string) : list string :=
  filter (fun part => negb (String.eqb part "") && negb (String.eqb part "."))
         (split_slash p "").

(** [str(Path(p))], the text under which [Path(p)] is opened. *)
Definition path_str (p : string) : string :=
  match String.append (path_root p) (String.concat "/" (path_parts p)) with
  | EmptyString => "."
  | text => text
  end.

(** [Path(p).name]: the last component, if there is one. *)
Definition path_name (p : string) : string := last (path_parts p) "".

(** [os.path.splitext(p)[-1]]: the last component from its last dot on,
    when the dot has something other than dots before it there. *)
Fixpoint extension_from (text : string) (seen : bool) : option string :=
  match text with
  | EmptyString => None
  | String c rest =>
      match extension_from rest (seen || negb (Ascii.eqb c ".")) with
      | Some later => Some later
      | None => if Ascii.eqb c "." && seen then Some text else None
      end
  end.

Definition splitext_ext (p : string) : string :=
  match extension_from (last (split_slash p "") "") false with
  | Some extension => extension
  | None => ""
  end.

(** The state a method can read and change: the instance and the files. *)
Record world : Type := {
  self : ExcelSync;
  files : FileSystem
}.

(** A method: it returns or raises, and leaves a world behind either way. *)
Definition M (A : Type) : Type := world -> result A * world.

Definition ret {A : Type} (a : A) : M A := fun w => (Ok a, w).

Definition lift {A : Type} (r : result A) : M A := fun w => (r, w).

Definition mbind {A B : Type} (c : M A) (k : A -> M B) : M B :=
  fun w =>
    match c w with
    | (Ok a, w') => k a w'
    | (Raise e, w') => (Raise e, w')
    end.

Definition get_self : M ExcelSync := fun w => (Ok (self w), w).

(** [self.header_row = row] *)
Definition set_header_row (row : Z) : M unit :=
  fun w =>
    (Ok tt,
     {| self := {| excel_file := excel_file (self w);
                   workbook := workbook (self w);
                   schema := schema (self w);
                   header_row := row |};
        files := files w |}).

(** [self.schema.load_structure(s)] *)
Definition set_schema_structure (s : Structure) : M unit :=
  fun w =>
    (Ok tt,
     {| self := {| excel_file := excel_file (self w);
                   workbook := workbook (self w);
                   schema := schema_load_structure (schema (self w)) s;
                   header_row := header_row (self w) |};
        files := files w |}).

(** [self.workbook] after a loop over its sheets, which are the
    workbook's own objects: what the loop does to them stays, also when it
    raises. *)
Definition on_workbook {A : Type} (loop : Workbook -> result A * Workbook)
  : M A :=
  fun w =>
    let (r, wb) := loop (workbook (self w)) in
    (r,
     {| self := {| excel_file := excel_file (self w);
                   workbook := wb;
                   schema := schema (self w);
                   header_row := header_row (self w) |};
        files := files w |}).

(** [with open(p, 'w', encoding='utf-8') as f: dump(content, f)]: when
    [open] raises, nothing is written. *)
Definition write (p : string) (f : File) : M unit :=
  fun w =>
    match open_for (files w) Writing p with
    | Ok l => (Ok tt, {| self := self w; files := write_file (files w) l f |})
    | Raise e => (Raise e, w)
    end.

(** The [exists()] check and the [open] for reading of a structure
    file. *)
Definition read (p : string) : M File :=
  fun w => (read_file (files w) p, w).

Declare Scope method_scope.
Delimit Scope method_scope with method.
Notation "x <~ c ;; k" := (mbind c (fun x => k))
  (at level 61, c at next level, right associativity) : method_scope.

(** ** Extraction and comparison *)

Section Runtime.

(** [repr] of a float (the shortest decimal text that reads back as the
    same float) is supplied by the Python runtime. *)
Variable float_repr : spec_float -> string.

(** [str(value)] *)
Definition py_str (v : pyvalue) : string :=
  match v with
  | PyNone => "None"
  | PyBool b => if b then "True" else "False"
  | PyInt n => str_int n
  | PyFloat x => float_repr x
  | PyStr s => s
  | PyObject o => obj_str o
  end.

(** The loop over [range(1, sheet.max_column + 1)] that fills [headers].
    [extract_structure] asks for the cells of a row only after it has found
    the row inside the populated range, so the sheet is left as it is and
    the cells are read with [cell]. *)
Fixpoint extract_headers (sheet : Worksheet) (header_row : Z)
    (cols : list Z) (headers : Headers) : result Headers :=
  match cols with
  | [] => Ok headers
  | col :: rest =>
      value <- cell sheet header_row col ;;
      if py_truthy value then
        extract_headers sheet header_row rest
          (Dict.set colkey_eqb headers (KInt col)
             {| name := py_str value;
                column_letter := get_column_letter col;
                data_type := None |})
      else extract_headers sheet header_row rest headers
  end.

(** The loop [for col in headers] that samples the first data row. A key
    that is not an integer cannot address a column. *)
Fixpoint detect_data_types (sheet : Worksheet) (data_row : Z)
    (cols : list colkey) (headers : Headers) : result Headers :=
  match cols with
  | [] => Ok headers
  | KInt col :: rest =>
      first_value <- cell sheet data_row col ;;
      detect_data_types sheet data_row rest
        (set_data_type headers (KInt col) (_detect_data_type first_value))
  | KStr _ :: _ => Raise TypeError
  end.

(** The body of the loop over sheets in [extract_structure]. *)
Definition extract_sheet (sheet : Worksheet) (header_row : Z)
  : result SheetStructure :=
  let data_row := header_row + 1 in
  let sheet_structure (hs : option Headers) :=
    {| columns := [];
       rows := max_row sheet;
       columns_count := max_column sheet;
       merged_cells := sheet_merged_cells sheet;
       headers := hs |} in
  if (header_row <=? max_row sheet) && (0 <? max_column sheet) then
    headers <- extract_headers sheet header_row
                 (py_range 1 (max_column sheet + 1)) [] ;;
    headers <- (if data_row <=? max_row sheet
                then detect_data_types sheet data_row (Dict.keys headers) headers
                else Ok headers) ;;
    Ok (sheet_structure (Some headers))
  else Ok (sheet_structure None).

Fixpoint extract_sheets (wb : Workbook) (header_row : Z)
    (names : list string) (acc : list (string * SheetStructure))
  : result (list (string * SheetStructure)) :=
  match names with
  | [] => Ok acc
  | sheet_name :: rest =>
      sheet <- workbook_getitem wb sheet_name ;;
      sheet_structure <- extract_sheet sheet header_row ;;
      extract_sheets wb header_row rest
        (Dict.set String.eqb acc sheet_name sheet_structure)
  end.

(** [ExcelSync.extract_structure], once [header_row] is resolved:
    [file_name] is [self.excel_file.name]. *)
Definition extract (wb : Workbook) (file_name : string) (header_row : Z)
  : result Structure :=
  let ranges :=
    match defined_names wb with
    | Some defs => Dict.of_items String.eqb defs
    | None => []
    end in
  sheets <- extract_sheets wb header_row (sheetnames wb) [] ;;
  Ok {| sheets := Some sheets;
        named_ranges := Some ranges;
        file_properties :=
          Some {| filename := Some file_name;
                  sheet_count := Some (Z.of_nat (List.length (sheetnames wb)));
                  fp_header_row := Some header_row |} |}.

(** [int(col) if isinstance(col, str) else col] *)
Definition coerce_col (col : colkey) : result Z :=
  match col with
  | KStr s => py_int s
  | KInt n => Ok n
  end.

(** One iteration of [for col, header_info in expected_headers.items()]. *)
Definition check_column (current_headers : Headers) (sheet_name : string)
    (issues : list string) (entry : colkey * HeaderInfo)
  : result (list string) :=
  let header_info := snd entry in
  col <- coerce_col (fst entry) ;;
  match Dict.get colkey_eqb current_headers (KInt col) with
  | None =>
      Ok (issues ++ [fstring ["Missing column "; str_int col;
                              " in sheet "; sheet_name]])
  | Some current =>
      if negb (String.eqb (name current) (name header_info)) then
        Ok (issues ++ [fstring ["Header mismatch in sheet "; sheet_name;
                                ", column "; str_int col; ": ";
                                "expected '"; name header_info;
                                "', got '"; name current; "'"]])
      else Ok issues
  end.

Fixpoint check_headers (current_headers : Headers) (sheet_name : string)
    (expected_items : list (colkey * HeaderInfo)) (issues : list string)
  : result (list string) :=
  match expected_items with
  | [] => Ok issues
  | entry :: rest =>
      issues <- check_column current_headers sheet_name issues entry ;;
      check_headers current_headers sheet_name rest issues
  end.

(** The loop [for sheet_name in expected_structure.get("sheets", {})]. *)
Fixpoint check_sheets (expected current : Structure)
    (names : list string) (issues : list string) : result (list string) :=
  match names with
  | [] => Ok issues
  | sheet_name :: rest =>
      if negb (Dict.mem String.eqb (get_or_empty (sheets current)) sheet_name)
      then check_sheets expected current rest
             (issues ++ [fstring ["Missing sheet: "; sheet_name]])
      else
        expected_sheet <-
          Dict.item String.eqb (get_or_empty (sheets expected)) sheet_name ;;
        current_sheet <-
          Dict.item String.eqb (get_or_empty (sheets current)) sheet_name ;;
        let expected_headers := get_or_empty (headers expected_sheet) in
        let current_headers := get_or_empty (headers current_sheet) in
        issues <- check_headers current_headers sheet_name
                    expected_headers issues ;;
        check_sheets expected current rest issues
  end.

(** [structure.get("file_properties", {}).get("header_row")] *)
Definition get_header_row (s : Structure) : option Z :=
  match file_properties s with
  | Some props => fp_header_row props
  | None => None
  end.

(** [ExcelSync.validate_structure] after [current_structure] has been
    extracted. *)
Definition compare (current_structure : Structure)
    (expected_structure : option Structure) : result (bool * list string) :=
  match expected_structure with
  | None => Ok (true, [])
  | Some expected =>
      let issues :=
        match get_header_row expected, get_header_row current_structure with
        | Some expected_header_row, Some current_header_row =>
            if negb (expected_header_row =? current_header_row) then
              [fstring ["Header row mismatch: expected row ";
                        str_int expected_header_row;
                        ", got row "; str_int current_header_row]]
            else []
        | _, _ => []
        end in
      issues <- check_sheets expected current_structure
                  (Dict.keys (get_or_empty (sheets expected))) issues ;;
      Ok (match issues with [] => true | _ => false end, issues)
  end.

(** *** The data rows of [export_to_yaml] *)

(** [for col in range(1, sheet.max_column + 1)]: header names by column.
    The row is not looked for in the populated range first, so the sheet
    goes along. *)
Fixpoint yaml_headers (sheet : Worksheet) (header_row : Z)
    (cols : list Z) (headers : list (Z * string))
  : result (list (Z * string)) * Worksheet :=
  match cols with
  | [] => (Ok headers, sheet)
  | col :: rest =>
      match cell_access sheet header_row col with
      | (Ok header_value, sheet) =>
          if py_truthy header_value then
            yaml_headers sheet header_row rest
              (Dict.set Z.eqb headers col (py_str header_value))
          else yaml_headers sheet header_row rest headers
      | (Raise e, sheet) => (Raise e, sheet)
      end
  end.

(** [for col in headers]: the cells of one row that hold a value. *)
Fixpoint yaml_row (sheet : Worksheet) (row : Z)
    (headers : list (Z * string)) (row_data : RowData)
  : result RowData * Worksheet :=
  match headers with
  | [] => (Ok row_data, sheet)
  | (col, header) :: rest =>
      match cell_access sheet row col with
      | (Ok cell_value, sheet) =>
          if is_none cell_value then yaml_row sheet row rest row_data
          else yaml_row sheet row rest
                 (Dict.set String.eqb row_data header cell_value)
      | (Raise e, sheet) => (Raise e, sheet)
      end
  end.

(** [for row in range(data_row, sheet.max_row + 1)]: the non-empty rows. *)
Fixpoint yaml_rows (sheet : Worksheet) (rows : list Z)
    (headers : list (Z * string)) (sheet_data : list RowData)
  : result (list RowData) * Worksheet :=
  match rows with
  | [] => (Ok sheet_data, sheet)
  | row :: rest =>
      match yaml_row sheet row headers [] with
      | (Ok [], sheet) => yaml_rows sheet rest headers sheet_data
      | (Ok (entry :: entries), sheet) =>
          yaml_rows sheet rest headers (sheet_data ++ [entry :: entries])
      | (Raise e, sheet) => (Raise e, sheet)
      end
  end.

(** The body of [for sheet_name in self.workbook.sheetnames]: the range
    of the rows is taken after the headers have been read. *)
Definition yaml_sheet (sheet : Worksheet) (header_row : Z)
  : result (list RowData) * Worksheet :=
  let data_row := header_row + 1 in
  match yaml_headers sheet header_row (py_range 1 (max_column sheet + 1)) [] with
  | (Ok headers, sheet) =>
      yaml_rows sheet (py_range data_row (max_row sheet + 1)) headers []
  | (Raise e, sheet) => (Raise e, sheet)
  end.

Fixpoint yaml_sheets (wb : Workbook) (header_row : Z) (names : list string)
    (data : list (string * list RowData))
  : result (list (string * list RowData)) * Workbook :=
  match names with
  | [] => (Ok data, wb)
  | sheet_name :: rest =>
      match workbook_getitem wb sheet_name with
      | Ok sheet =>
          match yaml_sheet sheet header_row with
          | (Ok sheet_data, sheet) =>
              yaml_sheets (with_sheet wb sheet_name sheet) header_row rest
                (Dict.set String.eqb data sheet_name sheet_data)
          | (Raise e, sheet) => (Raise e, with_sheet wb sheet_name sheet)
          end
      | Raise e => (Raise e, wb)
      end
  end.

(** *** The methods of [ExcelSync] *)

Local Open Scope method_scope.

(** The file name extensions the spreadsheet library opens. *)
Definition supported_formats : list string :=
  [".xlsx"; ".xlsm"; ".xltx"; ".xltm"].

(** [ExcelSync.__init__]: the instance built from an existing workbook
    file.  The library looks at the extension of the name before it opens
    the file as a zip archive. *)
Definition ExcelSync_init (fs : FileSystem) (excel_file : string)
    (header_row : Z) : result ExcelSync :=
  let p := path_str excel_file in
  if negb (path_exists fs p) then Raise FileNotFoundError
  else if negb (existsb (String.eqb (lower (splitext_ext p))) supported_formats)
  then Raise InvalidFileException
  else
    l <- open_for fs Reading p ;;
    match content fs l with
    | Some (XlsxFile wb) =>
        Ok {| excel_file := p;
              workbook := wb;
              schema := ExcelSchema_init None;
              header_row := header_row |}
    | _ => Raise BadZipFile
    end.

(** [header_row if header_row is not None else self.header_row] *)
Definition resolve_header_row (override : option Z) (this : ExcelSync) : Z :=
  match override with
  | Some row => row
  | None => header_row this
  end.

(** [ExcelSync.extract_structure] *)
Definition extract_structure (override : option Z) : M Structure :=
  this <~ get_self ;;
  let header_row := resolve_header_row override this in
  lift (extract (workbook this) (path_name (excel_file this)) header_row).

(** [ExcelSync.export_structure]: the file is opened as
    [Path(output_file)]. *)
Definition export_structure (output_file : string) (override : option Z)
  : M unit :=
  structure <~ extract_structure override ;;
  write (path_str output_file) (JsonText structure).

(** [ExcelSync.validate_structure] *)
Definition validate_structure (expected_structure : option Structure)
    (override : option Z) : M (bool * list string) :=
  current_structure <~ extract_structure override ;;
  lift (compare current_structure expected_structure).

(** [ExcelSync.compare_structure] *)
Definition compare_structure (structure_file : string) (override : option Z)
  : M (bool * list string) :=
  f <~ read (path_str structure_file) ;;
  expected_structure <~ lift (json_load f) ;;
  validate_structure (Some expected_structure) override.

(** [ExcelSync.export_to_yaml]: the file is opened under [output_file]
    as it is given. *)
Definition export_to_yaml (output_file : string) (override : option Z)
  : M unit :=
  this <~ get_self ;;
  let header_row := resolve_header_row override this in
  structure <~ extract_structure (Some header_row) ;;
  data <~ on_workbook (fun wb => yaml_sheets wb header_row (sheetnames wb) []) ;;
  write output_file (YamlText structure data).

(** [ExcelSync.load_structure] *)
Definition load_structure (structure_file : string) : M unit :=
  f <~ read (path_str structure_file) ;;
  structure <~ lift (json_load f) ;;
  _ <~ match file_properties structure with
       | Some props =>
           match fp_header_row props with
           | Some row => set_header_row row
           | None => ret tt
           end
       | None => ret tt
       end ;;
  set_schema_structure structure.

Local Close Scope method_scope.

End Runtime.

(** ** JSON-like documents: schemas, data to validate, template values *)

#[local] Set Warnings "-register-all".
Inductive json : Type :=
| JNull
| JBool (b : bool)
| JInt (n : Z)
| JFloat (x : spec_float)
| JStr (s : string)
| JList (items : list json)
| JDict (entries : list (string * json)).

(** ** [ExcelSchema]: schema projection *)

(** [ExcelSchema._map_to_json_schema_type] *)
Definition type_map : list (string * json) :=
  [("string", JStr "string");
   ("integer", JStr "integer");
   ("number", JStr "number");
   ("boolean", JStr "boolean");
   ("datetime", JStr "string");
   ("null", JList [JStr "null"; JStr "string"])].

Definition _map_to_json_schema_type (data_type : string) : json :=
  match Dict.get String.eqb type_map data_type with
  | Some json_type => json_type
  | None => JStr "string"
  end.

(** [header_info.get("data_type", "string")] *)
Definition data_type_or_string (header_info : HeaderInfo) : string :=
  match data_type header_info with
  | Some t => t
  | None => "string"
  end.

(** The inner loop of [to_json_schema]:
    [for col, header_info in headers.items(): properties[col_name] = ...] *)
Definition schema_properties (hs : Headers) : list (string * json) :=
  fold_left
    (fun properties entry =>
       let header_info := snd entry in
       let col_name := name header_info in
       let json_type :=
         _map_to_json_schema_type (data_type_or_string header_info) in
       Dict.set String.eqb properties col_name
         (JDict [("type", json_type);
                 ("description",
                  JStr (fstring ["Column "; column_letter header_info;
                                 " - "; col_name]))]))
    hs [].

Definition sheet_schema (sheet_structure : SheetStructure) : json :=
  let properties := schema_properties (get_or_empty (headers sheet_structure)) in
  JDict [("type", JStr "array");
         ("items", JDict [("type", JStr "object");
                          ("properties", JDict properties);
                          ("additionalProperties", JBool false)])].

(** The outer loop of [to_json_schema]: the [properties] of [data]. *)
Definition data_properties (s : Structure) : list (string * json) :=
  fold_left
    (fun acc entry =>
       Dict.set String.eqb acc (fst entry) (sheet_schema (snd entry)))
    (get_or_empty (sheets s)) [].

(** [structure.get("file_properties", {}).get("filename", "unknown")] *)
Definition filename_or_unknown (s : Structure) : string :=
  match file_properties s with
  | Some props =>
      match filename props with
      | Some f => f
      | None => "unknown"
      end
  | None => "unknown"
  end.

(** [ExcelSchema.to_json_schema] *)
Definition to_json_schema (s : Structure) : json :=
  JDict [("$schema", JStr "http://json-schema.org/draft-07/schema#");
         ("title", JStr "Excel Data Schema");
         ("description",
          JStr (fstring ["Schema for Excel file "; filename_or_unknown s]));
         ("type", JStr "object");
         ("properties",
          JDict [("data",
                  JDict [("type", JStr "object");
                         ("properties", JDict (data_properties s))])])].

(** [ExcelSchema._get_type_example] *)
Definition examples : list (string * json) :=
  [("string", JStr "example");
   ("integer", JInt 0);
   ("number", JFloat (S754_zero false));
   ("boolean", JBool false);
   ("datetime", JStr "2023-01-01");
   ("null", JNull)].

Definition _get_type_example (data_type : string) : json :=
  match Dict.get String.eqb examples data_type with
  | Some example => example
  | None => JStr "example"
  end.

(** The inner loop of [generate_yaml_template]:
    [example_row[col_name] = self._get_type_example(data_type)] *)
Definition example_row (hs : Headers) : list (string * json) :=
  fold_left
    (fun row entry =>
       let header_info := snd entry in
       Dict.set String.eqb row (name header_info)
         (_get_type_example (data_type_or_string header_info)))
    hs [].

(** [sheet_data]: one example row [if headers:], none otherwise. *)
Definition example_rows (hs : Headers) : list (list (string * json)) :=
  match hs with
  | [] => []
  | _ :: _ => [example_row hs]
  end.

Record Template : Type := {
  template_schema : Structure;
  template_data : list (string * list (list (string * json)))
}.

(** The loop of [generate_yaml_template] over the sheet names. *)
Fixpoint template_sheets (all : list (string * SheetStructure))
    (names : list string) (data : list (string * list (list (string * json))))
  : result (list (string * list (list (string * json)))) :=
  match names with
  | [] => Ok data
  | sheet_name :: rest =>
      sheet_structure <- Dict.item String.eqb all sheet_name ;;
      let sheet_data :=
        example_rows (get_or_empty (headers sheet_structure)) in
      template_sheets all rest (Dict.set String.eqb data sheet_name sheet_data)
  end.

(** [ExcelSchema.generate_yaml_template] *)
Definition generate_yaml_template (s : Structure) : result Template :=
  let all := get_or_empty (sheets s) in
  data <- template_sheets all (Dict.keys all) [] ;;
  Ok {| template_schema := s; template_data := data |}.

(** ** The object-validation engine (JSON Schema draft 7)

    Only the keywords the derived schema contains are interpreted:
    [type], [properties], [items] and [additionalProperties]; any other
    key of a schema ([$schema], [title], [description]) is an annotation. *)

Inductive path_elem : Type :=
| PKey (k : string)
| PIndex (i : nat).

(** A validation error: the keyword that failed and where in the instance. *)
Record ValidationError : Type := {
  validator : string;
  path : list path_elem
}.

Definition is_integral_float (x : spec_float) : bool :=
  match x with
  | S754_zero _ => true
  | S754_finite _ m e =>
      (0 <=? e) || (Z.pos m mod 2 ^ (- e) =? 0)
  | _ => false
  end.

(** [validator.is_type(instance, type)] with the draft-7 type checker. *)
Definition is_type (instance : json) (type : string) : bool :=
  if String.eqb type "array" then
    match instance with JList _ => true | _ => false end
  else if String.eqb type "boolean" then
    match instance with JBool _ => true | _ => false end
  else if String.eqb type "integer" then
    match instance with
    | JInt _ => true
    | JFloat x => is_integral_float x
    | _ => false
    end
  else if String.eqb type "null" then
    match instance with JNull => true | _ => false end
  else if String.eqb type "number" then
    match instance with JInt _ | JFloat _ => true | _ => false end
  else if String.eqb type "object" then
    match instance with JDict _ => true | _ => false end
  else if String.eqb type "string" then
    match instance with JStr _ => true | _ => false end
  else false.

(** The [type] keyword: one name or a list of names. *)
Definition type_names (types : json) : list string :=
  match types with
  | JStr t => [t]
  | JList ts =>
      flat_map (fun t => match t with JStr n => [n] | _ => [] end) ts
  | _ => []
  end.

(** Properties of the instance that the schema's [properties] do not
    declare. *)
Definition find_additional_properties (instance : list (string * json))
    (schema : list (string * json)) : list (string * json) :=
  let properties :=
    match Dict.get String.eqb schema "properties" with
    | Some (JDict declared) => declared
    | _ => []
    end in
  filter (fun entry => negb (Dict.mem String.eqb properties (fst entry)))
         instance.

(** [validator.iter_errors(instance)]: every error, in the order the
    keywords of each schema are visited. *)
Fixpoint iter_errors (schema instance : json) (at_path : list path_elem)
    {struct schema} : list ValidationError :=
  match schema with
  | JBool false => [{| validator := ""; path := at_path |}]
  | JDict keywords =>
      flat_map
        (fun keyword =>
           match keyword with
           | (k, v) =>
               if String.eqb k "type" then
                 if existsb (is_type instance) (type_names v) then []
                 else [{| validator := "type"; path := at_path |}]
               else if String.eqb k "properties" then
                 match v, instance with
                 | JDict properties, JDict obj =>
                     flat_map
                       (fun property =>
                          match property with
                          | (p, subschema) =>
                              match Dict.get String.eqb obj p with
                              | Some x =>
                                  iter_errors subschema x (at_path ++ [PKey p])
                              | None => []
                              end
                          end)
                       properties
                 | _, _ => []
                 end
               else if String.eqb k "items" then
                 match instance with
                 | JList elements =>
                     flat_map
                       (fun indexed =>
                          iter_errors v (snd indexed)
                            (at_path ++ [PIndex (fst indexed)]))
                       (combine (seq 0 (List.length elements)) elements)
                 | _ => []
                 end
               else if String.eqb k "additionalProperties" then
                 match instance with
                 | JDict obj =>
                     let extras := find_additional_properties obj keywords in
                     match v with
                     | JDict _ =>
                         flat_map
                           (fun extra =>
                              iter_errors v (snd extra)
                                (at_path ++ [PKey (fst extra)]))
                           extras
                     | JBool false =>
                         match extras with
                         | [] => []
                         | _ :: _ =>
                             [{| validator := "additionalProperties";
                                 path := at_path |}]
                         end
                     | _ => []
                     end
                 | _ => []
                 end
               else []
           end)
        keywords
  | _ => []
  end.

(** What the engine adds to [iter_errors]: [best_match] picks the single
    error that [jsonschema.validate] raises, and [error_str] is [str(e)].
    The choice is a heuristic of the engine; all that is relied on is that
    it returns nothing for no errors and one of the errors otherwise. *)
Record Engine : Type := {
  best_match : list ValidationError -> option ValidationError;
  error_str : ValidationError -> string;
  best_match_nil : best_match [] = None;
  best_match_in :
    forall e es, exists b, best_match (e :: es) = Some b /\ In b (e :: es)
}.

(** [jsonschema.validate(instance, schema)]: [None] when it returns,
    [Some e] when it raises the validation error [e].  The schemas derived
    by [to_json_schema] are well-formed, so the check of the schema that
    precedes validation always passes. *)
Definition jsonschema_validate (engine : Engine) (instance schema : json)
  : option ValidationError :=
  best_match engine (iter_errors schema instance []).

(** [ExcelSchema.validate_data] *)
Definition validate_data (engine : Engine) (s : Structure) (data : json)
  : list string :=
  let errors := [] in
  let schema := to_json_schema s in
  match jsonschema_validate engine (JDict [("data", data)]) schema with
  | Some e => errors ++ [error_str engine e]
  | None => errors
  end.

(** ** Notions used to state the properties *)

(** What [sheet.cell(row, column).value] is for indices from 1 on. *)
Definition value_at (sheet : Worksheet) (row column : Z) : pyvalue :=
  if (row <=? max_row sheet) && (column <=? max_column sheet)
  then cell_value sheet row column
  else PyNone.

(** A header entry with its [data_type] key set. *)
Definition with_data_type (info : HeaderInfo) (dt : string) : HeaderInfo :=
  {| name := name info;
     column_letter := column_letter info;
     data_type := Some dt |}.

(** The tag that the cell under a header key gets in a given row. *)
Definition type_at (sheet : Worksheet) (row : Z) (k : colkey) : string :=
  match k with
  | KInt col => _detect_data_type (value_at sheet row col)
  | KStr _ => ""
  end.

(** The entry written for a column whose header cell is truthy. *)
Definition header_entry (float_repr : spec_float -> string)
    (sheet : Worksheet) (h col : Z) : HeaderInfo :=
  {| name := py_str float_repr (value_at sheet h col);
     column_letter := get_column_letter col;
     data_type := None |}.

Definition int_key (k : colkey) : Prop := exists col, k = KInt col /\ 1 <= col.

(** The shape of a [headers] mapping that extraction produces: distinct
    keys, all of them column numbers. *)
Definition extracted_headers (hs : Headers) : Prop :=
  NoDup (Dict.keys hs) /\ Forall int_key (Dict.keys hs).

Fixpoint no_space (s : string) : bool :=
  match s with
  | EmptyString => true
  | String c rest => negb (is_space c) && no_space rest
  end.

(** A sheet description whose [headers], when present, have the extracted
    shape. *)
Definition extracted_sheet (sh : SheetStructure) : Prop :=
  match headers sh with
  | Some hs => extracted_headers hs
  | None => True
  end.

(** Header keys that stay distinct when written as text, so that none is
    lost in JSON. *)
Definition text_distinct_keys (hs : Headers) : Prop :=
  NoDup (map (fun kv => key_text (fst kv)) hs).

Definition text_distinct_structure (s : Structure) : Prop :=
  forall n sh hs,
    In (n, sh) (get_or_empty (sheets s)) -> headers sh = Some hs ->
    text_distinct_keys hs.

(** A [headers] mapping with every key in its string form. *)
Definition keys_as_text (hs : Headers) : Headers :=
  map (fun kv => (KStr (key_text (fst kv)), snd kv)) hs.

(** [j[k]] and [j[k1][k2]...] on a JSON-like document. *)
Definition json_get (j : json) (k : string) : option json :=
  match j with
  | JDict entries => Dict.get String.eqb entries k
  | _ => None
  end.

Fixpoint json_path (j : json) (ks : list string) : option json :=
  match ks with
  | [] => Some j
  | k :: rest =>
      match json_get j k with
      | Some inner => json_path inner rest
      | None => None
      end
  end.

(** The name a header entry contributes to the schema and the template. *)
Definition entry_name (entry : colkey * HeaderInfo) : string :=
  name (snd entry).

(** A structure with a sheet whose two columns carry the same name. *)
Definition total_integer : HeaderInfo :=
  {| name := "Total"; column_letter := "A"; data_type := Some "integer" |}.

Definition total_text : HeaderInfo :=
  {| name := "Total"; column_letter := "B"; data_type := Some "string" |}.

Definition duplicate_sheet : SheetStructure :=
  {| columns := [];
     rows := 2;
     columns_count := 2;
     merged_cells := [];
     headers := Some [(KInt 1, total_integer); (KInt 2, total_text)] |}.

Definition duplicate_structure : Structure :=
  {| sheets := Some [("Sheet1", duplicate_sheet)];
     named_ranges := Some [];
     file_properties :=
       Some {| filename := Some "book.xlsx";
               sheet_count := Some 1;
               fp_header_row := Some 1 |} |}.

(** ** Sample inputs *)

(** A stand-in for the runtime's [repr] of a float, exact on zeros,
    infinities and NaN. *)
Definition sample_float_repr (x : spec_float) : string :=
  match x with
  | S754_zero false => "0.0"
  | S754_zero true => "-0.0"
  | S754_infinity false => "inf"
  | S754_infinity true => "-inf"
  | S754_nan => "nan"
  | S754_finite _ _ _ => "1.5"
  end.

(** The sheet of the test fixture, with a fifth column whose header cell
    holds the number 0. *)
Definition sample_sheet1 : Worksheet :=
  {| max_row := 3;
     max_column := 5;
     cell_value := fun row col =>
       match row, col with
       | 1, 1 => PyStr "ID"
       | 1, 2 => PyStr "Name"
       | 1, 3 => PyStr "Age"
       | 1, 4 => PyStr "Date"
       | 1, 5 => PyInt 0
       | 2, 1 => PyInt 1
       | 2, 2 => PyStr "John Doe"
       | 2, 3 => PyInt 30
       | 2, 4 => PyStr "2023-01-01"
       | 2, 5 => PyBool true
       | 3, 1 => PyInt 2
       | 3, 2 => PyStr "Jane Smith"
       | 3, 3 => PyInt 28
       | 3, 4 => PyStr "2023-02-15"
       | 3, 5 => PyBool false
       | _, _ => PyNone
       end;
     sheet_merged_cells := [] |}.

Definition sample_sheet2 : Worksheet :=
  {| max_row := 2;
     max_column := 2;
     cell_value := fun row col =>
       match row, col with
       | 1, 1 => PyStr "Product"
       | 1, 2 => PyStr "Price"
       | 2, 1 => PyStr "Widget"
       | 2, 2 => PyFloat (S754_finite false 5626487790795325 (-48))
       | _, _ => PyNone
       end;
     sheet_merged_cells := [] |}.

Definition sample_workbook : Workbook :=
  {| worksheets := [("Sheet1", sample_sheet1); ("Sheet2", sample_sheet2)];
     defined_names := Some [] |}.

Definition sample_instance : ExcelSync :=
  {| excel_file := "/tmp/book.xlsx";
     workbook := sample_workbook;
     schema := ExcelSchema_init None;
     header_row := 1 |}.

(** Files under [/tmp]: the workbook, and free names for a structure
    file, a second structure file and a YAML export.  Every other path,
    taken here as lying under a directory that does not exist, cannot be
    opened. *)
Definition sample_files : FileSystem :=
  {| node_of := fun p =>
       if String.eqb p "/tmp/book.xlsx" then FileNode 0%nat
       else if String.eqb p "/tmp/s.json" then FileNode 1%nat
       else if String.eqb p "/tmp/t.json" then FileNode 2%nat
       else if String.eqb p "/tmp/d.yaml" then FileNode 3%nat
       else NoFile false FileNotFoundError;
     content := fun l =>
       match l with
       | O => Some (XlsxFile sample_workbook)
       | _ => None
       end;
     denied := fun _ _ => None |}.

Definition sample_world : world :=
  {| self := sample_instance;
     files := sample_files |}.

(** A structure with one sheet whose only column is an integer column,
    and data for it that breaks the schema twice: a text where an integer
    is expected, and a property that the sheet does not declare. *)
Definition sample_structure : Structure :=
  {| sheets :=
       Some [("Sheet1",
              {| columns := [];
                 rows := 2;
                 columns_count := 1;
                 merged_cells := [];
                 headers :=
                   Some [(KInt 1, {| name := "ID";
                                     column_letter := "A";
                                     data_type := Some "integer" |})] |})];
     named_ranges := Some [];
     file_properties :=
       Some {| filename := Some "book.xlsx";
               sheet_count := Some 1;
               fp_header_row := Some 1 |} |}.

Definition sample_bad_data : json :=
  JDict [("Sheet1", JList [JDict [("ID", JStr "x"); ("Extra", JInt 1)]])].

(** An engine whose [best_match] is the first error found. *)
Definition first_error_engine : Engine :=
  {| best_match := fun errors =>
       match errors with
       | [] => None
       | e :: _ => Some e
       end;
     error_str := fun e => validator e;
     best_match_nil := eq_refl;
     best_match_in := fun e es =>
       ex_intro _ e (conj eq_refl (or_introl eq_refl)) |}.

(** ** Further notions used to state properties *)

(** The header entry that extraction writes for a column. *)
Definition extracted_entry (float_repr : spec_float -> string)
    (sheet : Worksheet) (h col : Z) : colkey * HeaderInfo :=
  (KInt col,
   {| name := py_str float_repr (cell_value sheet h col);
      column_letter := get_column_letter col;
      data_type :=
        if h + 1 <=? max_row sheet
        then Some (_detect_data_type (cell_value sheet (h + 1) col))
        else None |}).

(** The columns of a sheet whose cell in row [h] is truthy, in increasing
    order. *)
Definition truthy_columns (sheet : Worksheet) (h : Z) : list Z :=
  filter (fun col => py_truthy (cell_value sheet h col))
         (py_range 1 (max_column sheet + 1)).

(** Two sheets with the same extent and merged ranges that hold the same
    values in two given rows. *)
Definition same_rows (s s' : Worksheet) (r1 r2 : Z) : Prop :=
  max_row s = max_row s'
  /\ max_column s = max_column s'
  /\ sheet_merged_cells s = sheet_merged_cells s'
  /\ (forall col, cell_value s r1 col = cell_value s' r1 col)
  /\ (forall col, cell_value s r2 col = cell_value s' r2 col).

(** The first sample sheet with other values in its third row. *)
Definition sample_sheet1_changed : Worksheet :=
  {| max_row := max_row sample_sheet1;
     max_column := max_column sample_sheet1;
     cell_value := fun row col =>
       if row =? 3 then PyStr "changed" else cell_value sample_sheet1 row col;
     sheet_merged_cells := sheet_merged_cells sample_sheet1 |}.

(** What the check of one expected column adds to the issues, once its
    key is read as the column number [col]. *)
Definition column_issue (current_headers : Headers) (sheet_name : string)
    (col : Z) (header_info : HeaderInfo) : list string :=
  match Dict.get colkey_eqb current_headers (KInt col) with
  | None =>
      [fstring ["Missing column "; str_int col; " in sheet "; sheet_name]]
  | Some current =>
      if String.eqb (name current) (name header_info) then []
      else [fstring ["Header mismatch in sheet "; sheet_name;
                     ", column "; str_int col; ": ";
                     "expected '"; name header_info;
                     "', got '"; name current; "'"]]
  end.

(** An expected column that the current headers hold under the same
    number and with the same name. *)
Definition column_matches (current_headers : Headers)
    (entry : colkey * HeaderInfo) : Prop :=
  exists col current,
    coerce_col (fst entry) = Ok col
    /\ Dict.get colkey_eqb current_headers (KInt col) = Some current
    /\ name current = name (snd entry).

(** An expected sheet that the current structure holds, with every
    expected column matched. *)
Definition sheet_matches (expected current : Structure) (sheet_name : string)
  : Prop :=
  exists expected_sheet current_sheet,
    Dict.get String.eqb (get_or_empty (sheets expected)) sheet_name
    = Some expected_sheet
    /\ Dict.get String.eqb (get_or_empty (sheets current)) sheet_name
       = Some current_sheet
    /\ Forall (column_matches (get_or_empty (headers current_sheet)))
              (get_or_empty (headers expected_sheet)).

Definition header_rows_agree (expected current : Structure) : Prop :=
  match get_header_row expected, get_header_row current with
  | Some e, Some c => e = c
  | _, _ => True
  end.

(** Everything the expected structure asks for is in the current one. *)
Definition contained (expected current : Structure) : Prop :=
  header_rows_agree expected current
  /\ Forall (sheet_matches expected current)
            (Dict.keys (get_or_empty (sheets expected))).

(** Every column key of the expected structure reads as an integer. *)
Definition coercible (expected : Structure) : Prop :=
  forall sheet_name expected_sheet entry,
    Dict.get String.eqb (get_or_empty (sheets expected)) sheet_name
    = Some expected_sheet ->
    In entry (get_or_empty (headers expected_sheet)) ->
    exists col, coerce_col (fst entry) = Ok col.

(** The sample structure with its header renamed, with a second sheet, and
    with a key that is no number. *)
Definition renamed_structure : Structure :=
  {| sheets :=
       Some [("Sheet1",
              {| columns := [];
                 rows := 2;
                 columns_count := 1;
                 merged_cells := [];
                 headers :=
                   Some [(KStr "1", {| name := "Modified";
                                       column_letter := "A";
                                       data_type := None |});
                         (KStr "2", {| name := "Name";
                                       column_letter := "B";
                                       data_type := None |})] |});
             ("Sheet3",
              {| columns := [];
                 rows := 1;
                 columns_count := 1;
                 merged_cells := [];
                 headers := None |})];
     named_ranges := None;
     file_properties :=
       Some {| filename := None; sheet_count := None; fp_header_row := Some 4 |} |}.

Definition misspelt_structure : Structure :=
  {| sheets :=
       Some [("Sheet1",
              {| columns := [];
                 rows := 2;
                 columns_count := 1;
                 merged_cells := [];
                 headers :=
                   Some [(KStr "A", {| name := "ID";
                                       column_letter := "A";
                                       data_type := None |})] |})];
     named_ranges := None;
     file_properties := None |}.

(** [ExcelSchema.save_structure], called on the schema of the instance:
    the file is opened as [Path(output_file)]. *)
Definition schema_save_structure (output_file : string) : M unit :=
  mbind get_self
    (fun this =>
       write (path_str output_file) (JsonText (structure (schema this)))).

(** The [data] of a template, as the document handed to [validate_data]. *)
Definition template_data_json (t : Template) : json :=
  JDict (map (fun kv => (fst kv, JList (map JDict (snd kv)))) (template_data t)).

(** The schema of the records of a sheet with the given properties. *)
Definition record_schema (properties : list (string * json)) : json :=
  JDict [("type", JStr "object");
         ("properties", JDict properties);
         ("additionalProperties", JBool false)].

(** Entries of two mappings that go together: same key, and a value that
    the schema on the other side accepts at every path. *)
Definition accepts (property : string * json) (entry : string * json) : Prop :=
  fst property = fst entry
  /\ forall at_path, iter_errors (snd property) (snd entry) at_path = [].

(** What a record of a sheet holds in a YAML export: under each key, the
    value of a cell of one row below the header row, in a column whose
    header cell is truthy and has the key as its text. *)
Definition yaml_record (float_repr : spec_float -> string)
    (sheet : Worksheet) (h : Z) (r : RowData) : Prop :=
  r <> []
  /\ exists row,
       h < row <= max_row sheet
       /\ forall k v, In (k, v) r ->
            v <> PyNone
            /\ exists col,
                 1 <= col <= max_column sheet
                 /\ py_truthy (cell_value sheet h col) = true
                 /\ k = py_str float_repr (cell_value sheet h col)
                 /\ v = cell_value sheet row col.

(** What the header loop of [export_to_yaml] leaves of a sheet: a sheet
    that has a column and ends above row [h] now reaches row [h], with no
    value in the rows it gained. *)
Definition reach_row (h : Z) (sheet : Worksheet) : Worksheet :=
  if (max_row sheet <? h) && (1 <=? max_column sheet) then
    {| max_row := h;
       max_column := max_column sheet;
       cell_value := value_at sheet;
       sheet_merged_cells := sheet_merged_cells sheet |}
  else sheet.

(** A workbook whose sheets are those of [wb0], some of them having
    reached row [h]. *)
Definition sheets_reaching (h : Z) (wb0 wb : Workbook) : Prop :=
  sheetnames wb = sheetnames wb0
  /\ defined_names wb = defined_names wb0
  /\ forall n s, workbook_getitem wb0 n = Ok s ->
       workbook_getitem wb n = Ok s
       \/ workbook_getitem wb n = Ok (reach_row h s).

(** A path whose file, if it leads to one, may be opened for reading. *)
Definition readable (fs : FileSystem) (p : string) : Prop :=
  forall l, node_of fs p = FileNode l -> denied fs Reading l = None.

(** The default of the interpreter's limit on the digits of a conversion
    between integer and text, and the numbers and keys within it. *)
Definition int_max_str_digits : Z := 4300.

Definition small_int (n : Z) : bool :=
  Z.of_nat (String.length (str_int (Z.abs n))) <=? int_max_str_digits.

Definition small_key (k : colkey) : bool :=
  match k with
  | KInt n => small_int n
  | KStr text => Z.of_nat (String.length text) <=? int_max_str_digits
  end.

Definition small_keys (s : Structure) : bool :=
  forallb (fun sheet =>
             forallb (fun entry => small_key (fst entry))
                     (get_or_empty (headers (snd sheet))))
          (get_or_empty (sheets s)).

Definition small_header_row (s : Structure) : bool :=
  match get_header_row s with
  | Some row => small_int row
  | None => true
  end.

(** The sample world with the sample structure stored in a file. *)
Definition sample_world_with_file : world :=
  {| self := sample_instance;
     files := write_file sample_files 1%nat (JsonText sample_structure) |}.

(** * Properties *)

(** ** Dictionaries *)

Module DictFacts.
Section Facts.
Context {K V : Type}.
Variable eqb : K -> K -> bool.
Hypothesis eqb_spec : forall a b, eqb a b = true <-> a = b.
#[local] Set Default Proof Using "All".

Lemma eqb_refl (k : K) : eqb k k = true.
Proof. now apply eqb_spec. Qed.

Lemma eqb_neq (a b : K) : a <> b -> eqb a b = false.
Proof.
  intros Hne. destruct (eqb a b) eqn:E; [|reflexivity].
  apply eqb_spec in E. contradiction.
Qed.

Lemma get_set_same (d : list (K * V)) k v :
  Dict.get eqb (Dict.set eqb d k v) k = Some v.
Proof.
  induction d as [|[k' v'] d IH]; simpl.
  - now rewrite eqb_refl.
  - destruct (eqb k k') eqn:E; simpl; rewrite E; auto.
Qed.

Lemma get_set_other (d : list (K * V)) k k' v :
  k' <> k -> Dict.get eqb (Dict.set eqb d k v) k' = Dict.get eqb d k'.
Proof.
  intros Hne. induction d as [|[k0 v0] d IH]; simpl.
  - now rewrite (eqb_neq k' k).
  - destruct (eqb k k0) eqn:E; simpl.
    + apply eqb_spec in E. subst k0. now rewrite (eqb_neq k' k).
    + now rewrite IH.
Qed.

Lemma get_some_in_keys (d : list (K * V)) k v :
  Dict.get eqb d k = Some v -> In k (Dict.keys d).
Proof.
  induction d as [|[k' v'] d IH]; simpl; [discriminate|].
  destruct (eqb k k') eqn:E.
  - apply eqb_spec in E. auto.
  - auto.
Qed.

Lemma get_none_not_in_keys (d : list (K * V)) k :
  Dict.get eqb d k = None -> ~ In k (Dict.keys d).
Proof.
  induction d as [|[k' v'] d IH]; simpl; [tauto|].
  destruct (eqb k k') eqn:E; [discriminate|].
  intros Hn [Heq|Hin]; [|now apply IH].
  subst k'. rewrite eqb_refl in E. discriminate.
Qed.

Lemma in_keys_mem (d : list (K * V)) k :
  In k (Dict.keys d) <-> Dict.mem eqb d k = true.
Proof.
  unfold Dict.mem. split.
  - destruct (Dict.get eqb d k) eqn:E; [reflexivity|].
    intros Hin. now apply get_none_not_in_keys in E.
  - destruct (Dict.get eqb d k) eqn:E; [|discriminate].
    intros _. eapply get_some_in_keys; eauto.
Qed.

(** Assignment adds the key at the end unless it is already there. *)
Lemma keys_set (d : list (K * V)) k v :
  Dict.keys (Dict.set eqb d k v)
  = if Dict.mem eqb d k then Dict.keys d else Dict.keys d ++ [k].
Proof.
  unfold Dict.mem.
  induction d as [|[k' v'] d IH]; simpl; [reflexivity|].
  destruct (eqb k k') eqn:E; simpl; [reflexivity|].
  rewrite IH. now destruct (Dict.get eqb d k).
Qed.

Lemma in_keys_set (d : list (K * V)) k v k' :
  In k' (Dict.keys (Dict.set eqb d k v)) <-> k' = k \/ In k' (Dict.keys d).
Proof.
  rewrite keys_set. destruct (Dict.mem eqb d k) eqn:E.
  - apply in_keys_mem in E. split; [auto|]. intros [->|H]; auto.
  - rewrite in_app_iff. simpl. intuition.
Qed.

Lemma NoDup_keys_set (d : list (K * V)) k v :
  NoDup (Dict.keys d) -> NoDup (Dict.keys (Dict.set eqb d k v)).
Proof.
  intros Hnd. rewrite keys_set. destruct (Dict.mem eqb d k) eqn:E; [assumption|].
  assert (Hnot : ~ In k (Dict.keys d)).
  { intros Hin. apply in_keys_mem in Hin. congruence. }
  clear E. induction (Dict.keys d) as [|a l IH]; simpl.
  - constructor; [tauto|constructor].
  - inversion Hnd; subst. constructor.
    + rewrite in_app_iff. simpl. intros [H|[H|[]]]; [tauto|].
      subst. apply Hnot. now left.
    + apply IH; auto. intros H. apply Hnot. now right.
Qed.

(** In a dictionary every item is what its key looks up. *)
Lemma in_get (d : list (K * V)) k v :
  NoDup (Dict.keys d) -> In (k, v) d -> Dict.get eqb d k = Some v.
Proof.
  induction d as [|[k' v'] d IH]; simpl; [tauto|].
  intros Hnd [Heq|Hin].
  - inversion Heq; subst. now rewrite eqb_refl.
  - inversion Hnd; subst. destruct (eqb k k') eqn:E.
    + apply eqb_spec in E. subst k'. exfalso. apply H1.
      change k with (fst (k, v)). now apply in_map.
    + auto.
Qed.

Lemma get_in (d : list (K * V)) k v :
  Dict.get eqb d k = Some v -> In (k, v) d.
Proof.
  induction d as [|[k' v'] d IH]; simpl; [discriminate|].
  destruct (eqb k k') eqn:E.
  - apply eqb_spec in E. intros [= ->]. subst. now left.
  - auto.
Qed.

Lemma in_set (d : list (K * V)) k v k' v' :
  In (k', v') (Dict.set eqb d k v) -> (k', v') = (k, v) \/ In (k', v') d.
Proof.
  induction d as [|[k0 v0] d IH]; simpl.
  - intros [H|[]]; auto.
  - destruct (eqb k k0) eqn:E; simpl.
    + apply eqb_spec in E. subst k0. intros [H|H]; auto.
    + intros [H|H]; auto. destruct (IH H); auto.
Qed.

Lemma NoDup_keys_fold_set {A : Type} (f : A -> K) (g : A -> V) (l : list A)
    (d : list (K * V)) :
  NoDup (Dict.keys d) ->
  NoDup (Dict.keys (fold_left (fun acc a => Dict.set eqb acc (f a) (g a)) l d)).
Proof.
  revert d. induction l as [|a l IH]; simpl; intros d Hnd; [assumption|].
  apply IH. now apply NoDup_keys_set.
Qed.

(** After a run of assignments a key holds what the last assignment to it
    wrote, or what it held before when none wrote to it. *)
Lemma get_fold_set_last {A : Type} (f : A -> K) (g : A -> V)
    (before after : list A) (a : A) (d : list (K * V)) :
  (forall b, In b after -> f b <> f a) ->
  Dict.get eqb
    (fold_left (fun acc x => Dict.set eqb acc (f x) (g x))
               (before ++ a :: after) d) (f a)
  = Some (g a).
Proof.
  intros Hlast. rewrite fold_left_app. simpl.
  set (d1 := fold_left _ before d). clearbody d1.
  assert (H : Dict.get eqb (Dict.set eqb d1 (f a) (g a)) (f a) = Some (g a))
    by apply get_set_same.
  revert H. generalize (Dict.set eqb d1 (f a) (g a)). 
  induction after as [|b after IH]; simpl; intros d2 H; [assumption|].
  apply IH.
  - intros c Hc. apply Hlast. now right.
  - rewrite get_set_other; [assumption|].
    intros Heq. apply (Hlast b); [now left|]. now symmetry.
Qed.

Lemma in_keys_fold_set {A : Type} (f : A -> K) (g : A -> V) (l : list A)
    (d : list (K * V)) k :
  In k (Dict.keys (fold_left (fun acc a => Dict.set eqb acc (f a) (g a)) l d))
  <-> In k (Dict.keys d) \/ In k (map f l).
Proof.
  revert d. induction l as [|a l IH]; simpl; intros d; [tauto|].
  rewrite IH, in_keys_set. intuition.
Qed.
End Facts.
End DictFacts.

Lemma string_eqb_spec (a b : string) : String.eqb a b = true <-> a = b.
Proof. apply String.eqb_eq. Qed.

Lemma colkey_eqb_spec (a b : colkey) : colkey_eqb a b = true <-> a = b.
Proof.
  destruct a, b; simpl; split; intros H; try discriminate; try congruence.
  - apply Z.eqb_eq in H. congruence.
  - inversion H. apply Z.eqb_refl.
  - apply String.eqb_eq in H. congruence.
  - inversion H. apply String.eqb_refl.
Qed.

Lemma colkey_eqb_refl (k : colkey) : colkey_eqb k k = true.
Proof. now apply colkey_eqb_spec. Qed.

Lemma get_fold_set_inv {K V A : Type} (eqb : K -> K -> bool)
    (eqb_spec : forall a b, eqb a b = true <-> a = b)
    (f : A -> K) (g : A -> V) (l : list A) :
  forall (d : list (K * V)) k v,
    Dict.get eqb (fold_left (fun acc a => Dict.set eqb acc (f a) (g a)) l d) k
    = Some v ->
    Dict.get eqb d k = Some v \/ exists a, In a l /\ f a = k /\ g a = v.
Proof.
  induction l as [|a l IH]; simpl; intros d k v H; [now left|].
  destruct (IH _ _ _ H) as [Hd|[b [Hb [Hf Hg]]]].
  - destruct (eqb k (f a)) eqn:E.
    + apply eqb_spec in E. subst k.
      rewrite (DictFacts.get_set_same eqb eqb_spec) in Hd.
      inversion Hd. right. exists a. auto.
    + rewrite (DictFacts.get_set_other eqb eqb_spec) in Hd; [now left|].
      intros ->. rewrite (proj2 (eqb_spec _ _) eq_refl) in E. discriminate.
  - right. exists b. auto.
Qed.

(** Where the keys are distinct, a run of assignments of a dictionary's
    own items leaves each name holding the image of its item. *)
Lemma get_fold_set_item {V W : Type} (g : string * V -> W)
    (d : list (string * V)) (k : string) (v : V) :
  NoDup (Dict.keys d) -> In (k, v) d ->
  Dict.get String.eqb
    (fold_left (fun acc e => Dict.set String.eqb acc (fst e) (g e)) d []) k
  = Some (g (k, v)).
Proof.
  intros Hnd Hin. destruct (in_split _ _ Hin) as [before [after ->]].
  apply (DictFacts.get_fold_set_last String.eqb string_eqb_spec
           fst g before after (k, v) []).
  intros [k' v'] Hb. simpl. intros ->.
  unfold Dict.keys in Hnd. rewrite map_app in Hnd. simpl in Hnd.
  apply NoDup_remove_2 in Hnd. apply Hnd. apply in_or_app. right.
  change k with (fst (k, v')). now apply in_map.
Qed.

(** ** [_detect_data_type] *)

(** C2: the six rules of [_detect_data_type] apply in priority order: a
    missing value is "null"; a boolean, although it is also an instance of
    [int], is "boolean" and never "integer"; any other integer is
    "integer"; a float is "number"; a text is "datetime" exactly when its
    lower-cased form contains one of the four indicators and "string"
    otherwise; any other object gets its type name; and every value gets
    exactly one tag. *)
Theorem detect_data_type_priority :
  _detect_data_type PyNone = "null"
  /\ (forall b, isinstance_int (PyBool b) = true
                /\ _detect_data_type (PyBool b) = "boolean"
                /\ _detect_data_type (PyBool b) <> "integer")
  /\ (forall n, _detect_data_type (PyInt n) = "integer")
  /\ (forall x, _detect_data_type (PyFloat x) = "number")
  /\ (forall s, _detect_data_type (PyStr s)
                = if existsb (fun i => str_contains i (lower s))
                             ["/"; "-"; "date"; "time"]
                  then "datetime" else "string")
  /\ (forall o, _detect_data_type (PyObject o) = type_name o)
  /\ (forall v, exists! tag, _detect_data_type v = tag).
Proof.
  split; [reflexivity|].
  split; [intros b; repeat split; discriminate|].
  split; [reflexivity|].
  split; [reflexivity|].
  split; [reflexivity|].
  split; [reflexivity|].
  intros v. exists (_detect_data_type v). split; [reflexivity|].
  intros tag H. exact H.
Qed.

(** ** [int(str(n))] *)

Lemma parse_digits_acc (d : Decimal.uint) (acc : positive) :
  parse_digits (NilEmpty.string_of_uint d) (Z.pos acc) true
  = Some (Z.pos (Pos.of_uint_acc d acc)).
Proof.
  revert acc. induction d; intros acc; [reflexivity|..];
    cbn [NilEmpty.string_of_uint Pos.of_uint_acc];
    rewrite <- IHd; cbn [parse_digits];
    match goal with
    | |- context [digit_value ?c] =>
        let v := eval vm_compute in (digit_value c) in
        change (digit_value c) with v; cbv iota
    end;
    f_equal; lia.
Qed.

Lemma parse_digits_uint (d : Decimal.uint) (b : bool) :
  d <> Decimal.Nil ->
  parse_digits (NilEmpty.string_of_uint d) 0 b = Some (Z.of_N (Pos.of_uint d)).
Proof.
  revert b. induction d; intros b Hnil; try congruence;
    try (simpl; rewrite <- parse_digits_acc; reflexivity).
  simpl. destruct d; try (apply IHd; discriminate). reflexivity.
Qed.

Lemma is_space_digit c d : digit_value c = Some d -> is_space c = false.
Proof.
  unfold digit_value, is_space.
  destruct c as [[] [] [] [] [] [] [] []]; simpl; intros H; try discriminate; reflexivity.
Qed.


Lemma lstrip_no_space s : no_space s = true -> lstrip s = s.
Proof.
  destruct s; simpl; [reflexivity|]. intros H.
  apply andb_prop in H. destruct H as [H _].
  now destruct (is_space a).
Qed.

Lemma rstrip_no_space s : no_space s = true -> rstrip s = s.
Proof.
  induction s; simpl; [reflexivity|]. intros H.
  apply andb_prop in H. destruct H as [Ha Hs].
  rewrite (IHs Hs). destruct s; [|reflexivity].
  now destruct (is_space a).
Qed.

Lemma no_space_uint d : no_space (NilEmpty.string_of_uint d) = true.
Proof. induction d; simpl; auto. Qed.

Lemma strip_uint d : strip (NilEmpty.string_of_uint d) = NilEmpty.string_of_uint d.
Proof.
  unfold strip. rewrite lstrip_no_space by apply no_space_uint.
  apply rstrip_no_space, no_space_uint.
Qed.

Lemma py_int_uint (d : Decimal.uint) :
  d <> Decimal.Nil ->
  py_int (NilEmpty.string_of_uint d) = Ok (Z.of_N (Pos.of_uint d)).
Proof.
  intros Hnil. unfold py_int. rewrite strip_uint.
  pose proof (parse_digits_uint d false Hnil) as Hp.
  destruct d; try congruence; simpl in *; rewrite Hp; reflexivity.
Qed.

Lemma py_int_neg_uint (d : Decimal.uint) :
  d <> Decimal.Nil ->
  py_int (String "-" (NilEmpty.string_of_uint d)) = Ok (- Z.of_N (Pos.of_uint d)).
Proof.
  intros Hnil. unfold py_int.
  assert (Hs : strip (String "-" (NilEmpty.string_of_uint d))
               = String "-" (NilEmpty.string_of_uint d)).
  { unfold strip. rewrite lstrip_no_space, rstrip_no_space; auto;
      simpl; apply no_space_uint. }
  rewrite Hs. simpl. now rewrite (parse_digits_uint d false Hnil).
Qed.

(** [int] reads back what [str] wrote for an integer. *)
Lemma py_int_str_int (n : Z) : py_int (str_int n) = Ok n.
Proof.
  unfold str_int. destruct n as [|p|p]; simpl.
  - reflexivity.
  - rewrite py_int_uint by apply DecimalPos.Unsigned.to_uint_nonnil.
    now rewrite DecimalPos.Unsigned.of_to.
  - rewrite py_int_neg_uint by apply DecimalPos.Unsigned.to_uint_nonnil.
    now rewrite DecimalPos.Unsigned.of_to.
Qed.

(** ** Extraction *)

Lemma in_py_range (lo hi c : Z) : In c (py_range lo hi) <-> lo <= c < hi.
Proof.
  unfold py_range. rewrite in_map_iff. split.
  - intros [i [<- Hi]]. apply in_seq in Hi. lia.
  - intros H. exists (Z.to_nat (c - lo)). split; [lia|].
    apply in_seq. lia.
Qed.

Lemma cell_ok (sheet : Worksheet) (row column : Z) :
  1 <= row -> 1 <= column -> cell sheet row column = Ok (value_at sheet row column).
Proof.
  intros Hr Hc. unfold cell, value_at.
  destruct (row <? 1) eqn:E1; [apply Z.ltb_lt in E1; lia|].
  destruct (column <? 1) eqn:E2; [apply Z.ltb_lt in E2; lia|].
  simpl. now destruct ((row <=? max_row sheet) && (column <=? max_column sheet)).
Qed.

Lemma cell_below_one (sheet : Worksheet) (row column : Z) :
  row < 1 -> cell sheet row column = Raise ValueError.
Proof.
  intros H. unfold cell. apply Z.ltb_lt in H. now rewrite H.
Qed.

Lemma set_data_type_keys hs k dt :
  Dict.keys (set_data_type hs k dt) = Dict.keys hs.
Proof.
  unfold set_data_type. destruct (Dict.get colkey_eqb hs k) eqn:E; [|reflexivity].
  rewrite (DictFacts.keys_set colkey_eqb colkey_eqb_spec).
  unfold Dict.mem. now rewrite E.
Qed.

Lemma get_set_data_type hs k dt k' :
  Dict.get colkey_eqb (set_data_type hs k dt) k'
  = if colkey_eqb k' k
    then option_map (fun info => with_data_type info dt) (Dict.get colkey_eqb hs k')
    else Dict.get colkey_eqb hs k'.
Proof.
  unfold set_data_type. destruct (colkey_eqb k' k) eqn:E.
  - apply colkey_eqb_spec in E. subst k'.
    destruct (Dict.get colkey_eqb hs k) eqn:G; simpl.
    + now rewrite (DictFacts.get_set_same colkey_eqb colkey_eqb_spec).
    + now rewrite G.
  - destruct (Dict.get colkey_eqb hs k) eqn:G; [|reflexivity].
    apply (DictFacts.get_set_other colkey_eqb colkey_eqb_spec).
    intros ->. rewrite colkey_eqb_refl in E. discriminate.
Qed.

Section ExtractionFacts.
Variable float_repr : spec_float -> string.

Lemma extract_headers_spec (sheet : Worksheet) (h : Z) (cols : list Z) :
  1 <= h -> Forall (fun c => 1 <= c) cols ->
  forall acc, exists hs,
    extract_headers float_repr sheet h cols acc = Ok hs
    /\ (forall k, Dict.get colkey_eqb hs k
          = match k with
            | KInt c =>
                if existsb (Z.eqb c) cols && py_truthy (value_at sheet h c)
                then Some (header_entry float_repr sheet h c)
                else Dict.get colkey_eqb acc k
            | KStr _ => Dict.get colkey_eqb acc k
            end)
    /\ (NoDup (Dict.keys acc) -> NoDup (Dict.keys hs))
    /\ (Forall int_key (Dict.keys acc) -> Forall int_key (Dict.keys hs)).
Proof.
  intros Hh Hcols. induction Hcols as [|col rest Hcol Hrest IH]; intros acc.
  - exists acc. simpl. repeat split; auto. intros [c|s]; reflexivity.
  - simpl. rewrite (cell_ok sheet h col Hh Hcol). simpl.
    destruct (py_truthy (value_at sheet h col)) eqn:Ht.
    + destruct (IH (Dict.set colkey_eqb acc (KInt col) (header_entry float_repr sheet h col)))
        as [hs [Hrun [Hget [Hnd Hint]]]].
      exists hs. split; [exact Hrun|]. split; [|split].
      * intros [c|s]; rewrite Hget.
        -- destruct (c =? col) eqn:E; simpl.
           ++ apply Z.eqb_eq in E. subst c. rewrite Ht.
              destruct (existsb (Z.eqb col) rest); simpl; [reflexivity|].
              apply (DictFacts.get_set_same colkey_eqb colkey_eqb_spec).
           ++ destruct (existsb (Z.eqb c) rest && py_truthy (value_at sheet h c));
                [reflexivity|].
              apply (DictFacts.get_set_other colkey_eqb colkey_eqb_spec).
              intros [= ->]. rewrite Z.eqb_refl in E. discriminate.
        -- apply (DictFacts.get_set_other colkey_eqb colkey_eqb_spec). discriminate.
      * intros H. apply Hnd.
        now apply (DictFacts.NoDup_keys_set colkey_eqb colkey_eqb_spec).
      * intros H. apply Hint. apply Forall_forall. intros k Hk.
        apply (DictFacts.in_keys_set colkey_eqb colkey_eqb_spec) in Hk.
        destruct Hk as [->|Hk].
        -- exists col. auto.
        -- rewrite Forall_forall in H. auto.
    + destruct (IH acc) as [hs [Hrun [Hget [Hnd Hint]]]].
      exists hs. split; [exact Hrun|]. split; [|split]; auto.
      intros [c|s]; rewrite Hget; [|reflexivity].
      destruct (c =? col) eqn:E; simpl; [|reflexivity].
      apply Z.eqb_eq in E. subst c. rewrite Ht.
      now rewrite andb_false_r.
Qed.

Lemma detect_data_types_spec (sheet : Worksheet) (row : Z) (ks : list colkey) :
  1 <= row -> Forall int_key ks ->
  forall hs, exists hs',
    detect_data_types sheet row ks hs = Ok hs'
    /\ Dict.keys hs' = Dict.keys hs
    /\ (forall k, Dict.get colkey_eqb hs' k
          = option_map
              (fun info => if existsb (colkey_eqb k) ks
                           then with_data_type info (type_at sheet row k)
                           else info)
              (Dict.get colkey_eqb hs k)).
Proof.
  intros Hrow Hks. induction Hks as [|k0 rest [col [-> Hcol]] Hrest IH]; intros hs.
  - exists hs. simpl. repeat split; auto.
    intros k. now destruct (Dict.get colkey_eqb hs k).
  - simpl. rewrite (cell_ok sheet row col Hrow Hcol). simpl.
    destruct (IH (set_data_type hs (KInt col)
                    (_detect_data_type (value_at sheet row col))))
      as [hs' [Hrun [Hkeys Hget]]].
    exists hs'. split; [exact Hrun|]. split.
    + now rewrite Hkeys, set_data_type_keys.
    + intros k. rewrite Hget, get_set_data_type.
      destruct (colkey_eqb k (KInt col)) eqn:E; simpl.
      * apply colkey_eqb_spec in E. subst k.
        destruct (Dict.get colkey_eqb hs (KInt col)); simpl; [|reflexivity].
        now destruct (existsb (colkey_eqb (KInt col)) rest).
      * reflexivity.
Qed.
End ExtractionFacts.

Lemma existsb_py_range (lo hi c : Z) :
  existsb (Z.eqb c) (py_range lo hi) = (lo <=? c) && (c <? hi).
Proof.
  destruct ((lo <=? c) && (c <? hi)) eqn:E.
  - apply existsb_exists. exists c. split; [|apply Z.eqb_refl].
    apply in_py_range. lia.
  - destruct (existsb (Z.eqb c) (py_range lo hi)) eqn:X; [|reflexivity].
    apply existsb_exists in X. destruct X as [x [Hin Heq]].
    apply Z.eqb_eq in Heq. subst x. apply in_py_range in Hin. lia.
Qed.

Lemma get_some_existsb_keys (hs : Headers) k info :
  Dict.get colkey_eqb hs k = Some info ->
  existsb (colkey_eqb k) (Dict.keys hs) = true.
Proof.
  intros H. apply existsb_exists. exists k. split; [|apply colkey_eqb_refl].
  eapply DictFacts.get_some_in_keys; eauto. apply colkey_eqb_spec.
Qed.

Section SheetFacts.
Variable float_repr : spec_float -> string.

(** What one sheet contributes, header by header. *)
Lemma extract_sheet_spec (sheet : Worksheet) (h : Z) :
  1 <= h ->
  exists sh,
    extract_sheet float_repr sheet h = Ok sh
    /\ extracted_sheet sh
    /\ if (h <=? max_row sheet) && (0 <? max_column sheet)
       then exists hs,
           headers sh = Some hs
           /\ forall k, Dict.get colkey_eqb hs k
                = match k with
                  | KInt c =>
                      if (1 <=? c) && (c <=? max_column sheet)
                         && py_truthy (cell_value sheet h c)
                      then Some
                             {| name := py_str float_repr (cell_value sheet h c);
                                column_letter := get_column_letter c;
                                data_type :=
                                  if h + 1 <=? max_row sheet
                                  then Some (_detect_data_type
                                               (cell_value sheet (h + 1) c))
                                  else None |}
                      else None
                  | KStr _ => None
                  end
       else headers sh = None.
Proof.
  intros Hh. unfold extract_sheet.
  destruct ((h <=? max_row sheet) && (0 <? max_column sheet)) eqn:G.
  2:{ eexists. split; [reflexivity|]. split; [exact I|reflexivity]. }
  apply andb_prop in G. destruct G as [G1 G2].
  apply Z.leb_le in G1. apply Z.ltb_lt in G2.
  assert (Hcols : Forall (fun c => 1 <= c) (py_range 1 (max_column sheet + 1))).
  { apply Forall_forall. intros c Hc. apply in_py_range in Hc. lia. }
  destruct (extract_headers_spec float_repr sheet h _ Hh Hcols [])
    as [hs0 [Hrun [Hget [Hnd Hint]]]].
  rewrite Hrun. simpl.
  assert (Hget0 : forall k, Dict.get colkey_eqb hs0 k
            = match k with
              | KInt c =>
                  if (1 <=? c) && (c <=? max_column sheet)
                     && py_truthy (cell_value sheet h c)
                  then Some {| name := py_str float_repr (cell_value sheet h c);
                               column_letter := get_column_letter c;
                               data_type := None |}
                  else None
              | KStr _ => None
              end).
  { intros [c|s]; rewrite Hget; [|reflexivity].
    rewrite existsb_py_range. simpl.
    replace (c <? max_column sheet + 1) with (c <=? max_column sheet)
      by (destruct (c <=? max_column sheet) eqn:A, (c <? max_column sheet + 1) eqn:B;
          try reflexivity; try apply Z.leb_le in A; try apply Z.ltb_lt in B;
          try apply Z.leb_gt in A; try apply Z.ltb_ge in B; lia).
    unfold header_entry, value_at.
    destruct (c <=? max_column sheet) eqn:A; [|now rewrite !andb_false_r].
    replace (h <=? max_row sheet) with true by (symmetry; now apply Z.leb_le).
    reflexivity. }
  assert (Hshape : extracted_headers hs0).
  { split; [apply Hnd; constructor|apply Hint; constructor]. }
  destruct (h + 1 <=? max_row sheet) eqn:D.
  - destruct (detect_data_types_spec sheet (h + 1) (Dict.keys hs0)
                ltac:(lia) (proj2 Hshape) hs0) as [hs1 [Hrun1 [Hkeys1 Hget1]]].
    rewrite Hrun1. simpl. eexists. split; [reflexivity|]. split.
    + unfold extracted_sheet, extracted_headers. simpl. now rewrite Hkeys1.
    + exists hs1. split; [reflexivity|].
      intros k. rewrite Hget1.
      destruct (Dict.get colkey_eqb hs0 k) as [info|] eqn:E0.
      * rewrite (get_some_existsb_keys hs0 k info E0). simpl.
        rewrite Hget0 in E0. destruct k as [c|s]; [|discriminate].
        destruct ((1 <=? c) && (c <=? max_column sheet)
                  && py_truthy (cell_value sheet h c)) eqn:T; [|discriminate].
        inversion E0; subst info. unfold with_data_type, type_at, value_at. simpl.
        apply andb_prop in T. destruct T as [T _].
        apply andb_prop in T. destruct T as [_ T]. rewrite T, D. reflexivity.
      * simpl. rewrite Hget0 in E0. destruct k as [c|s]; [|reflexivity].
        destruct ((1 <=? c) && (c <=? max_column sheet)
                  && py_truthy (cell_value sheet h c)); [discriminate|reflexivity].
  - simpl. eexists. split; [reflexivity|]. split; [exact Hshape|].
    exists hs0. split; [reflexivity|]. exact Hget0.
Qed.

Lemma forall_values_set {V : Type} (P : V -> Prop) (d : list (string * V)) k v :
  Forall P (map snd d) -> P v -> Forall P (map snd (Dict.set String.eqb d k v)).
Proof.
  intros Hd Hv. apply Forall_forall. intros x Hx.
  apply in_map_iff in Hx. destruct Hx as [[k' v'] [<- Hin]].
  apply (DictFacts.in_set String.eqb string_eqb_spec) in Hin.
  destruct Hin as [Heq|Hin].
  - inversion Heq; subst. exact Hv.
  - rewrite Forall_forall in Hd. apply Hd.
    change v' with (snd (k', v')). now apply in_map.
Qed.

(** The loop over the sheet names: each name ends up holding what its
    sheet contributes. *)
Lemma extract_sheets_spec (wb : Workbook) (h : Z) (names : list string) :
  1 <= h ->
  (forall n, In n names -> exists sheet, workbook_getitem wb n = Ok sheet) ->
  forall acc, exists shs,
    extract_sheets float_repr wb h names acc = Ok shs
    /\ (forall n sheet, In n names -> workbook_getitem wb n = Ok sheet ->
          exists sh, extract_sheet float_repr sheet h = Ok sh
                     /\ Dict.get String.eqb shs n = Some sh)
    /\ (NoDup (Dict.keys acc) -> NoDup (Dict.keys shs))
    /\ (Forall extracted_sheet (map snd acc) -> Forall extracted_sheet (map snd shs))
    /\ (forall n, ~ In n names ->
          Dict.get String.eqb shs n = Dict.get String.eqb acc n).
Proof.
  intros Hh. induction names as [|n0 rest IH]; intros Hall acc.
  - exists acc. simpl. repeat split; auto. intros n sheet [].
  - simpl. destruct (Hall n0 (or_introl eq_refl)) as [sheet0 Hs0].
    rewrite Hs0. simpl.
    destruct (extract_sheet_spec sheet0 h Hh) as [sh0 [Hsh0 [Hok0 _]]].
    rewrite Hsh0. simpl.
    destruct (IH (fun n Hn => Hall n (or_intror Hn))
                 (Dict.set String.eqb acc n0 sh0))
      as [shs [Hrun [Hget [Hnd [Hshape Hother]]]]].
    exists shs. split; [exact Hrun|]. split; [|split; [|split]].
    + intros n sheet Hin Hs.
      destruct (in_dec string_dec n rest) as [Hrest|Hrest].
      * now apply Hget.
      * destruct Hin as [->|Hin]; [|contradiction].
        rewrite Hs0 in Hs. inversion Hs; subst sheet.
        exists sh0. split; [exact Hsh0|].
        rewrite (Hother n Hrest).
        apply (DictFacts.get_set_same String.eqb string_eqb_spec).
    + intros H. apply Hnd.
      now apply (DictFacts.NoDup_keys_set String.eqb string_eqb_spec).
    + intros H. apply Hshape. now apply forall_values_set.
    + intros n Hn. rewrite Hother by (intros X; apply Hn; now right).
      apply (DictFacts.get_set_other String.eqb string_eqb_spec).
      intros ->. apply Hn. now left.
Qed.

Lemma sheetnames_getitem (wb : Workbook) (n : string) :
  In n (sheetnames wb) -> exists sheet, workbook_getitem wb n = Ok sheet.
Proof.
  intros Hin. unfold workbook_getitem, Dict.item.
  apply (DictFacts.in_keys_mem String.eqb string_eqb_spec) in Hin.
  unfold Dict.mem in Hin.
  destruct (Dict.get String.eqb (worksheets wb) n); [eauto|discriminate].
Qed.

Lemma getitem_sheetnames (wb : Workbook) (n : string) sheet :
  workbook_getitem wb n = Ok sheet -> In n (sheetnames wb).
Proof.
  unfold workbook_getitem, Dict.item.
  destruct (Dict.get String.eqb (worksheets wb) n) eqn:E; [|discriminate].
  intros _. eapply DictFacts.get_some_in_keys; eauto. apply string_eqb_spec.
Qed.

(** Extraction succeeds for a header row from 1 on, and the document it
    returns holds, under each sheet name, what that sheet contributes. *)
Lemma extract_spec (wb : Workbook) (file_name : string) (h : Z) :
  1 <= h ->
  exists d shs,
    extract float_repr wb file_name h = Ok d
    /\ sheets d = Some shs
    /\ get_header_row d = Some h
    /\ NoDup (Dict.keys shs)
    /\ Forall extracted_sheet (map snd shs)
    /\ (forall n sheet, workbook_getitem wb n = Ok sheet ->
          exists sh, extract_sheet float_repr sheet h = Ok sh
                     /\ Dict.get String.eqb shs n = Some sh).
Proof.
  intros Hh. unfold extract.
  destruct (extract_sheets_spec wb h (sheetnames wb) Hh
              (sheetnames_getitem wb) [])
    as [shs [Hrun [Hget [Hnd [Hshape _]]]]].
  rewrite Hrun. simpl. eexists. exists shs.
  split; [reflexivity|]. repeat split.
  - apply Hnd. constructor.
  - apply Hshape. constructor.
  - intros n sheet Hs. apply Hget; [|exact Hs].
    eapply getitem_sheetnames; eauto.
Qed.
End SheetFacts.
(** ** The extracted headers *)

(** C3: for a sheet with [max_row >= header_row] and [max_column > 0], and
    a column [col] in [1..max_column], extraction puts [col] among the
    sheet's headers exactly when the header cell's value is truthy; a
    header cell holding 0 or the empty string gives no entry. *)
Theorem header_present_iff_truthy (float_repr : spec_float -> string)
    (wb : Workbook) (file_name : string) (h : Z)
    (sheet_name : string) (sheet : Worksheet) (col : Z) :
  1 <= h ->
  workbook_getitem wb sheet_name = Ok sheet ->
  h <= max_row sheet -> 0 < max_column sheet ->
  1 <= col <= max_column sheet ->
  exists d sh hs,
    extract float_repr wb file_name h = Ok d
    /\ Dict.get String.eqb (get_or_empty (sheets d)) sheet_name = Some sh
    /\ headers sh = Some hs
    /\ (Dict.mem colkey_eqb hs (KInt col) = true
        <-> py_truthy (cell_value sheet h col) = true)
    /\ (cell_value sheet h col = PyInt 0 \/ cell_value sheet h col = PyStr "" ->
        Dict.get colkey_eqb hs (KInt col) = None).
Proof.
  intros Hh Hsheet Hrow Hcols Hcol.
  destruct (extract_spec float_repr wb file_name h Hh)
    as [d [shs [Hd [Hshs [_ [_ [_ Hget]]]]]]].
  destruct (Hget sheet_name sheet Hsheet) as [sh [Hsh Hlook]].
  destruct (extract_sheet_spec float_repr sheet h Hh) as [sh' [Hsh' [_ Hhs]]].
  rewrite Hsh in Hsh'. inversion Hsh'; subst sh'. clear Hsh'.
  replace ((h <=? max_row sheet) && (0 <? max_column sheet)) with true in Hhs.
  2:{ symmetry. apply andb_true_intro. split; [apply Z.leb_le|apply Z.ltb_lt]; lia. }
  destruct Hhs as [hs [Hhs Hentry]].
  exists d, sh, hs. split; [exact Hd|]. split; [now rewrite Hshs|].
  split; [exact Hhs|].
  assert (Hin : (1 <=? col) && (col <=? max_column sheet) = true).
  { apply andb_true_intro. split; apply Z.leb_le; lia. }
  unfold Dict.mem. rewrite (Hentry (KInt col)), Hin. simpl. split.
  - destruct (py_truthy (cell_value sheet h col)); simpl; split; auto; discriminate.
  - intros [E|E]; rewrite E; reflexivity.
Qed.

(** C4: in an extracted sheet every header entry belongs to a column
    number, carries a [data_type] exactly when the sheet's last row is at
    least [header_row + 1], and that type is the tag of the one cell in
    row [header_row + 1] of its column. *)
Theorem data_type_from_first_data_row (float_repr : spec_float -> string)
    (wb : Workbook) (file_name : string) (h : Z)
    (sheet_name : string) (sheet : Worksheet) :
  1 <= h ->
  workbook_getitem wb sheet_name = Ok sheet ->
  exists d sh,
    extract float_repr wb file_name h = Ok d
    /\ Dict.get String.eqb (get_or_empty (sheets d)) sheet_name = Some sh
    /\ forall hs k info,
         headers sh = Some hs -> In (k, info) hs ->
         exists col,
           k = KInt col
           /\ (data_type info <> None <-> h + 1 <= max_row sheet)
           /\ (h + 1 <= max_row sheet ->
               data_type info
               = Some (_detect_data_type (cell_value sheet (h + 1) col))).
Proof.
  intros Hh Hsheet.
  destruct (extract_spec float_repr wb file_name h Hh)
    as [d [shs [Hd [Hshs [_ [_ [_ Hget]]]]]]].
  destruct (Hget sheet_name sheet Hsheet) as [sh [Hsh Hlook]].
  exists d, sh. split; [exact Hd|]. split; [now rewrite Hshs|].
  intros hs k info Hhs Hin.
  destruct (extract_sheet_spec float_repr sheet h Hh) as [sh' [Hsh' [Hshape Hentry]]].
  rewrite Hsh in Hsh'. inversion Hsh'; subst sh'. clear Hsh'.
  unfold extracted_sheet in Hshape. rewrite Hhs in Hshape.
  destruct ((h <=? max_row sheet) && (0 <? max_column sheet));
    [|rewrite Hhs in Hentry; discriminate].
  destruct Hentry as [hs' [Hhs' Hentry]].
  rewrite Hhs in Hhs'. inversion Hhs'; subst hs'. clear Hhs'.
  pose proof (DictFacts.in_get colkey_eqb colkey_eqb_spec hs k info
                (proj1 Hshape) Hin) as Hk.
  rewrite Hentry in Hk. destruct k as [col|s]; [|discriminate].
  exists col. split; [reflexivity|].
  destruct ((1 <=? col) && (col <=? max_column sheet)
            && py_truthy (cell_value sheet h col)); [|discriminate].
  inversion Hk; subst info. simpl.
  destruct (h + 1 <=? max_row sheet) eqn:D.
  - apply Z.leb_le in D. split; [split; [auto|discriminate]|reflexivity].
  - apply Z.leb_gt in D. split; [split; [congruence|lia]|lia].
Qed.

(** ** Validation *)

Lemma check_headers_self (hs : Headers) (sheet_name : string) :
  extracted_headers hs ->
  forall items issues,
    incl items hs ->
    check_headers hs sheet_name items issues = Ok issues.
Proof.
  intros [Hnd Hint] items. induction items as [|[k info] rest IH];
    intros issues Hincl; [reflexivity|].
  simpl. unfold check_column. simpl.
  assert (Hin : In (k, info) hs) by (apply Hincl; now left).
  rewrite Forall_forall in Hint.
  destruct (Hint k) as [col [-> _]].
  { change k with (fst (k, info)). now apply in_map. }
  simpl.
  rewrite (DictFacts.in_get colkey_eqb colkey_eqb_spec hs _ _ Hnd Hin).
  rewrite String.eqb_refl. simpl.
  apply IH. intros x Hx. apply Hincl. now right.
Qed.

Lemma check_sheets_self (d : Structure) (shs : list (string * SheetStructure)) :
  sheets d = Some shs ->
  Forall extracted_sheet (map snd shs) ->
  forall names issues,
    incl names (Dict.keys shs) ->
    check_sheets d d names issues = Ok issues.
Proof.
  intros Hshs Hshape names. induction names as [|n rest IH];
    intros issues Hincl; [reflexivity|].
  simpl. rewrite Hshs. simpl.
  assert (Hn : In n (Dict.keys shs)) by (apply Hincl; now left).
  pose proof Hn as Hmem.
  apply (DictFacts.in_keys_mem String.eqb string_eqb_spec) in Hmem.
  rewrite Hmem. simpl. unfold Dict.mem in Hmem. unfold Dict.item.
  destruct (Dict.get String.eqb shs n) as [sh|] eqn:E; [|discriminate].
  simpl.
  assert (Hok : extracted_sheet sh).
  { rewrite Forall_forall in Hshape. apply Hshape.
    apply (DictFacts.get_in String.eqb string_eqb_spec) in E.
    change sh with (snd (n, sh)). now apply in_map. }
  unfold extracted_sheet in Hok.
  destruct (headers sh) as [hs|]; simpl.
  - rewrite (check_headers_self hs n Hok hs issues (incl_refl _)). simpl.
    apply IH. intros x Hx. apply Hincl. now right.
  - apply IH. intros x Hx. apply Hincl. now right.
Qed.

(** C5: for a header row from 1 on, the structure extracted from a
    workbook compares against itself as [(True, [])]; so validating an
    instance against the structure just extracted from it, with the same
    header row, returns [(True, [])]. *)
Theorem structure_valid_against_itself (float_repr : spec_float -> string)
    (w : world) (override : option Z) :
  1 <= resolve_header_row override (self w) ->
  exists d,
    extract float_repr (workbook (self w)) (path_name (excel_file (self w)))
            (resolve_header_row override (self w)) = Ok d
    /\ compare d (Some d) = Ok (true, [])
    /\ extract_structure float_repr override w = (Ok d, w)
    /\ validate_structure float_repr (Some d) override w = (Ok (true, []), w).
Proof.
  intros Hh.
  destruct (extract_spec float_repr (workbook (self w))
              (path_name (excel_file (self w))) _ Hh)
    as [d [shs [Hd [Hshs [Hrow [_ [Hshape _]]]]]]].
  assert (Hcmp : compare d (Some d) = Ok (true, [])).
  { unfold compare. rewrite Hrow, Z.eqb_refl. simpl. rewrite Hshs. simpl.
    now rewrite (check_sheets_self d shs Hshs Hshape _ [] (incl_refl _)). }
  exists d. split; [exact Hd|]. split; [exact Hcmp|].
  unfold validate_structure, extract_structure, mbind, get_self, lift.
  rewrite Hd. split; [reflexivity|]. now rewrite Hcmp.
Qed.

(** C6: for a header row from 1 on, validation without an expected
    structure returns [(True, [])], whatever the workbook holds. *)
Theorem no_expected_structure_is_valid (float_repr : spec_float -> string)
    (w : world) (override : option Z) :
  1 <= resolve_header_row override (self w) ->
  validate_structure float_repr None override w = (Ok (true, []), w).
Proof.
  intros Hh.
  destruct (extract_spec float_repr (workbook (self w))
              (path_name (excel_file (self w))) _ Hh) as [d [shs [Hd _]]].
  unfold validate_structure, extract_structure, mbind, get_self, lift.
  now rewrite Hd.
Qed.

(** ** Column keys *)

Lemma coerce_col_key_text (k : colkey) :
  coerce_col (KStr (key_text k)) = coerce_col k.
Proof. destruct k as [n|s]; simpl; [apply py_int_str_int|reflexivity]. Qed.

Lemma check_column_key_text (current_headers : Headers) (sheet_name : string)
    (issues : list string) (k : colkey) (info : HeaderInfo) :
  check_column current_headers sheet_name issues (KStr (key_text k), info)
  = check_column current_headers sheet_name issues (k, info).
Proof.
  unfold check_column. cbn [fst snd]. now rewrite coerce_col_key_text.
Qed.

(** ** Expected structures read back from JSON *)

Lemma set_fresh {K V : Type} (eqb : K -> K -> bool)
    (eqb_spec : forall a b, eqb a b = true <-> a = b)
    (d : list (K * V)) k v :
  ~ In k (Dict.keys d) -> Dict.set eqb d k v = d ++ [(k, v)].
Proof.
  induction d as [|[k' v'] d IH]; simpl; intros Hnot; [reflexivity|].
  destruct (eqb k k') eqn:E.
  - apply eqb_spec in E. subst k'. exfalso. apply Hnot. now left.
  - rewrite IH; [reflexivity|]. intros H. apply Hnot. now right.
Qed.

Lemma of_items_distinct {K V : Type} (eqb : K -> K -> bool)
    (eqb_spec : forall a b, eqb a b = true <-> a = b) (l : list (K * V)) :
  NoDup (Dict.keys l) -> Dict.of_items eqb l = l.
Proof.
  unfold Dict.of_items.
  assert (H : forall acc,
             NoDup (Dict.keys (acc ++ l)) ->
             fold_left (fun d kv => Dict.set eqb d (fst kv) (snd kv)) l acc
             = acc ++ l).
  { induction l as [|[k v] l IH]; intros acc Hnd; simpl.
    - now rewrite app_nil_r.
    - rewrite (set_fresh eqb eqb_spec).
      + rewrite IH; rewrite <- app_assoc; [reflexivity|exact Hnd].
      + unfold Dict.keys in Hnd. rewrite map_app in Hnd. simpl in Hnd.
        apply NoDup_remove_2 in Hnd. intros Hin. apply Hnd.
        apply in_or_app. now left. }
  intros Hnd. apply (H []). exact Hnd.
Qed.

Lemma NoDup_map_injective {A B : Type} (f : A -> B) (l : list A) :
  (forall a b, f a = f b -> a = b) -> NoDup l -> NoDup (map f l).
Proof.
  intros Hinj Hnd. induction Hnd as [|a l Hnot Hnd IH]; simpl; constructor.
  - intros Hin. apply in_map_iff in Hin. destruct Hin as [b [Hb Hin]].
    apply Hinj in Hb. now subst b.
  - exact IH.
Qed.

Lemma json_headers_distinct (hs : Headers) :
  text_distinct_keys hs -> json_headers hs = keys_as_text hs.
Proof.
  intros Hnd. unfold json_headers. apply (of_items_distinct colkey_eqb colkey_eqb_spec).
  unfold Dict.keys, keys_as_text, text_distinct_keys in *. rewrite map_map. simpl.
  rewrite <- (map_map (fun kv : colkey * HeaderInfo => key_text (fst kv)) KStr).
  apply NoDup_map_injective; [|exact Hnd].
  intros a b H. now inversion H.
Qed.

Lemma get_map_values {V W : Type} (f : V -> W) (d : list (string * V)) k :
  Dict.get String.eqb (map (fun kv => (fst kv, f (snd kv))) d) k
  = option_map f (Dict.get String.eqb d k).
Proof.
  induction d as [|[k' v'] d IH]; simpl; [reflexivity|].
  now destruct (String.eqb k k').
Qed.

Lemma check_headers_keys_as_text (current_headers : Headers)
    (sheet_name : string) (items : Headers) (issues : list string) :
  check_headers current_headers sheet_name (keys_as_text items) issues
  = check_headers current_headers sheet_name items issues.
Proof.
  revert issues. induction items as [|[k info] rest IH]; intros issues;
    [reflexivity|].
  cbn [keys_as_text map check_headers fst snd]. rewrite check_column_key_text.
  destruct (check_column current_headers sheet_name issues (k, info));
    simpl; [apply IH|reflexivity].
Qed.

Lemma check_sheets_json (expected current : Structure) :
  text_distinct_structure expected ->
  forall names issues,
    check_sheets (json_structure expected) current names issues
    = check_sheets expected current names issues.
Proof.
  intros Hdistinct names. induction names as [|n rest IH]; intros issues;
    [reflexivity|].
  cbn [check_sheets].
  destruct (negb (Dict.mem String.eqb (get_or_empty (sheets current)) n));
    [apply IH|].
  assert (Hitem : Dict.get String.eqb
                    (get_or_empty (sheets (json_structure expected))) n
                  = option_map json_sheet
                      (Dict.get String.eqb (get_or_empty (sheets expected)) n)).
  { unfold json_structure. simpl. destruct (sheets expected) as [shs|]; simpl;
      [apply get_map_values|reflexivity]. }
  unfold Dict.item. rewrite Hitem.
  destruct (Dict.get String.eqb (get_or_empty (sheets expected)) n)
    as [sh|] eqn:E; simpl; [|reflexivity].
  destruct (Dict.get String.eqb (get_or_empty (sheets current)) n)
    as [cur|]; simpl; [|reflexivity].
  apply (DictFacts.get_in String.eqb string_eqb_spec) in E.
  destruct (headers sh) as [hs|] eqn:Hhs; simpl.
  - rewrite (json_headers_distinct hs (Hdistinct n sh hs E Hhs)).
    rewrite check_headers_keys_as_text.
    destruct (check_headers (get_or_empty (headers cur)) n hs issues);
      simpl; [apply IH|reflexivity].
  - apply IH.
Qed.

(** Comparing against an expected structure that went through JSON gives
    what comparing against the structure itself gives. *)
Lemma compare_json_structure (current expected : Structure) :
  text_distinct_structure expected ->
  compare current (Some (json_structure expected))
  = compare current (Some expected).
Proof.
  intros Hdistinct. unfold compare.
  replace (get_header_row (json_structure expected))
    with (get_header_row expected) by reflexivity.
  replace (Dict.keys (get_or_empty (sheets (json_structure expected))))
    with (Dict.keys (get_or_empty (sheets expected))).
  2:{ unfold json_structure, Dict.keys. simpl.
      destruct (sheets expected); simpl; [|reflexivity].
      now rewrite map_map. }
  now rewrite (check_sheets_json expected current Hdistinct).
Qed.



(** ** The stored header row *)

(** C10: [extract_structure], [validate_structure], [compare_structure],
    [export_structure] and [export_to_yaml] leave the stored [header_row]
    as it was, with or without an override and whether they return or
    raise; [load_structure] sets it to the loaded document's
    [file_properties.header_row] when the document has that key, and
    leaves it as it was otherwise. *)
Theorem stored_header_row_frame (float_repr : spec_float -> string) (w : world) :
  (forall override,
      header_row (self (snd (extract_structure float_repr override w)))
      = header_row (self w))
  /\ (forall expected override,
        header_row (self (snd (validate_structure float_repr expected override w)))
        = header_row (self w))
  /\ (forall structure_file override,
        header_row (self (snd (compare_structure float_repr structure_file override w)))
        = header_row (self w))
  /\ (forall output_file override,
        header_row (self (snd (export_structure float_repr output_file override w)))
        = header_row (self w))
  /\ (forall output_file override,
        header_row (self (snd (export_to_yaml float_repr output_file override w)))
        = header_row (self w))
  /\ (forall structure_file,
        header_row (self (snd (load_structure structure_file w)))
        = match read_file (files w) (path_str structure_file) with
          | Ok (JsonText loaded) =>
              match get_header_row loaded with
              | Some row => row
              | None => header_row (self w)
              end
          | _ => header_row (self w)
          end).
Proof.
  split; [|split; [|split; [|split; [|split]]]].
  - intros override. reflexivity.
  - intros expected override.
    unfold validate_structure, extract_structure, mbind, get_self, lift.
    now destruct (extract _ _ _ _).
  - intros structure_file override.
    unfold compare_structure, validate_structure, extract_structure,
      mbind, get_self, lift, read.
    destruct (read_file (files w) (path_str structure_file)) as [f|];
      [|reflexivity].
    destruct (json_load f); [|reflexivity].
    now destruct (extract _ _ _ _).
  - intros output_file override.
    unfold export_structure, extract_structure, mbind, get_self, lift, write.
    destruct (extract _ _ _ _); [|reflexivity].
    now destruct (open_for _ _ _).
  - intros output_file override.
    unfold export_to_yaml, extract_structure, mbind, get_self, lift,
      on_workbook, write.
    simpl. destruct (extract _ _ _ _); [|reflexivity].
    destruct (yaml_sheets _ _ _ _ _) as [[data|e] wb]; [|reflexivity].
    now destruct (open_for _ _ _).
  - intros structure_file.
    unfold load_structure, mbind, read, lift, set_schema_structure,
      set_header_row, ret, get_header_row.
    destruct (read_file (files w) (path_str structure_file))
      as [[wb|loaded|ys yd| |]|]; try reflexivity.
    simpl. destruct (file_properties loaded) as [props|]; [|reflexivity].
    now destruct (fp_header_row props).
Qed.

(** ** Data validation *)

(** [validate] raises at most one error, so at most one message comes
    back. *)
Lemma validate_data_length (engine : Engine) (s : Structure) (data : json) :
  (List.length (validate_data engine s data) <= 1)%nat.
Proof.
  unfold validate_data. destruct (jsonschema_validate _ _ _); simpl; lia.
Qed.

(** What [validate_data] returns: no message exactly when the data has no
    validation error against the derived schema, and otherwise exactly one
    message, that of one of the errors: the one the engine's [validate]
    raises. *)
Theorem validate_data_reports_one_error (engine : Engine) (s : Structure)
    (data : json) :
  let all_errors :=
    iter_errors (to_json_schema s) (JDict [("data", data)]) [] in
  (validate_data engine s data = [] <-> all_errors = [])
  /\ (List.length (validate_data engine s data) <= 1)%nat
  /\ (all_errors <> [] ->
      exists e, In e all_errors
                /\ validate_data engine s data = [error_str engine e]).
Proof.
  intros all_errors. unfold validate_data, jsonschema_validate.
  fold all_errors. destruct all_errors as [|e es].
  - rewrite (best_match_nil engine). simpl. repeat split; auto. congruence.
  - destruct (best_match_in engine e es) as [b [Hb Hin]]. rewrite Hb. simpl.
    repeat split; try discriminate; auto.
    intros _. exists b. auto.
Qed.

(** C1 at the sample data, which breaks the derived schema twice (a text
    where an integer is expected, and a property the sheet does not
    declare): whatever the engine, [validate_data] does not return the
    messages of both errors, although its documentation promises the list
    of the validation errors. *)
Lemma validate_data_not_every_error :
  ~ exists engine : Engine,
      validate_data engine sample_structure sample_bad_data
      = map (error_str engine)
            (iter_errors (to_json_schema sample_structure)
                         (JDict [("data", sample_bad_data)]) []).
Proof.
  intros [engine H].
  pose proof (validate_data_length engine sample_structure sample_bad_data)
    as Hlen.
  rewrite H in Hlen. vm_compute in Hlen. lia.
Qed.

(** ** Schema projection *)

Lemma json_path_sheet (s : Structure) (sheet_name : string) (rest : list string) :
  json_path (to_json_schema s)
    ("properties" :: "data" :: "properties" :: sheet_name :: rest)
  = match Dict.get String.eqb (data_properties s) sheet_name with
    | Some inner => json_path inner rest
    | None => None
    end.
Proof. reflexivity. Qed.

Lemma data_properties_get (s : Structure) shs sheet_name sh :
  sheets s = Some shs -> NoDup (Dict.keys shs) -> In (sheet_name, sh) shs ->
  Dict.get String.eqb (data_properties s) sheet_name = Some (sheet_schema sh).
Proof.
  intros Hs Hnd Hin. unfold data_properties. rewrite Hs. simpl.
  apply (get_fold_set_item (fun e => sheet_schema (snd e)) shs sheet_name sh Hnd Hin).
Qed.

Lemma schema_properties_NoDup (hs : Headers) :
  NoDup (Dict.keys (schema_properties hs)).
Proof.
  unfold schema_properties.
  apply (DictFacts.NoDup_keys_fold_set String.eqb string_eqb_spec
           entry_name
           (fun entry =>
              JDict [("type",
                      _map_to_json_schema_type (data_type_or_string (snd entry)));
                     ("description",
                      JStr (fstring ["Column "; column_letter (snd entry);
                                     " - "; name (snd entry)]))])).
  constructor.
Qed.



Lemma template_sheets_spec (all : list (string * SheetStructure))
    (names : list string) :
  incl names (Dict.keys all) ->
  forall acc, exists data,
    template_sheets all names acc = Ok data
    /\ (forall n sh, In n names -> Dict.get String.eqb all n = Some sh ->
          Dict.get String.eqb data n
          = Some (example_rows (get_or_empty (headers sh))))
    /\ (forall n, ~ In n names ->
          Dict.get String.eqb data n = Dict.get String.eqb acc n).
Proof.
  induction names as [|n0 rest IH]; intros Hincl acc.
  - exists acc. simpl. repeat split; auto. intros n sh [].
  - simpl. unfold Dict.item.
    assert (Hn0 : In n0 (Dict.keys all)) by (apply Hincl; now left).
    apply (DictFacts.in_keys_mem String.eqb string_eqb_spec) in Hn0.
    unfold Dict.mem in Hn0.
    destruct (Dict.get String.eqb all n0) as [sh0|] eqn:E0; [|discriminate].
    simpl.
    destruct (IH (fun x Hx => Hincl x (or_intror Hx))
                 (Dict.set String.eqb acc n0
                    (example_rows (get_or_empty (headers sh0)))))
      as [data [Hrun [Hget Hother]]].
    exists data. split; [exact Hrun|]. split.
    + intros n sh Hin Hsh.
      destruct (in_dec string_dec n rest) as [Hrest|Hrest]; [now apply Hget|].
      destruct Hin as [->|Hin]; [|contradiction].
      rewrite E0 in Hsh. inversion Hsh; subst sh0.
      rewrite (Hother n Hrest).
      apply (DictFacts.get_set_same String.eqb string_eqb_spec).
    + intros n Hn. rewrite Hother by (intros X; apply Hn; now right).
      apply (DictFacts.get_set_other String.eqb string_eqb_spec).
      intros ->. apply Hn. now left.
Qed.

Lemma example_row_NoDup (hs : Headers) : NoDup (Dict.keys (example_row hs)).
Proof.
  unfold example_row.
  apply (DictFacts.NoDup_keys_fold_set String.eqb string_eqb_spec
           entry_name
           (fun entry => _get_type_example (data_type_or_string (snd entry)))).
  constructor.
Qed.

Lemma count_occ_NoDup_one (l : list string) (x : string) :
  NoDup l -> In x l -> count_occ string_dec l x = 1%nat.
Proof.
  intros Hnd Hin. apply NoDup_count_occ' with (decA := string_dec) in Hin; auto.
Qed.

(** C9: when two columns of a sheet carry the same header name, and the
    second is the last column with that name, [to_json_schema] emits one
    property for the name, with the second column's type and description,
    and the example row of [generate_yaml_template] has one key for the
    name, with the second column's example value; both return normally. *)
Theorem duplicate_header_names_collapse (s : Structure)
    (shs : list (string * SheetStructure)) (sheet_name : string)
    (sh : SheetStructure) (hs before between after : Headers)
    (k1 k2 : colkey) (i1 i2 : HeaderInfo) :
  sheets s = Some shs -> NoDup (Dict.keys shs) -> In (sheet_name, sh) shs ->
  headers sh = Some hs ->
  hs = before ++ (k1, i1) :: between ++ (k2, i2) :: after ->
  name i1 = name i2 ->
  (forall e, In e after -> entry_name e <> name i2) ->
  (exists properties,
      json_path (to_json_schema s)
        ["properties"; "data"; "properties"; sheet_name; "items"; "properties"]
      = Some (JDict properties)
      /\ count_occ string_dec (Dict.keys properties) (name i2) = 1%nat
      /\ Dict.get String.eqb properties (name i2)
         = Some (JDict [("type",
                         _map_to_json_schema_type (data_type_or_string i2));
                        ("description",
                         JStr (fstring ["Column "; column_letter i2;
                                        " - "; name i2]))]))
  /\ (exists template row,
        generate_yaml_template s = Ok template
        /\ Dict.get String.eqb (template_data template) sheet_name = Some [row]
        /\ count_occ string_dec (Dict.keys row) (name i2) = 1%nat
        /\ Dict.get String.eqb row (name i2)
           = Some (_get_type_example (data_type_or_string i2))).
Proof.
  intros Hs Hnd Hin Hhs Hsplit Hsame Hlast.
  assert (Hlast' : forall e, In e after -> entry_name e <> entry_name (k2, i2))
    by exact Hlast.
  assert (Hregroup : hs = (before ++ (k1, i1) :: between) ++ (k2, i2) :: after).
  { rewrite Hsplit, <- app_assoc. reflexivity. }
  split.
  - exists (schema_properties hs).
    assert (Hget : Dict.get String.eqb (schema_properties hs) (name i2)
              = Some (JDict [("type",
                              _map_to_json_schema_type (data_type_or_string i2));
                             ("description",
                              JStr (fstring ["Column "; column_letter i2;
                                             " - "; name i2]))])).
    { unfold schema_properties. rewrite Hregroup.
      apply (DictFacts.get_fold_set_last String.eqb string_eqb_spec
               entry_name
               (fun entry =>
                  JDict [("type",
                          _map_to_json_schema_type
                            (data_type_or_string (snd entry)));
                         ("description",
                          JStr (fstring ["Column "; column_letter (snd entry);
                                         " - "; name (snd entry)]))])
               _ after (k2, i2) [] Hlast'). }
    split; [|split; [|exact Hget]].
    + rewrite json_path_sheet, (data_properties_get s shs sheet_name sh Hs Hnd Hin).
      unfold sheet_schema. rewrite Hhs. reflexivity.
    + apply count_occ_NoDup_one; [apply schema_properties_NoDup|].
      eapply DictFacts.get_some_in_keys; [apply string_eqb_spec|exact Hget].
  - unfold generate_yaml_template. rewrite Hs. simpl.
    destruct (template_sheets_spec shs (Dict.keys shs) (incl_refl _) [])
      as [data [Hrun [Hget _]]].
    rewrite Hrun. simpl. eexists. exists (example_row hs).
    split; [reflexivity|]. simpl.
    assert (Hrow : Dict.get String.eqb (example_row hs) (name i2)
              = Some (_get_type_example (data_type_or_string i2))).
    { unfold example_row. rewrite Hregroup.
      apply (DictFacts.get_fold_set_last String.eqb string_eqb_spec
               entry_name
               (fun entry => _get_type_example (data_type_or_string (snd entry)))
               _ after (k2, i2) [] Hlast'). }
    split; [|split; [|exact Hrow]].
    + rewrite (Hget sheet_name sh).
      * rewrite Hhs. simpl. rewrite Hsplit.
        destruct before; reflexivity.
      * change sheet_name with (fst (sheet_name, sh)). now apply in_map.
      * now apply (DictFacts.in_get String.eqb string_eqb_spec).
    + apply count_occ_NoDup_one; [apply example_row_NoDup|].
      eapply DictFacts.get_some_in_keys; [apply string_eqb_spec|exact Hrow].
Qed.

(** ** The properties at the sample inputs *)

(** The fifth column of the sample sheet has a header cell holding 0. *)
Lemma header_present_iff_truthy_witness :
  exists d sh hs,
    extract sample_float_repr sample_workbook "book.xlsx" 1 = Ok d
    /\ Dict.get String.eqb (get_or_empty (sheets d)) "Sheet1" = Some sh
    /\ headers sh = Some hs
    /\ (Dict.mem colkey_eqb hs (KInt 5) = true
        <-> py_truthy (cell_value sample_sheet1 1 5) = true)
    /\ (cell_value sample_sheet1 1 5 = PyInt 0
        \/ cell_value sample_sheet1 1 5 = PyStr "" ->
        Dict.get colkey_eqb hs (KInt 5) = None).
Proof.
  apply (header_present_iff_truthy sample_float_repr sample_workbook
           "book.xlsx" 1 "Sheet1" sample_sheet1 5);
    [lia | reflexivity | simpl; lia | simpl; lia | simpl; lia].
Defined.

(** The second sample sheet has a data row: a text and a float. *)
Lemma data_type_from_first_data_row_witness :
  exists d sh,
    extract sample_float_repr sample_workbook "book.xlsx" 1 = Ok d
    /\ Dict.get String.eqb (get_or_empty (sheets d)) "Sheet2" = Some sh
    /\ forall hs k info,
         headers sh = Some hs -> In (k, info) hs ->
         exists col,
           k = KInt col
           /\ (data_type info <> None <-> 1 + 1 <= max_row sample_sheet2)
           /\ (1 + 1 <= max_row sample_sheet2 ->
               data_type info
               = Some (_detect_data_type (cell_value sample_sheet2 (1 + 1) col))).
Proof.
  apply (data_type_from_first_data_row sample_float_repr sample_workbook
           "book.xlsx" 1 "Sheet2" sample_sheet2);
    [lia | reflexivity].
Defined.

(** The sample instance, with its stored header row 1. *)
Lemma structure_valid_against_itself_witness :
  exists d,
    extract sample_float_repr sample_workbook "book.xlsx" 1 = Ok d
    /\ compare d (Some d) = Ok (true, [])
    /\ extract_structure sample_float_repr None sample_world = (Ok d, sample_world)
    /\ validate_structure sample_float_repr (Some d) None sample_world
       = (Ok (true, []), sample_world).
Proof.
  apply (structure_valid_against_itself sample_float_repr sample_world None).
  simpl. lia.
Defined.

(** The sample instance, with header row 3 given for the call. *)
Lemma no_expected_structure_is_valid_witness :
  validate_structure sample_float_repr None (Some 3) sample_world
  = (Ok (true, []), sample_world).
Proof.
  apply (no_expected_structure_is_valid sample_float_repr sample_world (Some 3)).
  simpl. lia.
Defined.


(** The second "Total" column, a text column, is the one that stays. *)
Lemma duplicate_header_names_collapse_witness :
  (exists properties,
      json_path (to_json_schema duplicate_structure)
        ["properties"; "data"; "properties"; "Sheet1"; "items"; "properties"]
      = Some (JDict properties)
      /\ count_occ string_dec (Dict.keys properties) "Total" = 1%nat
      /\ Dict.get String.eqb properties "Total"
         = Some (JDict [("type", JStr "string");
                        ("description", JStr "Column B - Total")]))
  /\ (exists template row,
        generate_yaml_template duplicate_structure = Ok template
        /\ Dict.get String.eqb (template_data template) "Sheet1" = Some [row]
        /\ count_occ string_dec (Dict.keys row) "Total" = 1%nat
        /\ Dict.get String.eqb row "Total" = Some (JStr "example")).
Proof.
  apply (duplicate_header_names_collapse duplicate_structure
           [("Sheet1", duplicate_sheet)] "Sheet1" duplicate_sheet
           [(KInt 1, total_integer); (KInt 2, total_text)]
           [] [] [] (KInt 1) (KInt 2) total_integer total_text).
  - reflexivity.
  - constructor; [simpl; tauto|constructor].
  - now left.
  - reflexivity.
  - reflexivity.
  - reflexivity.
  - intros e [].
Defined.

(** ** The code at concrete inputs *)

(** Scenario 1 of the specification: the types of the four columns. *)
Example extract_sample_types :
  match extract sample_float_repr sample_workbook "book.xlsx" 1 with
  | Ok d =>
      match Dict.get String.eqb (get_or_empty (sheets d)) "Sheet1" with
      | Some sh =>
          map (fun kv => (fst kv, data_type (snd kv)))
              (get_or_empty (headers sh))
      | None => []
      end
  | Raise _ => []
  end
  = [(KInt 1, Some "integer"); (KInt 2, Some "string");
     (KInt 3, Some "integer"); (KInt 4, Some "datetime")].
Proof. reflexivity. Qed.

(** A header row below 1 is rejected by the worksheet. *)
Example extract_header_row_zero :
  extract sample_float_repr sample_workbook "book.xlsx" 0 = Raise ValueError.
Proof. reflexivity. Qed.

(** Scenario 3: a renamed header is reported, with the key read from its
    string form. *)
Example compare_renamed_header :
  check_column
    [(KInt 1, {| name := "Modified"; column_letter := "A"; data_type := None |})]
    "Sheet1" []
    (KStr "1", {| name := "ID"; column_letter := "A"; data_type := None |})
  = Ok ["Header mismatch in sheet Sheet1, column 1: expected 'ID', got 'Modified'"].
Proof. reflexivity. Qed.

(** The sample data has two errors; [validate_data] returns one message. *)
Example validate_sample_bad_data :
  List.length (iter_errors (to_json_schema sample_structure)
                 (JDict [("data", sample_bad_data)]) []) = 2%nat
  /\ validate_data first_error_engine sample_structure sample_bad_data = ["type"].
Proof. split; reflexivity. Qed.

(** [load_structure] after [export_structure] adopts the exported header
    row, as the test of the repository expects. *)
Example load_after_export_sets_header_row :
  let exported :=
    snd (export_structure sample_float_repr "/tmp/s.json" (Some 3) sample_world) in
  header_row (self exported) = 1
  /\ header_row (self (snd (load_structure "/tmp/s.json" exported))) = 3.
Proof. split; reflexivity. Qed.

(** The round trip of the specification: a structure exported to a file
    and compared with the same workbook gives [(True, [])]. *)
Example compare_after_export :
  let exported :=
    snd (export_structure sample_float_repr "/tmp/s.json" None sample_world) in
  fst (compare_structure sample_float_repr "/tmp/s.json" None exported)
  = Ok (true, []).
Proof. reflexivity. Qed.

(** * Further properties *)

(** ** The shape of an extracted document *)

Lemma NoDup_py_range (lo hi : Z) : NoDup (py_range lo hi).
Proof.
  unfold py_range. apply NoDup_map_injective; [|apply seq_NoDup].
  intros a b H. lia.
Qed.

(** A mapping is determined by the order of its keys and what they hold. *)
Lemma dict_ext {K V : Type} (eqb : K -> K -> bool)
    (eqb_spec : forall a b, eqb a b = true <-> a = b) (l l' : list (K * V)) :
  Dict.keys l = Dict.keys l' -> NoDup (Dict.keys l) ->
  (forall k, Dict.get eqb l k = Dict.get eqb l' k) -> l = l'.
Proof.
  unfold Dict.keys.
  revert l'. induction l as [|[k v] l IH]; intros [|[k' v'] l'] Hk Hnd Hget;
    simpl in Hk, Hnd; try discriminate; [reflexivity|].
  injection Hk as Hkk Hkeys. subst k'.
  apply NoDup_cons_iff in Hnd. destruct Hnd as [Hfresh Hnd].
  pose proof (Hget k) as Hv. simpl in Hv.
  rewrite (proj2 (eqb_spec k k) eq_refl) in Hv. injection Hv as Hv. subst v'.
  f_equal. apply IH; auto.
  intros k0. pose proof (Hget k0) as H0. simpl in H0.
  destruct (eqb k0 k) eqn:E; [|exact H0].
  apply eqb_spec in E. subst k0.
  assert (Hn : Dict.get eqb l k = None).
  { destruct (Dict.get eqb l k) eqn:G; [|reflexivity].
    exfalso. apply Hfresh.
    apply (DictFacts.get_some_in_keys eqb eqb_spec l k v0 G). }
  assert (Hn' : Dict.get eqb l' k = None).
  { destruct (Dict.get eqb l' k) eqn:G; [|reflexivity].
    exfalso. apply Hfresh. rewrite Hkeys.
    apply (DictFacts.get_some_in_keys eqb eqb_spec l' k v0 G). }
  now rewrite Hn, Hn'.
Qed.

Section ShapeFacts.
Variable float_repr : spec_float -> string.

Lemma extract_headers_keys (sheet : Worksheet) (h : Z) (cols : list Z) :
  1 <= h -> Forall (fun c => 1 <= c) cols -> NoDup cols ->
  forall acc,
    (forall c, In c cols -> ~ In (KInt c) (Dict.keys acc)) ->
    exists hs,
      extract_headers float_repr sheet h cols acc = Ok hs
      /\ Dict.keys hs
         = Dict.keys acc
           ++ map KInt (filter (fun c => py_truthy (value_at sheet h c)) cols).
Proof.
  intros Hh Hcols. induction Hcols as [|col rest Hcol Hrest IH];
    intros Hnd acc Hfresh.
  - exists acc. simpl. now rewrite app_nil_r.
  - apply NoDup_cons_iff in Hnd. destruct Hnd as [Hnew Hnd].
    simpl. rewrite (cell_ok sheet h col Hh Hcol). simpl.
    destruct (py_truthy (value_at sheet h col)) eqn:Ht.
    + destruct (IH Hnd (Dict.set colkey_eqb acc (KInt col)
                         (header_entry float_repr sheet h col)))
        as [hs [Hrun Hkeys]].
      * intros c Hc Hin.
        apply (DictFacts.in_keys_set colkey_eqb colkey_eqb_spec) in Hin.
        destruct Hin as [Heq|Hin].
        -- injection Heq as Heq. subst c. contradiction.
        -- apply (Hfresh c); [now right|exact Hin].
      * exists hs. split; [exact Hrun|]. rewrite Hkeys.
        rewrite (set_fresh colkey_eqb colkey_eqb_spec)
          by (apply Hfresh; now left).
        unfold Dict.keys. rewrite map_app, <- app_assoc. reflexivity.
    + apply IH; auto. intros c Hc. apply Hfresh. now right.
Qed.

Lemma extracted_entry_keys (sheet : Worksheet) (h : Z) (cols : list Z) :
  Dict.keys (map (extracted_entry float_repr sheet h) cols) = map KInt cols.
Proof.
  unfold Dict.keys. rewrite map_map. apply map_ext. reflexivity.
Qed.

(** The headers of a sheet that has a header row, as one list. *)
Lemma extract_sheet_headers (sheet : Worksheet) (h : Z) :
  1 <= h -> h <= max_row sheet -> 0 < max_column sheet ->
  exists sh,
    extract_sheet float_repr sheet h = Ok sh
    /\ headers sh
       = Some (map (extracted_entry float_repr sheet h) (truthy_columns sheet h)).
Proof.
  intros Hh Hrow Hcol.
  destruct (extract_sheet_spec float_repr sheet h Hh) as [sh [Hsh [Hshape Hget]]].
  exists sh. split; [exact Hsh|].
  replace ((h <=? max_row sheet) && (0 <? max_column sheet)) with true in Hget.
  2:{ symmetry. apply andb_true_intro. split; [apply Z.leb_le|apply Z.ltb_lt]; lia. }
  destruct Hget as [hs [Hhs Hget]]. rewrite Hhs. f_equal.
  unfold extracted_sheet in Hshape. rewrite Hhs in Hshape.
  destruct Hshape as [Hnd Hint].
  (* the keys, from the two loops *)
  assert (Hkeys : Dict.keys hs = map KInt (truthy_columns sheet h)).
  { unfold extract_sheet in Hsh.
    replace ((h <=? max_row sheet) && (0 <? max_column sheet)) with true in Hsh.
    2:{ symmetry. apply andb_true_intro. split; [apply Z.leb_le|apply Z.ltb_lt]; lia. }
    assert (Hcols : Forall (fun c => 1 <= c) (py_range 1 (max_column sheet + 1))).
    { apply Forall_forall. intros c Hc. apply in_py_range in Hc. lia. }
    destruct (extract_headers_keys sheet h _ Hh Hcols (NoDup_py_range _ _) [])
      as [hs0 [Hrun Hk0]].
    { intros c _ []. }
    rewrite Hrun in Hsh. simpl in Hsh, Hk0.
    assert (Hk0' : Dict.keys hs0 = map KInt (truthy_columns sheet h)).
    { rewrite Hk0. unfold truthy_columns. f_equal. apply filter_ext_in.
      intros c Hc. apply in_py_range in Hc. unfold value_at.
      replace (h <=? max_row sheet) with true by (symmetry; now apply Z.leb_le).
      replace (c <=? max_column sheet) with true
        by (symmetry; apply Z.leb_le; lia).
      reflexivity. }
    destruct (h + 1 <=? max_row sheet) eqn:D.
    - assert (Hik : Forall int_key (Dict.keys hs0)).
      { rewrite Hk0'. apply Forall_forall. intros k Hk.
        apply in_map_iff in Hk. destruct Hk as [c [<- Hc]].
        apply filter_In in Hc. destruct Hc as [Hc _].
        apply in_py_range in Hc. exists c. split; [reflexivity|lia]. }
      destruct (detect_data_types_spec sheet (h + 1) (Dict.keys hs0)
                  ltac:(lia) Hik hs0) as [hs1 [Hrun1 [Hkeys1 _]]].
      rewrite Hrun1 in Hsh. simpl in Hsh. inversion Hsh; subst sh.
      simpl in Hhs. inversion Hhs; subst hs. now rewrite Hkeys1.
    - simpl in Hsh. inversion Hsh; subst sh. simpl in Hhs.
      inversion Hhs; subst hs. exact Hk0'. }
  apply (dict_ext colkey_eqb colkey_eqb_spec); [| exact Hnd |].
  - now rewrite Hkeys, extracted_entry_keys.
  - intros k. rewrite Hget.
    assert (Hnd' : NoDup (Dict.keys (map (extracted_entry float_repr sheet h)
                                         (truthy_columns sheet h)))).
    { rewrite extracted_entry_keys, <- Hkeys. exact Hnd. }
    destruct k as [c|s].
    + destruct ((1 <=? c) && (c <=? max_column sheet)
                && py_truthy (cell_value sheet h c)) eqn:T.
      * symmetry. apply (DictFacts.in_get colkey_eqb colkey_eqb_spec); [exact Hnd'|].
        change (KInt c, _) with (extracted_entry float_repr sheet h c).
        apply in_map. unfold truthy_columns. apply filter_In.
        apply andb_prop in T. destruct T as [T1 T2].
        apply andb_prop in T1. destruct T1 as [A B].
        apply Z.leb_le in A. apply Z.leb_le in B.
        split; [apply in_py_range; lia|exact T2].
      * destruct (Dict.get colkey_eqb
                    (map (extracted_entry float_repr sheet h)
                         (truthy_columns sheet h)) (KInt c)) eqn:G;
          [|reflexivity].
        exfalso.
        apply (DictFacts.get_in colkey_eqb colkey_eqb_spec) in G.
        apply in_map_iff in G. destruct G as [c' [Heq Hin]].
        inversion Heq; subst c'. apply filter_In in Hin.
        destruct Hin as [Hr Ht]. apply in_py_range in Hr.
        rewrite Ht in T.
        replace (1 <=? c) with true in T by (symmetry; apply Z.leb_le; lia).
        replace (c <=? max_column sheet) with true in T
          by (symmetry; apply Z.leb_le; lia).
        discriminate.
    + destruct (Dict.get colkey_eqb
                  (map (extracted_entry float_repr sheet h)
                       (truthy_columns sheet h)) (KStr s)) eqn:G;
        [|reflexivity].
      exfalso.
      apply (DictFacts.get_in colkey_eqb colkey_eqb_spec) in G.
      apply in_map_iff in G. destruct G as [c' [Heq _]]. discriminate.
Qed.
End ShapeFacts.

Lemma py_range_cons (lo hi : Z) :
  lo < hi -> py_range lo hi = lo :: py_range (lo + 1) hi.
Proof.
  intros H. unfold py_range.
  replace (Z.to_nat (hi - lo)) with (S (Z.to_nat (hi - (lo + 1)))) by lia.
  simpl. f_equal; [lia|].
  rewrite <- seq_shift, map_map. apply map_ext. intros i. lia.
Qed.

Lemma cell_same (s s' : Worksheet) (row col : Z) :
  max_row s = max_row s' -> max_column s = max_column s' ->
  cell_value s row col = cell_value s' row col ->
  cell s row col = cell s' row col.
Proof. intros Hr Hc Hv. unfold cell. now rewrite Hr, Hc, Hv. Qed.

Section SheetShape.
Variable float_repr : spec_float -> string.

Lemma extract_sheet_fields (sheet : Worksheet) (h : Z) (sh : SheetStructure) :
  extract_sheet float_repr sheet h = Ok sh ->
  columns sh = []
  /\ rows sh = max_row sheet
  /\ columns_count sh = max_column sheet
  /\ merged_cells sh = sheet_merged_cells sheet.
Proof.
  unfold extract_sheet.
  destruct ((h <=? max_row sheet) && (0 <? max_column sheet)).
  - destruct (extract_headers float_repr sheet h _ []) as [hs0|e]; simpl;
      [|discriminate].
    destruct (if h + 1 <=? max_row sheet
              then detect_data_types sheet (h + 1) (Dict.keys hs0) hs0
              else Ok hs0) as [hs1|e]; simpl; [|discriminate].
    intros H. inversion H. simpl. auto.
  - intros H. inversion H. simpl. auto.
Qed.

Lemma extract_sheets_keys (wb : Workbook) (h : Z) (names : list string) :
  NoDup names ->
  forall acc shs,
    (forall n, In n names -> ~ In n (Dict.keys acc)) ->
    extract_sheets float_repr wb h names acc = Ok shs ->
    Dict.keys shs = Dict.keys acc ++ names.
Proof.
  induction names as [|n0 rest IH]; intros Hnd acc shs Hfresh Hrun.
  - simpl in Hrun. inversion Hrun. now rewrite app_nil_r.
  - apply NoDup_cons_iff in Hnd. destruct Hnd as [Hnew Hnd].
    simpl in Hrun.
    destruct (workbook_getitem wb n0) as [sheet0|e]; simpl in Hrun;
      [|discriminate].
    destruct (extract_sheet float_repr sheet0 h) as [sh0|e]; simpl in Hrun;
      [|discriminate].
    assert (Hfresh' : forall n, In n rest ->
                        ~ In n (Dict.keys (Dict.set String.eqb acc n0 sh0))).
    { intros n Hn Hin.
      apply (DictFacts.in_keys_set String.eqb string_eqb_spec) in Hin.
      destruct Hin as [->|Hin]; [contradiction|].
      apply (Hfresh n); [now right|exact Hin]. }
    rewrite (IH Hnd _ _ Hfresh' Hrun).
    rewrite (set_fresh String.eqb string_eqb_spec)
      by (apply Hfresh; now left).
    unfold Dict.keys. rewrite map_app, <- app_assoc. reflexivity.
Qed.

(** Below row 1 a sheet with a header row to read is rejected, and any
    other sheet is described without headers. *)
Lemma extract_sheet_below_one (sheet : Worksheet) (h : Z) :
  h < 1 ->
  extract_sheet float_repr sheet h
  = if (h <=? max_row sheet) && (0 <? max_column sheet)
    then Raise ValueError
    else Ok {| columns := [];
               rows := max_row sheet;
               columns_count := max_column sheet;
               merged_cells := sheet_merged_cells sheet;
               headers := None |}.
Proof.
  intros Hh. unfold extract_sheet.
  destruct ((h <=? max_row sheet) && (0 <? max_column sheet)) eqn:G;
    [|reflexivity].
  apply andb_prop in G. destruct G as [_ G]. apply Z.ltb_lt in G.
  rewrite py_range_cons by lia. simpl.
  now rewrite (cell_below_one sheet h 1 Hh).
Qed.

Lemma extract_sheets_below_one (wb : Workbook) (h : Z) (names : list string)
    (n : string) (sheet : Worksheet) :
  h < 1 ->
  (forall m, In m names -> exists s, workbook_getitem wb m = Ok s) ->
  In n names -> workbook_getitem wb n = Ok sheet ->
  h <= max_row sheet -> 0 < max_column sheet ->
  forall acc, extract_sheets float_repr wb h names acc = Raise ValueError.
Proof.
  intros Hh Hall Hin Hsheet Hrow Hcol.
  induction names as [|n0 rest IH]; intros acc; [destruct Hin|].
  simpl. destruct (Hall n0 (or_introl eq_refl)) as [s0 Hs0]. rewrite Hs0. simpl.
  rewrite (extract_sheet_below_one s0 h Hh).
  destruct ((h <=? max_row s0) && (0 <? max_column s0)) eqn:G; [reflexivity|].
  simpl. destruct Hin as [->|Hin].
  - rewrite Hsheet in Hs0. injection Hs0 as Hs0. subst s0.
    replace (h <=? max_row sheet) with true in G
      by (symmetry; now apply Z.leb_le).
    replace (0 <? max_column sheet) with true in G
      by (symmetry; now apply Z.ltb_lt).
    discriminate.
  - apply IH; auto. intros m Hm. apply Hall. now right.
Qed.

Lemma extract_headers_same (s s' : Worksheet) (h : Z) (cols : list Z) :
  max_row s = max_row s' -> max_column s = max_column s' ->
  (forall col, cell_value s h col = cell_value s' h col) ->
  forall acc,
    extract_headers float_repr s h cols acc
    = extract_headers float_repr s' h cols acc.
Proof.
  intros Hr Hc Hv. induction cols as [|col rest IH]; intros acc; [reflexivity|].
  simpl. rewrite (cell_same s s' h col Hr Hc (Hv col)).
  destruct (cell s' h col) as [v|e]; simpl; [|reflexivity].
  destruct (py_truthy v); apply IH.
Qed.

Lemma detect_data_types_same (s s' : Worksheet) (row : Z) (ks : list colkey) :
  max_row s = max_row s' -> max_column s = max_column s' ->
  (forall col, cell_value s row col = cell_value s' row col) ->
  forall hs,
    detect_data_types s row ks hs = detect_data_types s' row ks hs.
Proof.
  intros Hr Hc Hv. induction ks as [|[col|t] rest IH]; intros hs;
    [reflexivity| |reflexivity].
  simpl. rewrite (cell_same s s' row col Hr Hc (Hv col)).
  destruct (cell s' row col) as [v|e]; simpl; [apply IH|reflexivity].
Qed.
End SheetShape.

(** X1: for a header row from 1 on, the description of each sheet is
    fixed by the sheet: its extent and merged ranges are copied, and its
    headers are, in increasing column order, the columns of the populated
    range whose header cell is truthy, each with the text of that cell,
    its column letter and, when the sheet has a row below the header row,
    the tag of the cell below; the headers are left out when the header
    row lies beyond the last row or the sheet has no column. *)
Theorem sheet_description (float_repr : spec_float -> string)
    (wb : Workbook) (file_name : string) (h : Z)
    (sheet_name : string) (sheet : Worksheet) :
  1 <= h ->
  workbook_getitem wb sheet_name = Ok sheet ->
  exists d,
    extract float_repr wb file_name h = Ok d
    /\ Dict.get String.eqb (get_or_empty (sheets d)) sheet_name
       = Some {| columns := [];
                 rows := max_row sheet;
                 columns_count := max_column sheet;
                 merged_cells := sheet_merged_cells sheet;
                 headers :=
                   if (h <=? max_row sheet) && (0 <? max_column sheet)
                   then Some (map (extracted_entry float_repr sheet h)
                                  (truthy_columns sheet h))
                   else None |}.
Proof.
  intros Hh Hsheet.
  destruct (extract_spec float_repr wb file_name h Hh)
    as [d [shs [Hd [Hshs [_ [_ [_ Hget]]]]]]].
  destruct (Hget sheet_name sheet Hsheet) as [sh [Hsh Hlook]].
  exists d. split; [exact Hd|]. rewrite Hshs. simpl. rewrite Hlook. f_equal.
  destruct (extract_sheet_fields float_repr sheet h sh Hsh)
    as [Hc [Hr [Hcc Hm]]].
  assert (Hh' : headers sh
                = if (h <=? max_row sheet) && (0 <? max_column sheet)
                  then Some (map (extracted_entry float_repr sheet h)
                                 (truthy_columns sheet h))
                  else None).
  { destruct ((h <=? max_row sheet) && (0 <? max_column sheet)) eqn:G.
    - apply andb_prop in G. destruct G as [G1 G2].
      apply Z.leb_le in G1. apply Z.ltb_lt in G2.
      destruct (extract_sheet_headers float_repr sheet h Hh G1 G2)
        as [sh' [Hsh' Hhs]].
      rewrite Hsh in Hsh'. injection Hsh' as Hsh'. now subst sh'.
    - destruct (extract_sheet_spec float_repr sheet h Hh) as [sh' [Hsh' [_ Hno]]].
      rewrite Hsh in Hsh'. injection Hsh' as Hsh'. subst sh'.
      now rewrite G in Hno. }
  destruct sh. simpl in *. now subst.
Qed.

(** X2: for a header row from 1 on and a workbook whose sheet names are
    distinct, the extracted document lists the sheets in workbook order,
    counts them in [sheet_count], and records the file name, the header
    row used and the workbook's named ranges. *)
Theorem document_lists_sheets_in_order (float_repr : spec_float -> string)
    (wb : Workbook) (file_name : string) (h : Z) :
  1 <= h -> NoDup (sheetnames wb) ->
  exists d shs,
    extract float_repr wb file_name h = Ok d
    /\ sheets d = Some shs
    /\ Dict.keys shs = sheetnames wb
    /\ file_properties d
       = Some {| filename := Some file_name;
                 sheet_count := Some (Z.of_nat (List.length shs));
                 fp_header_row := Some h |}
    /\ named_ranges d
       = Some (match defined_names wb with
               | Some defs => Dict.of_items String.eqb defs
               | None => []
               end).
Proof.
  intros Hh Hnd.
  destruct (extract_spec float_repr wb file_name h Hh)
    as [d [shs [Hd [Hshs _]]]].
  exists d, shs. split; [exact Hd|]. split; [exact Hshs|].
  unfold extract in Hd.
  destruct (extract_sheets float_repr wb h (sheetnames wb) []) as [shs'|e] eqn:E;
    simpl in Hd; [|discriminate].
  injection Hd as Hd. subst d. simpl in Hshs. injection Hshs as Hshs. subst shs'.
  assert (Hkeys : Dict.keys shs = sheetnames wb).
  { apply (extract_sheets_keys float_repr wb h (sheetnames wb) Hnd [] shs);
      [intros n _ []|exact E]. }
  split; [exact Hkeys|]. simpl. split; [|reflexivity].
  do 3 f_equal. rewrite <- Hkeys. unfold Dict.keys. now rewrite length_map.
Qed.

(** X3: a header row below 1 makes extraction, and with it validation,
    raise [ValueError] as soon as one sheet has a column and a last row
    at or after that header row, whatever else the workbook holds and
    whether or not an expected structure is given. *)
Theorem header_row_below_one_raises (float_repr : spec_float -> string)
    (w : world) (override : option Z) (expected : option Structure)
    (sheet_name : string) (sheet : Worksheet) :
  resolve_header_row override (self w) < 1 ->
  workbook_getitem (workbook (self w)) sheet_name = Ok sheet ->
  resolve_header_row override (self w) <= max_row sheet ->
  0 < max_column sheet ->
  extract_structure float_repr override w = (Raise ValueError, w)
  /\ validate_structure float_repr expected override w = (Raise ValueError, w).
Proof.
  intros Hh Hsheet Hrow Hcol.
  assert (He : extract float_repr (workbook (self w))
                 (path_name (excel_file (self w)))
                 (resolve_header_row override (self w)) = Raise ValueError).
  { unfold extract.
    rewrite (extract_sheets_below_one float_repr (workbook (self w)) _
               (sheetnames (workbook (self w))) sheet_name sheet Hh
               (sheetnames_getitem _)
               (getitem_sheetnames _ _ _ Hsheet) Hsheet Hrow Hcol).
    reflexivity. }
  unfold validate_structure, extract_structure, mbind, get_self, lift.
  now rewrite He.
Qed.

(** X4: the description of a sheet depends only on its extent, its
    merged ranges and the cells of the header row and of the row below:
    sheets that agree on these are described alike. *)
Theorem extraction_reads_two_rows (float_repr : spec_float -> string)
    (s s' : Worksheet) (h : Z) :
  same_rows s s' h (h + 1) ->
  extract_sheet float_repr s h = extract_sheet float_repr s' h.
Proof.
  intros [Hr [Hc [Hm [Hh Hd]]]]. unfold extract_sheet.
  rewrite <- Hr, <- Hc, <- Hm.
  destruct ((h <=? max_row s) && (0 <? max_column s)); [|reflexivity].
  rewrite (extract_headers_same float_repr s s' h _ Hr Hc Hh).
  destruct (extract_headers float_repr s' h _ []) as [hs|e]; simpl;
    [|reflexivity].
  destruct (h + 1 <=? max_row s); [|reflexivity].
  now rewrite (detect_data_types_same s s' (h + 1) _ Hr Hc Hd).
Qed.

(** ** What a comparison reports *)

Lemma py_int_raises_ValueError (s : string) (e : exn) :
  py_int s = Raise e -> e = ValueError.
Proof.
  unfold py_int. destruct (strip s) as [|c rest]; [now intros [= <-]|].
  destruct (parse_digits _ 0 false); [discriminate|now intros [= <-]].
Qed.

Lemma coerce_col_raises_ValueError (k : colkey) (e : exn) :
  coerce_col k = Raise e -> e = ValueError.
Proof. destruct k; simpl; [discriminate|apply py_int_raises_ValueError]. Qed.

Lemma check_column_eq (current_headers : Headers) (sheet_name : string)
    (issues : list string) (entry : colkey * HeaderInfo) :
  check_column current_headers sheet_name issues entry
  = match coerce_col (fst entry) with
    | Ok col =>
        Ok (issues ++ column_issue current_headers sheet_name col (snd entry))
    | Raise e => Raise e
    end.
Proof.
  unfold check_column, column_issue.
  destruct (coerce_col (fst entry)) as [col|e]; simpl; [|reflexivity].
  destruct (Dict.get colkey_eqb current_headers (KInt col)) as [current|];
    [|reflexivity].
  destruct (String.eqb (name current) (name (snd entry))); simpl;
    [now rewrite app_nil_r|reflexivity].
Qed.

Lemma column_issue_nil (current_headers : Headers) (sheet_name : string)
    (col : Z) (info : HeaderInfo) :
  column_issue current_headers sheet_name col info = []
  <-> exists current,
        Dict.get colkey_eqb current_headers (KInt col) = Some current
        /\ name current = name info.
Proof.
  unfold column_issue.
  destruct (Dict.get colkey_eqb current_headers (KInt col)) as [current|].
  - destruct (String.eqb (name current) (name info)) eqn:E.
    + apply String.eqb_eq in E. split; [eauto|reflexivity].
    + apply String.eqb_neq in E. split; [discriminate|].
      intros [c [[= <-] Hn]]. contradiction.
  - split; [discriminate|]. intros [c [Hc _]]. discriminate.
Qed.

Lemma app_eq_self {A : Type} (l extra : list A) : l ++ extra = l -> extra = [].
Proof.
  intros H. apply (app_inv_head l). now rewrite app_nil_r.
Qed.

(** The loop over the expected columns only ever appends, one
    [column_issue] per column, and a key that does not read as an integer
    stops it. *)
Lemma check_headers_inv (current_headers : Headers) (sheet_name : string)
    (items : Headers) :
  forall issues out,
    check_headers current_headers sheet_name items issues = Ok out ->
    exists extra,
      out = issues ++ extra
      /\ (extra = [] <-> Forall (column_matches current_headers) items)
      /\ (forall entry, In entry items ->
            exists col,
              coerce_col (fst entry) = Ok col
              /\ incl (column_issue current_headers sheet_name col (snd entry))
                      extra).
Proof.
  induction items as [|entry rest IH]; intros issues out Hrun.
  - simpl in Hrun. injection Hrun as <-. exists []. rewrite app_nil_r.
    split; [reflexivity|]. split; [split; auto|]. intros entry [].
  - simpl in Hrun. rewrite check_column_eq in Hrun.
    destruct (coerce_col (fst entry)) as [col|e] eqn:Hc; simpl in Hrun;
      [|discriminate].
    destruct (IH _ _ Hrun) as [extra [Hout [Hnil Hin]]].
    exists (column_issue current_headers sheet_name col (snd entry) ++ extra).
    split; [now rewrite Hout, app_assoc|]. split; [split|].
    + intros H. apply app_eq_nil in H. destruct H as [H1 H2].
      constructor; [|now apply Hnil].
      apply column_issue_nil in H1. destruct H1 as [current [Hg Hn]].
      exists col, current. auto.
    + intros H. inversion H as [|x l Hm Hrest]; subst.
      destruct Hm as [col' [current [Hc' [Hg Hn]]]].
      rewrite Hc in Hc'. injection Hc' as <-.
      rewrite (proj2 (column_issue_nil current_headers sheet_name col (snd entry)))
        by eauto.
      simpl. now apply Hnil.
    + intros entry' [<-|Hin'].
      * exists col. split; [exact Hc|]. now apply incl_appl, incl_refl.
      * destruct (Hin entry' Hin') as [col' [Hc' Hincl]].
        exists col'. split; [exact Hc'|]. now apply incl_appr.
Qed.

Lemma check_headers_total (current_headers : Headers) (sheet_name : string)
    (items : Headers) :
  (forall entry, In entry items -> exists col, coerce_col (fst entry) = Ok col) ->
  forall issues, exists out,
    check_headers current_headers sheet_name items issues = Ok out.
Proof.
  induction items as [|entry rest IH]; intros Hall issues; [now exists issues|].
  simpl. rewrite check_column_eq.
  destruct (Hall entry (or_introl eq_refl)) as [col Hc]. rewrite Hc. simpl.
  apply IH. intros x Hx. apply Hall. now right.
Qed.

Lemma check_headers_raises (current_headers : Headers) (sheet_name : string)
    (items : Headers) :
  forall issues e,
    check_headers current_headers sheet_name items issues = Raise e ->
    e = ValueError.
Proof.
  induction items as [|entry rest IH]; intros issues e Hrun; [discriminate|].
  simpl in Hrun. rewrite check_column_eq in Hrun.
  destruct (coerce_col (fst entry)) as [col|e'] eqn:Hc; simpl in Hrun.
  - eapply IH; eauto.
  - injection Hrun as <-. eapply coerce_col_raises_ValueError; eauto.
Qed.

Lemma check_headers_bad_key (current_headers : Headers) (sheet_name : string)
    (items : Headers) (entry : colkey * HeaderInfo) :
  In entry items -> coerce_col (fst entry) = Raise ValueError ->
  forall issues,
    check_headers current_headers sheet_name items issues = Raise ValueError.
Proof.
  intros Hin Hbad issues.
  destruct (check_headers current_headers sheet_name items issues)
    as [out|e] eqn:Hrun.
  - destruct (check_headers_inv _ _ _ _ _ Hrun) as [extra [_ [_ Hall]]].
    destruct (Hall entry Hin) as [col [Hc _]]. congruence.
  - f_equal. eapply check_headers_raises; eauto.
Qed.

Lemma mem_get_some {V : Type} (d : list (string * V)) (k : string) :
  Dict.mem String.eqb d k = true -> exists v, Dict.get String.eqb d k = Some v.
Proof.
  unfold Dict.mem. destruct (Dict.get String.eqb d k); [eauto|discriminate].
Qed.

(** The loop over the expected sheets only ever appends: one message for
    a sheet that is missing, and the column issues of a sheet that is
    there. *)
Lemma check_sheets_inv (expected current : Structure) (names : list string) :
  forall issues out,
    check_sheets expected current names issues = Ok out ->
    exists extra,
      out = issues ++ extra
      /\ (extra = [] <-> Forall (sheet_matches expected current) names)
      /\ (forall n, In n names ->
            Dict.mem String.eqb (get_or_empty (sheets current)) n = false ->
            In (fstring ["Missing sheet: "; n]) extra)
      /\ (forall n esh csh entry,
            In n names ->
            Dict.get String.eqb (get_or_empty (sheets expected)) n = Some esh ->
            Dict.get String.eqb (get_or_empty (sheets current)) n = Some csh ->
            In entry (get_or_empty (headers esh)) ->
            exists col,
              coerce_col (fst entry) = Ok col
              /\ incl (column_issue (get_or_empty (headers csh)) n col
                         (snd entry))
                      extra).
Proof.
  induction names as [|n0 rest IH]; intros issues out Hrun.
  - simpl in Hrun. injection Hrun as <-. exists []. rewrite app_nil_r.
    split; [reflexivity|]. split; [split; auto|].
    split; [intros n []|intros n esh csh entry []].
  - simpl in Hrun.
    destruct (Dict.mem String.eqb (get_or_empty (sheets current)) n0) eqn:Hmem;
      simpl in Hrun.
    + unfold Dict.item in Hrun.
      destruct (Dict.get String.eqb (get_or_empty (sheets expected)) n0)
        as [esh0|] eqn:He; simpl in Hrun; [|discriminate].
      destruct (Dict.get String.eqb (get_or_empty (sheets current)) n0)
        as [csh0|] eqn:Hc; simpl in Hrun; [|discriminate].
      destruct (check_headers (get_or_empty (headers csh0)) n0
                  (get_or_empty (headers esh0)) issues) as [i1|e] eqn:Hh;
        simpl in Hrun; [|discriminate].
      destruct (check_headers_inv _ _ _ _ _ Hh) as [ex1 [Hi1 [Hnil1 Hcols1]]].
      destruct (IH _ _ Hrun) as [ex2 [Hout [Hnil2 [Hmiss2 Hcols2]]]].
      exists (ex1 ++ ex2). split; [now rewrite Hout, Hi1, app_assoc|].
      split; [split|split].
      * intros H. apply app_eq_nil in H. destruct H as [H1 H2].
        constructor; [|now apply Hnil2].
        exists esh0, csh0. split; [exact He|]. split; [exact Hc|].
        now apply Hnil1.
      * intros H. inversion H as [|x l Hm Hrest]; subst.
        destruct Hm as [esh [csh [He' [Hc' Hall]]]].
        rewrite He in He'. injection He' as <-.
        rewrite Hc in Hc'. injection Hc' as <-.
        rewrite (proj2 Hnil1 Hall). simpl. now apply Hnil2.
      * intros n [<-|Hin] Hm.
        -- congruence.
        -- apply in_or_app. right. now apply Hmiss2.
      * intros n esh csh entry [<-|Hin] He' Hc' Hentry.
        -- rewrite He in He'. injection He' as <-.
           rewrite Hc in Hc'. injection Hc' as <-.
           destruct (Hcols1 entry Hentry) as [col [Hcol Hincl]].
           exists col. split; [exact Hcol|]. now apply incl_appl.
        -- destruct (Hcols2 n esh csh entry Hin He' Hc' Hentry)
             as [col [Hcol Hincl]].
           exists col. split; [exact Hcol|]. now apply incl_appr.
    + destruct (IH _ _ Hrun) as [ex2 [Hout [Hnil2 [Hmiss2 Hcols2]]]].
      exists (fstring ["Missing sheet: "; n0] :: ex2).
      split; [now rewrite Hout, <- app_assoc|]. split; [split|split].
      * discriminate.
      * intros H. inversion H as [|x l Hm Hrest]; subst.
        destruct Hm as [esh [csh [_ [Hc' _]]]].
        unfold Dict.mem in Hmem. rewrite Hc' in Hmem. discriminate.
      * intros n [<-|Hin] Hm; [now left|]. right. now apply Hmiss2.
      * intros n esh csh entry [<-|Hin] He' Hc' Hentry.
        -- unfold Dict.mem in Hmem. rewrite Hc' in Hmem. discriminate.
        -- destruct (Hcols2 n esh csh entry Hin He' Hc' Hentry)
             as [col [Hcol Hincl]].
           exists col. split; [exact Hcol|]. now apply incl_tl.
Qed.

Lemma check_sheets_raises (expected current : Structure) (names : list string) :
  incl names (Dict.keys (get_or_empty (sheets expected))) ->
  forall issues e,
    check_sheets expected current names issues = Raise e -> e = ValueError.
Proof.
  induction names as [|n0 rest IH]; intros Hincl issues e Hrun; [discriminate|].
  assert (Hrest : incl rest (Dict.keys (get_or_empty (sheets expected))))
    by (intros x Hx; apply Hincl; now right).
  simpl in Hrun.
  destruct (Dict.mem String.eqb (get_or_empty (sheets current)) n0) eqn:Hmem;
    simpl in Hrun; [|eapply IH; eauto].
  unfold Dict.item in Hrun.
  assert (Hn0 : In n0 (Dict.keys (get_or_empty (sheets expected))))
    by (apply Hincl; now left).
  apply (DictFacts.in_keys_mem String.eqb string_eqb_spec) in Hn0.
  destruct (mem_get_some _ _ Hn0) as [esh0 He]. rewrite He in Hrun.
  destruct (mem_get_some _ _ Hmem) as [csh0 Hc]. rewrite Hc in Hrun.
  simpl in Hrun.
  destruct (check_headers (get_or_empty (headers csh0)) n0
              (get_or_empty (headers esh0)) issues) as [i1|e'] eqn:Hh;
    simpl in Hrun.
  - eapply IH; eauto.
  - injection Hrun as <-. eapply check_headers_raises; eauto.
Qed.

Lemma check_sheets_total (expected current : Structure) (names : list string) :
  coercible expected ->
  incl names (Dict.keys (get_or_empty (sheets expected))) ->
  forall issues, exists out,
    check_sheets expected current names issues = Ok out.
Proof.
  intros Hco. induction names as [|n0 rest IH]; intros Hincl issues;
    [now exists issues|].
  assert (Hrest : incl rest (Dict.keys (get_or_empty (sheets expected))))
    by (intros x Hx; apply Hincl; now right).
  simpl.
  destruct (Dict.mem String.eqb (get_or_empty (sheets current)) n0) eqn:Hmem;
    simpl; [|now apply IH].
  unfold Dict.item.
  assert (Hn0 : In n0 (Dict.keys (get_or_empty (sheets expected))))
    by (apply Hincl; now left).
  apply (DictFacts.in_keys_mem String.eqb string_eqb_spec) in Hn0.
  destruct (mem_get_some _ _ Hn0) as [esh0 He]. rewrite He.
  destruct (mem_get_some _ _ Hmem) as [csh0 Hc]. rewrite Hc. simpl.
  destruct (check_headers_total (get_or_empty (headers csh0)) n0
              (get_or_empty (headers esh0))
              (fun entry Hin => Hco n0 esh0 entry He Hin) issues) as [i1 Hi1].
  rewrite Hi1. simpl. now apply IH.
Qed.

Lemma check_sheets_matching (expected current : Structure) (names : list string) :
  Forall (sheet_matches expected current) names ->
  forall issues, check_sheets expected current names issues = Ok issues.
Proof.
  intros Hall. induction Hall as [|n0 rest Hm Hrest IH]; intros issues;
    [reflexivity|].
  destruct Hm as [esh [csh [He [Hc Hcols]]]].
  simpl. unfold Dict.mem, Dict.item. rewrite Hc, He. simpl.
  destruct (check_headers_total (get_or_empty (headers csh)) n0
              (get_or_empty (headers esh))) with (issues := issues)
    as [i1 Hi1].
  { intros entry Hin. rewrite Forall_forall in Hcols.
    destruct (Hcols entry Hin) as [col [cur [Hcol _]]]. eauto. }
  rewrite Hi1. simpl.
  destruct (check_headers_inv _ _ _ _ _ Hi1) as [extra [Hout [Hnil _]]].
  rewrite (proj2 Hnil Hcols), app_nil_r in Hout. subst i1. apply IH.
Qed.

(** The first issue, when the two header rows differ. *)
Lemma header_row_issues (expected current : Structure) :
  header_rows_agree expected current
  <-> match get_header_row expected, get_header_row current with
      | Some e, Some c =>
          if negb (e =? c)
          then [fstring ["Header row mismatch: expected row "; str_int e;
                         ", got row "; str_int c]]
          else []
      | _, _ => []
      end = [].
Proof.
  unfold header_rows_agree.
  destruct (get_header_row expected) as [e|], (get_header_row current) as [c|];
    try (split; auto; fail).
  destruct (e =? c) eqn:E; simpl.
  - apply Z.eqb_eq in E. split; auto.
  - apply Z.eqb_neq in E. split; [contradiction|discriminate].
Qed.

(** X5: for expected column keys within the default limit on digits, a
    comparison returns [(True, [])] exactly when the two header rows do
    not differ (or one is not recorded), every expected sheet is in the
    current structure, and every expected column is there under the same
    number and with the same name; sheets and columns that only the
    current structure has, data types, column letters, extents and merged
    ranges play no part. *)
Theorem valid_iff_contained (current expected : Structure) :
  small_keys expected = true ->
  compare current (Some expected) = Ok (true, [])
  <-> contained expected current.
Proof.
  intros _. unfold compare, contained. rewrite header_row_issues.
  set (issues0 := match get_header_row expected, get_header_row current with
                  | Some e, Some c => _
                  | _, _ => _
                  end).
  split.
  - intros Hrun.
    destruct (check_sheets expected current
                (Dict.keys (get_or_empty (sheets expected))) issues0)
      as [out|e] eqn:Hs; simpl in Hrun; [|discriminate].
    injection Hrun as _ Hout. subst out.
    destruct (check_sheets_inv _ _ _ _ _ Hs) as [extra [Hout [Hnil _]]].
    symmetry in Hout. apply app_eq_nil in Hout. destruct Hout as [H0 Hx].
    split; [exact H0|now apply Hnil].
  - intros [H0 Hall]. rewrite H0.
    now rewrite (check_sheets_matching expected current _ Hall []).
Qed.

(** X6: when every column key of the expected structure reads as an
    integer, and the keys and header rows are within the default limit on
    digits, a comparison returns, it is valid exactly when it has no
    issue, and it reports every discrepancy: differing header rows first,
    each expected sheet that is missing, and for each expected column of
    a sheet that is there the missing column or the differing name. *)
Theorem discrepancies_reported (current expected : Structure) :
  coercible expected ->
  small_keys expected = true ->
  small_header_row expected = true ->
  small_header_row current = true ->
  exists valid issues,
    compare current (Some expected) = Ok (valid, issues)
    /\ (valid = true <-> issues = [])
    /\ (forall e c,
          get_header_row expected = Some e ->
          get_header_row current = Some c -> e <> c ->
          exists rest,
            issues
            = fstring ["Header row mismatch: expected row "; str_int e;
                       ", got row "; str_int c] :: rest)
    /\ (forall n,
          In n (Dict.keys (get_or_empty (sheets expected))) ->
          Dict.mem String.eqb (get_or_empty (sheets current)) n = false ->
          In (fstring ["Missing sheet: "; n]) issues)
    /\ (forall n esh csh entry,
          Dict.get String.eqb (get_or_empty (sheets expected)) n = Some esh ->
          Dict.get String.eqb (get_or_empty (sheets current)) n = Some csh ->
          In entry (get_or_empty (headers esh)) ->
          exists col,
            coerce_col (fst entry) = Ok col
            /\ incl (column_issue (get_or_empty (headers csh)) n col
                       (snd entry))
                    issues).
Proof.
  intros Hco _ _ _. unfold compare.
  set (issues0 := match get_header_row expected, get_header_row current with
                  | Some e, Some c => _
                  | _, _ => _
                  end).
  destruct (check_sheets_total expected current _ Hco (incl_refl _) issues0)
    as [out Hs].
  rewrite Hs. simpl.
  destruct (check_sheets_inv _ _ _ _ _ Hs) as [extra [Hout [_ [Hmiss Hcols]]]].
  eexists. exists out. split; [reflexivity|].
  split; [destruct out; split; auto; discriminate|].
  split; [|split].
  - intros e c He Hc Hne. subst issues0. rewrite He, Hc in Hout.
    replace (e =? c) with false in Hout
      by (symmetry; now apply Z.eqb_neq).
    simpl in Hout. eauto.
  - intros n Hn Hm. rewrite Hout. apply in_or_app. right. now apply Hmiss.
  - intros n esh csh entry He Hc Hentry.
    destruct (Hcols n esh csh entry) as [col [Hcol Hincl]]; auto.
    { eapply DictFacts.get_some_in_keys; [apply string_eqb_spec|exact He]. }
    exists col. split; [exact Hcol|]. rewrite Hout. now apply incl_appr.
Qed.

(** X7: an expected column key that is a text but no integer makes the
    comparison raise [ValueError], provided its sheet is in the current
    structure; nothing is returned, whatever else the two structures
    hold. *)
Theorem non_integer_key_raises (current expected : Structure)
    (sheet_name : string) (expected_sheet : SheetStructure)
    (key : string) (info : HeaderInfo) :
  Dict.get String.eqb (get_or_empty (sheets expected)) sheet_name
  = Some expected_sheet ->
  Dict.mem String.eqb (get_or_empty (sheets current)) sheet_name = true ->
  In (KStr key, info) (get_or_empty (headers expected_sheet)) ->
  py_int key = Raise ValueError ->
  compare current (Some expected) = Raise ValueError.
Proof.
  intros He Hmem Hin Hbad. unfold compare.
  set (issues0 := match get_header_row expected, get_header_row current with
                  | Some e, Some c => _
                  | _, _ => _
                  end).
  destruct (check_sheets expected current
              (Dict.keys (get_or_empty (sheets expected))) issues0)
    as [out|e] eqn:Hs; simpl.
  - exfalso.
    destruct (check_sheets_inv _ _ _ _ _ Hs) as [extra [_ [_ [_ Hcols]]]].
    destruct (mem_get_some _ _ Hmem) as [csh Hc].
    destruct (Hcols sheet_name expected_sheet csh (KStr key, info))
      as [col [Hcol _]]; auto.
    { eapply DictFacts.get_some_in_keys; [apply string_eqb_spec|exact He]. }
    simpl in Hcol. congruence.
  - f_equal. eapply check_sheets_raises; [apply incl_refl|exact Hs].
Qed.

(** ** Methods, files and round trips *)

Lemma str_int_injective (a b : Z) : str_int a = str_int b -> a = b.
Proof.
  intros H. pose proof (py_int_str_int a) as Ha. rewrite H in Ha.
  rewrite py_int_str_int in Ha. now injection Ha.
Qed.

Lemma NoDup_map_injective_in {A B : Type} (f : A -> B) (l : list A) :
  (forall a b, In a l -> In b l -> f a = f b -> a = b) ->
  NoDup l -> NoDup (map f l).
Proof.
  intros Hinj Hnd. induction Hnd as [|a l Hnot Hnd IH]; simpl; constructor.
  - intros Hin. apply in_map_iff in Hin. destruct Hin as [b [Hb Hin]].
    assert (b = a) by (apply Hinj; simpl; auto). now subst b.
  - apply IH. intros x y Hx Hy. apply Hinj; now right.
Qed.

Lemma extracted_headers_text_distinct (hs : Headers) :
  extracted_headers hs -> text_distinct_keys hs.
Proof.
  intros [Hnd Hint]. unfold text_distinct_keys.
  rewrite <- (map_map fst key_text).
  apply NoDup_map_injective_in; [|exact Hnd].
  intros a b Ha Hb Heq. rewrite Forall_forall in Hint.
  destruct (Hint a Ha) as [ca [-> _]]. destruct (Hint b Hb) as [cb [-> _]].
  simpl in Heq. f_equal. now apply str_int_injective.
Qed.

Lemma extracted_text_distinct (d : Structure)
    (shs : list (string * SheetStructure)) :
  sheets d = Some shs -> Forall extracted_sheet (map snd shs) ->
  text_distinct_structure d.
Proof.
  intros Hshs Hshape n sh hs Hin Hhs. rewrite Hshs in Hin. simpl in Hin.
  apply extracted_headers_text_distinct.
  rewrite Forall_forall in Hshape.
  assert (Hok : extracted_sheet sh).
  { apply Hshape. change sh with (snd (n, sh)). now apply in_map. }
  unfold extracted_sheet in Hok. now rewrite Hhs in Hok.
Qed.

Lemma extracted_json_coercible (d : Structure)
    (shs : list (string * SheetStructure)) :
  sheets d = Some shs -> Forall extracted_sheet (map snd shs) ->
  coercible (json_structure d).
Proof.
  intros Hshs Hshape n esh entry Hget Hin.
  unfold json_structure in Hget. simpl in Hget. rewrite Hshs in Hget.
  simpl in Hget. rewrite get_map_values in Hget.
  destruct (Dict.get String.eqb shs n) as [sh|] eqn:E; [|discriminate].
  simpl in Hget. injection Hget as <-.
  apply (DictFacts.get_in String.eqb string_eqb_spec) in E.
  rewrite Forall_forall in Hshape.
  assert (Hok : extracted_sheet sh).
  { apply Hshape. change sh with (snd (n, sh)). now apply in_map. }
  unfold extracted_sheet in Hok. simpl in Hin.
  destruct (headers sh) as [hs|]; simpl in Hin; [|destruct Hin].
  rewrite (json_headers_distinct hs (extracted_headers_text_distinct hs Hok)) in Hin.
  unfold keys_as_text in Hin. apply in_map_iff in Hin.
  destruct Hin as [[k info] [<- Hk]]. simpl.
  destruct Hok as [_ Hint]. rewrite Forall_forall in Hint.
  destruct (Hint k) as [c [-> _]].
  { change k with (fst (k, info)). now apply in_map. }
  exists c. apply py_int_str_int.
Qed.

Lemma json_headers_keys_text (hs : Headers) (k : colkey) (info : HeaderInfo) :
  In (k, info) (json_headers hs) -> exists text, k = KStr text.
Proof.
  intros Hin.
  assert (Hk : In k (Dict.keys (json_headers hs))).
  { change k with (fst (k, info)). now apply in_map. }
  unfold json_headers, Dict.of_items in Hk.
  apply (DictFacts.in_keys_fold_set colkey_eqb colkey_eqb_spec fst snd) in Hk.
  destruct Hk as [[]|Hk]. rewrite map_map in Hk. simpl in Hk.
  apply in_map_iff in Hk. destruct Hk as [kv [<- _]]. eauto.
Qed.

Section RoundTrips.
Variable float_repr : spec_float -> string.

(** An extracted structure compares as valid against what JSON makes of
    it. *)
Lemma extracted_compare_json (wb : Workbook) (file_name : string) (h : Z) :
  1 <= h ->
  exists d,
    extract float_repr wb file_name h = Ok d
    /\ get_header_row d = Some h
    /\ coercible (json_structure d)
    /\ compare d (Some (json_structure d)) = Ok (true, []).
Proof.
  intros Hh.
  destruct (extract_spec float_repr wb file_name h Hh)
    as [d [shs [Hd [Hshs [Hrow [_ [Hshape _]]]]]]].
  exists d. split; [exact Hd|]. split; [exact Hrow|].
  split; [exact (extracted_json_coercible d shs Hshs Hshape)|].
  rewrite (compare_json_structure d d (extracted_text_distinct d shs Hshs Hshape)).
  unfold compare. rewrite Hrow, Z.eqb_refl. simpl. rewrite Hshs. simpl.
  now rewrite (check_sheets_self d shs Hshs Hshape _ [] (incl_refl _)).
Qed.

(** X8: extracting, validating and comparing change neither the
    instance nor any file, whether they return or raise; loading a
    structure changes no file, and neither the workbook nor the path of
    the instance. *)
Theorem reading_methods_change_nothing (w : world) :
  (forall override, snd (extract_structure float_repr override w) = w)
  /\ (forall expected override,
        snd (validate_structure float_repr expected override w) = w)
  /\ (forall structure_file override,
        snd (compare_structure float_repr structure_file override w) = w)
  /\ (forall structure_file,
        files (snd (load_structure structure_file w)) = files w
        /\ workbook (self (snd (load_structure structure_file w)))
           = workbook (self w)
        /\ excel_file (self (snd (load_structure structure_file w)))
           = excel_file (self w)).
Proof.
  split; [|split; [|split]].
  - intros override. reflexivity.
  - intros expected override.
    unfold validate_structure, extract_structure, mbind, get_self, lift.
    now destruct (extract _ _ _ _).
  - intros structure_file override.
    unfold compare_structure, validate_structure, extract_structure,
      mbind, get_self, lift, read.
    destruct (read_file (files w) (path_str structure_file)) as [f|];
      [|reflexivity].
    destruct (json_load f); [|reflexivity].
    now destruct (extract _ _ _ _).
  - intros structure_file.
    unfold load_structure, mbind, read, lift, set_schema_structure,
      set_header_row, ret.
    destruct (read_file (files w) (path_str structure_file))
      as [[wb|loaded|ys yd| |]|];
      try (repeat split; reflexivity).
    simpl. destruct (file_properties loaded) as [props|];
      [|repeat split; reflexivity].
    destruct (fp_header_row props); repeat split; reflexivity.
Qed.

(** X10: [load_structure] raises [FileNotFoundError] for a path at which
    nothing exists, and what [open] raises when the file may not be read;
    a workbook, or other bytes that are no UTF-8 text, makes it raise
    [UnicodeDecodeError], and a text that is no JSON document
    [JSONDecodeError].  In all these cases the world is left as it was.
    For a structure file it returns, and the schema then holds the
    structure as JSON gives it back, with column keys as text. *)
Theorem load_structure_outcome (w : world) (structure_file : string) :
  let p := path_str structure_file in
  (path_exists (files w) p = false ->
   load_structure structure_file w = (Raise FileNotFoundError, w))
  /\ (forall e, read_file (files w) p = Raise e ->
        load_structure structure_file w = (Raise e, w))
  /\ (forall f, read_file (files w) p = Ok f ->
        match f with
        | JsonText s =>
            exists w',
              load_structure structure_file w = (Ok tt, w')
              /\ structure (schema (self w')) = json_structure s
              /\ (forall sheet_name sh hs k info,
                    In (sheet_name, sh)
                       (get_or_empty (sheets (json_structure s))) ->
                    headers sh = Some hs -> In (k, info) hs ->
                    exists text, k = KStr text)
        | XlsxFile _ | Binary =>
            load_structure structure_file w = (Raise UnicodeDecodeError, w)
        | YamlText _ _ | PlainText =>
            load_structure structure_file w = (Raise JSONDecodeError, w)
        end).
Proof.
  intros p. subst p.
  unfold load_structure, mbind, read, lift, set_schema_structure,
    set_header_row, ret.
  split; [|split].
  - intros Hno. unfold read_file. now rewrite Hno.
  - intros e He. now rewrite He.
  - intros f Hf. rewrite Hf. destruct f as [wb|s|ys yd| |]; try reflexivity.
    simpl.
    assert (Hkeys : forall sheet_name sh hs k info,
               In (sheet_name, sh) (get_or_empty (sheets (json_structure s))) ->
               headers sh = Some hs -> In (k, info) hs ->
               exists text, k = KStr text).
    { intros n sh hs k info Hin Hhs Hk. unfold json_structure in Hin.
      simpl in Hin.
      destruct (sheets s) as [shs|]; simpl in Hin; [|destruct Hin].
      apply in_map_iff in Hin. destruct Hin as [[n' sh'] [Heq _]].
      injection Heq as _ <-. simpl in Hhs.
      destruct (headers sh') as [hs'|]; simpl in Hhs; [|discriminate].
      injection Hhs as <-. exact (json_headers_keys_text hs' k info Hk). }
    destruct (file_properties s) as [props|]; simpl.
    + destruct (fp_header_row props); simpl; eexists;
        (split; [reflexivity|]); (split; [reflexivity|exact Hkeys]).
    + eexists. split; [reflexivity|]. split; [reflexivity|exact Hkeys].
Qed.
End RoundTrips.

(** ** Writing a file and reading it back *)

Lemma open_for_writing (fs : FileSystem) (p : string) (l : location) :
  open_for fs Writing p = Ok l ->
  node_of fs p = FileNode l /\ denied fs Writing l = None.
Proof.
  unfold open_for. destruct (node_of fs p) as [l'|there e]; [|discriminate].
  destruct (denied fs Writing l') eqn:E; [discriminate|].
  intros H. injection H as <-. auto.
Qed.

Lemma read_file_written (fs : FileSystem) (p : string) (l : location)
    (f : File) :
  node_of fs p = FileNode l -> denied fs Reading l = None ->
  read_file (write_file fs l f) p = Ok f.
Proof.
  intros Hn Hd. unfold read_file, path_exists, open_for, write_file. simpl.
  rewrite Hn, Nat.eqb_refl. simpl. rewrite Hd. simpl.
  now rewrite Nat.eqb_refl.
Qed.

Lemma write_file_same (fs : FileSystem) (l : location) (f : File) :
  content (write_file fs l f) l = Some f.
Proof. unfold write_file. simpl. now rewrite Nat.eqb_refl. Qed.


Section ExportAndLoad.
Variable float_repr : spec_float -> string.

Lemma export_structure_eq (w : world) (out : string) (override : option Z)
    (d : Structure) :
  extract float_repr (workbook (self w)) (path_name (excel_file (self w)))
          (resolve_header_row override (self w)) = Ok d ->
  export_structure float_repr out override w
  = match open_for (files w) Writing (path_str out) with
    | Ok l =>
        (Ok tt,
         {| self := self w; files := write_file (files w) l (JsonText d) |})
    | Raise e => (Raise e, w)
    end.
Proof.
  intros Hd.
  unfold export_structure, extract_structure, mbind, get_self, lift, write.
  now rewrite Hd.
Qed.

Lemma compare_structure_eq (w : world) (file : string) (override : option Z)
    (s d : Structure) :
  read_file (files w) (path_str file) = Ok (JsonText s) ->
  extract float_repr (workbook (self w)) (path_name (excel_file (self w)))
          (resolve_header_row override (self w)) = Ok d ->
  compare_structure float_repr file override w
  = (compare d (Some (json_structure s)), w).
Proof.
  intros Hf Hd.
  unfold compare_structure, validate_structure, extract_structure, mbind,
    get_self, lift, read, json_load.
  rewrite Hf, Hd. reflexivity.
Qed.

(** What an export that returned has left: the extracted structure in the
    file its path leads to. *)
Lemma export_structure_returned (w : world) (out : string)
    (override : option Z) (d : Structure) :
  extract float_repr (workbook (self w)) (path_name (excel_file (self w)))
          (resolve_header_row override (self w)) = Ok d ->
  fst (export_structure float_repr out override w) = Ok tt ->
  exists l,
    node_of (files w) (path_str out) = FileNode l
    /\ snd (export_structure float_repr out override w)
       = {| self := self w; files := write_file (files w) l (JsonText d) |}.
Proof.
  intros Hd Hret. rewrite (export_structure_eq w out override d Hd) in *.
  destruct (open_for (files w) Writing (path_str out)) as [l|e] eqn:Ho;
    [|discriminate].
  exists l. split; [|reflexivity]. now apply open_for_writing in Ho.
Qed.

(** X11: when an export of the structure with a header row from 1 on has
    returned and the file it wrote may be read, comparing the workbook
    with that file, with the same header row, returns [(True, [])]: the
    column keys, written as text in the file, are read back as numbers. *)
Theorem export_then_compare (w : world) (out : string) (override : option Z) :
  1 <= resolve_header_row override (self w) ->
  fst (export_structure float_repr out override w) = Ok tt ->
  readable (files w) (path_str out) ->
  let exported := snd (export_structure float_repr out override w) in
  compare_structure float_repr out override exported
  = (Ok (true, []), exported).
Proof.
  intros Hh Hret Hread exported. subst exported.
  destruct (extracted_compare_json float_repr (workbook (self w))
              (path_name (excel_file (self w))) _ Hh)
    as [d [Hd [_ [_ Hcmp]]]].
  destruct (export_structure_returned w out override d Hd Hret)
    as [l [Hn ->]].
  rewrite (compare_structure_eq
             {| self := self w;
                files := write_file (files w) l (JsonText d) |}
             out override d d
             (read_file_written _ _ _ _ Hn (Hread l Hn)) Hd).
  now rewrite Hcmp.
Qed.

(** X12: when a structure has been exported with a header row [h] from
    1 on and the file may be read, loading it makes [h] the stored header
    row, so that a comparison with the exported file that names no header
    row returns [(True, [])]; without the loading, an instance whose
    stored header row is another one gets the header row mismatch as its
    first issue. *)
Theorem load_adopts_exported_header_row (w : world) (out : string) (h : Z) :
  1 <= h ->
  fst (export_structure float_repr out (Some h) w) = Ok tt ->
  readable (files w) (path_str out) ->
  let exported := snd (export_structure float_repr out (Some h) w) in
  let loaded := snd (load_structure out exported) in
  fst (load_structure out exported) = Ok tt
  /\ header_row (self loaded) = h
  /\ compare_structure float_repr out None loaded = (Ok (true, []), loaded)
  /\ (1 <= header_row (self w) -> header_row (self w) <> h ->
      small_int h = true -> small_int (header_row (self w)) = true ->
      exists rest,
        compare_structure float_repr out None exported
        = (Ok (false,
               fstring ["Header row mismatch: expected row "; str_int h;
                        ", got row "; str_int (header_row (self w))] :: rest),
           exported)).
Proof.
  intros Hh Hret Hread exported loaded. subst loaded exported.
  destruct (extracted_compare_json float_repr (workbook (self w))
              (path_name (excel_file (self w))) h Hh)
    as [d [Hd [Hrow [Hco Hcmp]]]].
  destruct (export_structure_returned w out (Some h) d Hd Hret)
    as [l [Hn ->]].
  assert (Hfp : exists props, file_properties d = Some props
                              /\ fp_header_row props = Some h).
  { unfold get_header_row in Hrow.
    destruct (file_properties d) as [props|]; [eauto|discriminate]. }
  destruct Hfp as [props [Hfp Hprow]].
  set (exported := {| self := self w;
                      files := write_file (files w) l (JsonText d) |}).
  assert (Hfile : read_file (files exported) (path_str out) = Ok (JsonText d))
    by (apply read_file_written; [exact Hn|exact (Hread l Hn)]).
  assert (Hload : load_structure out exported
                  = (Ok tt,
                     {| self := {| excel_file := excel_file (self w);
                                   workbook := workbook (self w);
                                   schema := {| structure := json_structure d |};
                                   header_row := h |};
                        files := files exported |})).
  { unfold load_structure, mbind, read, lift, set_schema_structure,
      set_header_row, ret, json_load, schema_load_structure.
    rewrite Hfile. subst exported. cbn [files self].
    cbn [json_structure file_properties]. rewrite Hfp, Hprow. reflexivity. }
  rewrite Hload. cbn [fst snd].
  split; [reflexivity|]. split; [reflexivity|]. split.
  - rewrite (compare_structure_eq
               {| self := {| excel_file := excel_file (self w);
                             workbook := workbook (self w);
                             schema := {| structure := json_structure d |};
                             header_row := h |};
                  files := files exported |}
               out None d d Hfile Hd).
    now rewrite Hcmp.
  - intros Hr Hne _ _.
    destruct (extract_spec float_repr (workbook (self w))
                (path_name (excel_file (self w))) _ Hr)
      as [d' [shs' [Hd' [_ [Hrow' _]]]]].
    rewrite (compare_structure_eq exported out None d d' Hfile Hd').
    unfold compare.
    replace (get_header_row (json_structure d)) with (Some h) by (now rewrite <- Hrow).
    rewrite Hrow'.
    replace (h =? header_row (self w)) with false
      by (symmetry; apply Z.eqb_neq; congruence).
    simpl negb. cbv iota.
    destruct (check_sheets_total (json_structure d) d' _ Hco (incl_refl _)
                [fstring ["Header row mismatch: expected row "; str_int h;
                          ", got row "; str_int (header_row (self w))]])
      as [found Hfound].
    rewrite Hfound.
    destruct (check_sheets_inv _ _ _ _ _ Hfound) as [extra [Hex _]].
    subst found. simpl. eauto.
Qed.
End ExportAndLoad.

(** ** The rows of a YAML export *)

Lemma value_at_not_none (sheet : Worksheet) (row col : Z) :
  value_at sheet row col <> PyNone ->
  row <= max_row sheet /\ col <= max_column sheet
  /\ value_at sheet row col = cell_value sheet row col.
Proof.
  unfold value_at.
  destruct ((row <=? max_row sheet) && (col <=? max_column sheet)) eqn:E;
    [|congruence].
  apply andb_prop in E. destruct E as [A B].
  apply Z.leb_le in A. apply Z.leb_le in B. auto.
Qed.

Lemma truthy_not_none (v : pyvalue) : py_truthy v = true -> v <> PyNone.
Proof. intros H ->. discriminate. Qed.

Lemma py_range_nil (lo hi : Z) : hi <= lo -> py_range lo hi = [].
Proof.
  intros H. unfold py_range.
  replace (Z.to_nat (hi - lo)) with 0%nat by lia. reflexivity.
Qed.

(** *** Cells inside and outside the populated range *)

Lemma touch_inside (sheet : Worksheet) (row col : Z) :
  row <= max_row sheet -> col <= max_column sheet ->
  touch sheet row col = sheet.
Proof.
  intros Hr Hc. unfold touch.
  apply Z.leb_le in Hr. apply Z.leb_le in Hc. now rewrite Hr, Hc.
Qed.

Lemma cell_access_inside (sheet : Worksheet) (row col : Z) :
  1 <= row <= max_row sheet -> 1 <= col <= max_column sheet ->
  cell_access sheet row col = (Ok (value_at sheet row col), sheet).
Proof.
  intros Hr Hc. unfold cell_access.
  rewrite (cell_ok sheet row col) by lia.
  now rewrite touch_inside by lia.
Qed.

Lemma reach_row_grows (h : Z) (sheet : Worksheet) :
  max_row sheet < h -> 1 <= max_column sheet ->
  touch sheet h 1 = reach_row h sheet.
Proof.
  intros Hr Hc. unfold touch, reach_row.
  replace (h <=? max_row sheet) with false by (symmetry; apply Z.leb_gt; lia).
  replace (max_row sheet <? h) with true by (symmetry; apply Z.ltb_lt; lia).
  replace (1 <=? max_column sheet) with true by (symmetry; apply Z.leb_le; lia).
  simpl. rewrite Z.max_r, Z.max_l by lia. reflexivity.
Qed.

Lemma reach_row_stays (h : Z) (sheet : Worksheet) :
  h <= max_row sheet \/ max_column sheet < 1 -> reach_row h sheet = sheet.
Proof.
  intros H. unfold reach_row.
  destruct (max_row sheet <? h) eqn:A; [|reflexivity].
  destruct (1 <=? max_column sheet) eqn:B; [|reflexivity].
  apply Z.ltb_lt in A. apply Z.leb_le in B. lia.
Qed.

(** What a sheet that has reached row [h] shows: its columns, merged
    ranges and values are those it had, and it ends at row [h] when it
    ended above and has a column. *)
Lemma reach_row_view (h : Z) (sheet : Worksheet) :
  max_row (reach_row h sheet)
  = (if 1 <=? max_column sheet then Z.max (max_row sheet) h else max_row sheet)
  /\ max_column (reach_row h sheet) = max_column sheet
  /\ sheet_merged_cells (reach_row h sheet) = sheet_merged_cells sheet
  /\ forall row col,
       value_at (reach_row h sheet) row col = value_at sheet row col.
Proof.
  unfold reach_row.
  destruct (max_row sheet <? h) eqn:A; destruct (1 <=? max_column sheet) eqn:B;
    simpl; try (apply Z.ltb_lt in A); try (apply Z.ltb_ge in A).
  - split; [lia|]. split; [reflexivity|]. split; [reflexivity|].
    intros row col. unfold value_at at 1. simpl.
    destruct ((row <=? h) && (col <=? max_column sheet)) eqn:E; [reflexivity|].
    unfold value_at.
    destruct ((row <=? max_row sheet) && (col <=? max_column sheet)) eqn:F;
      [|reflexivity].
    apply andb_prop in F. destruct F as [F1 F2]. apply Z.leb_le in F1.
    rewrite F2 in E. rewrite andb_true_r in E. apply Z.leb_gt in E. lia.
  - auto.
  - split; [lia|]. auto.
  - auto.
Qed.

Lemma reach_row_idempotent (h : Z) (sheet : Worksheet) :
  reach_row h (reach_row h sheet) = reach_row h sheet.
Proof.
  apply reach_row_stays.
  destruct (reach_row_view h sheet) as [Hr [Hc _]]. rewrite Hr, Hc.
  destruct (1 <=? max_column sheet) eqn:B; [left; lia|].
  apply Z.leb_gt in B. right. lia.
Qed.

Section YamlRows.
Variable float_repr : spec_float -> string.

Lemma yaml_headers_inside (sheet : Worksheet) (h : Z) (cols : list Z) :
  1 <= h <= max_row sheet ->
  Forall (fun c => 1 <= c <= max_column sheet) cols ->
  forall acc, exists hs,
    yaml_headers float_repr sheet h cols acc = (Ok hs, sheet)
    /\ forall c t, In (c, t) hs ->
         In (c, t) acc
         \/ (In c cols /\ py_truthy (value_at sheet h c) = true
             /\ t = py_str float_repr (value_at sheet h c)).
Proof.
  intros Hh Hcols. induction Hcols as [|col rest Hcol Hrest IH]; intros acc.
  - exists acc. split; [reflexivity|]. auto.
  - simpl. rewrite (cell_access_inside sheet h col Hh Hcol).
    destruct (py_truthy (value_at sheet h col)) eqn:Ht.
    + destruct (IH (Dict.set Z.eqb acc col
                      (py_str float_repr (value_at sheet h col))))
        as [hs [Hrun Hin]].
      exists hs. split; [exact Hrun|]. intros c t Hct.
      destruct (Hin c t Hct) as [Hacc|[Hc [Htr Htxt]]].
      * apply (DictFacts.in_set Z.eqb Z.eqb_eq) in Hacc.
        destruct Hacc as [Heq|Hacc]; [|now left].
        injection Heq as -> ->. right. simpl. auto.
      * right. simpl. auto.
    + destruct (IH acc) as [hs [Hrun Hin]].
      exists hs. split; [exact Hrun|]. intros c t Hct.
      destruct (Hin c t Hct) as [Hacc|[Hc [Htr Htxt]]]; [now left|].
      right. simpl. auto.
Qed.

(** The header loop over the columns of a sheet: the names of the truthy
    header cells, and the sheet reaching the header row. *)
Lemma yaml_headers_range (sheet : Worksheet) (h : Z) :
  1 <= h ->
  exists hs,
    yaml_headers float_repr sheet h (py_range 1 (max_column sheet + 1)) []
    = (Ok hs, reach_row h sheet)
    /\ forall c t, In (c, t) hs ->
         1 <= c <= max_column sheet
         /\ py_truthy (value_at sheet h c) = true
         /\ t = py_str float_repr (value_at sheet h c).
Proof.
  intros Hh.
  destruct (Z_lt_le_dec (max_column sheet) 1) as [Hc|Hc].
  { rewrite py_range_nil by lia. rewrite reach_row_stays by (right; lia).
    exists []. split; [reflexivity|]. intros c t []. }
  destruct (Z_lt_le_dec (max_row sheet) h) as [Hr|Hr].
  - rewrite py_range_cons by lia. simpl.
    unfold cell_access. rewrite (cell_ok sheet h 1) by lia.
    assert (Hnone : value_at sheet h 1 = PyNone).
    { unfold value_at.
      replace (h <=? max_row sheet) with false
        by (symmetry; apply Z.leb_gt; lia).
      reflexivity. }
    rewrite Hnone. simpl py_truthy. cbv iota.
    rewrite (reach_row_grows h sheet Hr Hc).
    destruct (reach_row_view h sheet) as [Hmr [Hmc [_ Hval]]].
    replace (1 <=? max_column sheet) with true in Hmr
      by (symmetry; apply Z.leb_le; lia).
    assert (Hcols : Forall (fun c => 1 <= c <= max_column (reach_row h sheet))
                      (py_range (1 + 1) (max_column sheet + 1))).
    { apply Forall_forall. intros c Hin. apply in_py_range in Hin. lia. }
    destruct (yaml_headers_inside (reach_row h sheet) h _ ltac:(lia) Hcols [])
      as [hs [Hrun Hin]].
    exists hs. split; [exact Hrun|].
    intros c t Hct. destruct (Hin c t Hct) as [[]|[_ [Htr _]]].
    rewrite Hval in Htr. exfalso.
    apply truthy_not_none in Htr. apply value_at_not_none in Htr. lia.
  - rewrite reach_row_stays by (left; lia).
    assert (Hcols : Forall (fun c => 1 <= c <= max_column sheet)
                      (py_range 1 (max_column sheet + 1))).
    { apply Forall_forall. intros c Hin. apply in_py_range in Hin. lia. }
    destruct (yaml_headers_inside sheet h _ ltac:(lia) Hcols [])
      as [hs [Hrun Hin]].
    exists hs. split; [exact Hrun|].
    intros c t Hct. destruct (Hin c t Hct) as [[]|[Hc' [Htr Htxt]]].
    apply in_py_range in Hc'. split; [lia|]. auto.
Qed.

Lemma yaml_row_inside (sheet : Worksheet) (row : Z) (hs : list (Z * string)) :
  1 <= row <= max_row sheet ->
  Forall (fun ct => 1 <= fst ct <= max_column sheet) hs ->
  forall acc, exists rd,
    yaml_row sheet row hs acc = (Ok rd, sheet)
    /\ forall k v, In (k, v) rd ->
         In (k, v) acc
         \/ (v <> PyNone /\ exists c, In (c, k) hs /\ v = value_at sheet row c).
Proof.
  intros Hrow Hhs. induction Hhs as [|[c t] rest Hc Hrest IH]; intros acc.
  - exists acc. split; [reflexivity|]. auto.
  - simpl in Hc. simpl. rewrite (cell_access_inside sheet row c Hrow Hc).
    destruct (is_none (value_at sheet row c)) eqn:Hn.
    + destruct (IH acc) as [rd [Hrun Hin]].
      exists rd. split; [exact Hrun|]. intros k v Hkv.
      destruct (Hin k v Hkv) as [Hacc|[Hv [c' [Hc' Hval]]]]; [now left|].
      right. split; [exact Hv|]. exists c'. split; [now right|exact Hval].
    + destruct (IH (Dict.set String.eqb acc t (value_at sheet row c)))
        as [rd [Hrun Hin]].
      exists rd. split; [exact Hrun|]. intros k v Hkv.
      destruct (Hin k v Hkv) as [Hacc|[Hv [c' [Hc' Hval]]]].
      * apply (DictFacts.in_set String.eqb string_eqb_spec) in Hacc.
        destruct Hacc as [Heq|Hacc]; [|now left].
        injection Heq as -> ->. right. split.
        -- intros Hnone. rewrite Hnone in Hn. discriminate.
        -- exists c. split; [now left|reflexivity].
      * right. split; [exact Hv|]. exists c'. split; [now right|exact Hval].
Qed.

Lemma yaml_rows_inside (sheet : Worksheet) (rows : list Z)
    (hs : list (Z * string)) :
  Forall (fun r => 1 <= r <= max_row sheet) rows ->
  Forall (fun ct => 1 <= fst ct <= max_column sheet) hs ->
  forall acc, exists found,
    yaml_rows sheet rows hs acc = (Ok found, sheet)
    /\ forall r, In r found ->
         In r acc
         \/ (r <> []
             /\ exists row, In row rows
                  /\ forall k v, In (k, v) r ->
                       v <> PyNone
                       /\ exists c, In (c, k) hs /\ v = value_at sheet row c).
Proof.
  intros Hrows Hhs. induction Hrows as [|row rest Hrow Hrest IH]; intros acc.
  - exists acc. split; [reflexivity|]. auto.
  - simpl. destruct (yaml_row_inside sheet row hs Hrow Hhs []) as [rd [Hrd Hin]].
    rewrite Hrd. destruct rd as [|kv rd'].
    + destruct (IH acc) as [found [Hrun Hf]].
      exists found. split; [exact Hrun|]. intros r Hr.
      destruct (Hf r Hr) as [Hacc|[Hne [row' [Hrow' Hall]]]]; [now left|].
      right. split; [exact Hne|]. exists row'. split; [now right|exact Hall].
    + destruct (IH (acc ++ [kv :: rd'])) as [found [Hrun Hf]].
      exists found. split; [exact Hrun|]. intros r Hr.
      destruct (Hf r Hr) as [Hacc|[Hne [row' [Hrow' Hall]]]].
      * apply in_app_or in Hacc. destruct Hacc as [Hacc|[<-|[]]]; [now left|].
        right. split; [discriminate|]. exists row. split; [now left|].
        intros k v Hkv. destruct (Hin k v Hkv) as [[]|H]. exact H.
      * right. split; [exact Hne|]. exists row'. split; [now right|exact Hall].
Qed.

(** The body of the loop over the sheets: the records of the sheet, and
    the sheet reaching the header row. *)
Lemma yaml_sheet_records (sheet : Worksheet) (h : Z) :
  1 <= h ->
  exists recs,
    yaml_sheet float_repr sheet h = (Ok recs, reach_row h sheet)
    /\ forall r, In r recs -> yaml_record float_repr sheet h r.
Proof.
  intros Hh. unfold yaml_sheet.
  destruct (yaml_headers_range sheet h Hh) as [hs [Hhs Hin]]. rewrite Hhs.
  destruct (reach_row_view h sheet) as [Hmr [Hmc [_ Hval]]].
  assert (Hpos : Forall (fun ct => 1 <= fst ct <= max_column (reach_row h sheet))
                   hs).
  { apply Forall_forall. intros [c t] Hct. simpl. rewrite Hmc.
    now destruct (Hin c t Hct). }
  assert (Hrows : Forall (fun r => 1 <= r <= max_row (reach_row h sheet))
                    (py_range (h + 1) (max_row (reach_row h sheet) + 1))).
  { apply Forall_forall. intros r Hr. apply in_py_range in Hr. lia. }
  destruct (yaml_rows_inside (reach_row h sheet) _ hs Hrows Hpos [])
    as [recs [Hrecs Hall]].
  exists recs. split; [exact Hrecs|].
  intros r Hr. destruct (Hall r Hr) as [[]|[Hne [row [Hrow Hkv]]]].
  apply in_py_range in Hrow.
  assert (Hkeys : forall k v, In (k, v) r ->
            v <> PyNone
            /\ exists c, In (c, k) hs /\ v = value_at sheet row c).
  { intros k v Hk. destruct (Hkv k v Hk) as [Hv [c [Hc Hvc]]].
    split; [exact Hv|]. exists c. split; [exact Hc|]. now rewrite <- Hval. }
  split; [exact Hne|]. exists row.
  assert (Hbound : h < row <= max_row sheet).
  { destruct (1 <=? max_column sheet) eqn:B; [|lia].
    destruct (Z_lt_le_dec (max_row sheet) h) as [Hlt|Hge]; [|lia].
    exfalso. rewrite Z.max_r in Hmr by lia. lia. }
  split; [exact Hbound|]. intros k v Hk.
  destruct (Hkeys k v Hk) as [Hv [c [Hc Hvc]]]. split; [exact Hv|].
  destruct (Hin c k Hc) as [Hcr [Htr Htxt]].
  destruct (value_at_not_none sheet h c (truthy_not_none _ Htr))
    as [_ [_ Hhv]].
  rewrite Hvc in Hv.
  destruct (value_at_not_none sheet row c Hv) as [_ [_ Hrv]].
  exists c. split; [exact Hcr|]. rewrite <- Hhv. split; [exact Htr|].
  split; [exact Htxt|]. now rewrite Hvc.
Qed.

Lemma yaml_record_reached (sheet : Worksheet) (h : Z) (r : RowData) :
  yaml_record float_repr (reach_row h sheet) h r ->
  yaml_record float_repr sheet h r.
Proof.
  unfold reach_row.
  destruct ((max_row sheet <? h) && (1 <=? max_column sheet)); [|auto].
  intros [_ [row [Hrow _]]]. simpl in Hrow. lia.
Qed.

(** *** The sheets of the workbook *)

Lemma getitem_with_sheet (wb : Workbook) (n0 n : string) (x : Worksheet) :
  workbook_getitem (with_sheet wb n0 x) n
  = if String.eqb n n0
    then match workbook_getitem wb n0 with
         | Ok _ => Ok x
         | Raise e => Raise e
         end
    else workbook_getitem wb n.
Proof.
  unfold workbook_getitem, with_sheet, Dict.item. simpl.
  induction (worksheets wb) as [|[m s] rest IH]; simpl.
  - now destruct (String.eqb n n0).
  - destruct (String.eqb n0 m) eqn:E0.
    + apply String.eqb_eq in E0. subst m. simpl.
      destruct (String.eqb n n0); reflexivity.
    + simpl. destruct (String.eqb n m) eqn:E1.
      * apply String.eqb_eq in E1. subst m.
        replace (String.eqb n n0) with false; [reflexivity|].
        symmetry. rewrite String.eqb_sym. exact E0.
      * exact IH.
Qed.

Lemma sheetnames_with_sheet (wb : Workbook) (n0 : string) (x : Worksheet) :
  sheetnames (with_sheet wb n0 x) = sheetnames wb.
Proof.
  unfold sheetnames, with_sheet. simpl.
  induction (worksheets wb) as [|[m s] rest IH]; [reflexivity|]. simpl.
  destruct (String.eqb n0 m); simpl; [reflexivity|]. now rewrite IH.
Qed.

Lemma yaml_sheets_spec (wb0 : Workbook) (h : Z) :
  1 <= h ->
  forall names wb acc,
    (forall n, In n names -> exists s, workbook_getitem wb0 n = Ok s) ->
    sheets_reaching h wb0 wb ->
    exists data wb',
      yaml_sheets float_repr wb h names acc = (Ok data, wb')
      /\ sheets_reaching h wb0 wb'
      /\ (forall n s, workbook_getitem wb0 n = Ok s ->
            In n names \/ workbook_getitem wb n = Ok (reach_row h s) ->
            workbook_getitem wb' n = Ok (reach_row h s))
      /\ (forall n recs, In (n, recs) data ->
            In (n, recs) acc
            \/ exists sheet,
                 workbook_getitem wb0 n = Ok sheet
                 /\ forall r, In r recs -> yaml_record float_repr sheet h r).
Proof.
  intros Hh. induction names as [|n0 rest IH]; intros wb acc Hall Hinv.
  - exists acc, wb. split; [reflexivity|]. split; [exact Hinv|].
    split; [|auto]. intros n s _ [[]|H]. exact H.
  - destruct (Hall n0 (or_introl eq_refl)) as [s0 Hs0].
    destruct Hinv as [Hnames [Hdefs Hsheets]].
    assert (Hcur : exists s, workbook_getitem wb n0 = Ok s
                     /\ reach_row h s = reach_row h s0
                     /\ forall r, yaml_record float_repr s h r ->
                                  yaml_record float_repr s0 h r).
    { destruct (Hsheets n0 s0 Hs0) as [H|H].
      - exists s0. auto.
      - exists (reach_row h s0). split; [exact H|].
        split; [apply reach_row_idempotent|].
        intros r. apply yaml_record_reached. }
    destruct Hcur as [s [Hs [Hreach Hrec]]].
    destruct (yaml_sheet_records s h Hh) as [recs0 [Hrun0 Hrecs0]].
    rewrite Hreach in Hrun0.
    set (wb1 := with_sheet wb n0 (reach_row h s0)).
    assert (Hget1 : forall n,
               workbook_getitem wb1 n
               = if String.eqb n n0 then Ok (reach_row h s0)
                 else workbook_getitem wb n).
    { intros n. subst wb1. rewrite getitem_with_sheet. now rewrite Hs. }
    assert (Hinv1 : sheets_reaching h wb0 wb1).
    { split; [|split].
      - subst wb1. now rewrite sheetnames_with_sheet.
      - exact Hdefs.
      - intros n s' Hn. rewrite Hget1.
        destruct (String.eqb n n0) eqn:E; [|now apply Hsheets].
        apply String.eqb_eq in E. subst n. right. congruence. }
    destruct (IH wb1 (Dict.set String.eqb acc n0 recs0)
                 (fun n Hn => Hall n (or_intror Hn)) Hinv1)
      as [data [wb' [Hrun [Hinv' [Hdone Hin]]]]].
    exists data, wb'. split.
    { cbn [yaml_sheets]. rewrite Hs, Hrun0. exact Hrun. }
    split; [exact Hinv'|]. split.
    + intros n s' Hn Hor. apply (Hdone n s' Hn).
      rewrite Hget1. destruct (String.eqb n n0) eqn:E.
      * apply String.eqb_eq in E. subst n. right. congruence.
      * destruct Hor as [[Heq|Hr]|Hr]; auto.
        subst n. rewrite String.eqb_refl in E. discriminate.
    + intros n recs Hnr.
      destruct (Hin n recs Hnr) as [Hacc|Hnew]; [|now right].
      apply (DictFacts.in_set String.eqb string_eqb_spec) in Hacc.
      destruct Hacc as [Heq|Hacc]; [|now left].
      injection Heq as -> ->. right. exists s0. auto.
Qed.

Lemma sheets_reaching_refl (h : Z) (wb : Workbook) : sheets_reaching h wb wb.
Proof. split; [reflexivity|]. split; [reflexivity|]. auto. Qed.

(** The YAML export for a header row from 1 on: the extraction and the
    loop over the rows go through, every sheet reaches the header row, and
    what remains is the writing of the file. *)
Lemma export_to_yaml_eq (w : world) (out : string) (override : option Z) :
  let this := self w in
  let h := resolve_header_row override this in
  1 <= h ->
  exists d data wb',
    extract float_repr (workbook this) (path_name (excel_file this)) h = Ok d
    /\ sheets_reaching h (workbook this) wb'
    /\ (forall n s, workbook_getitem (workbook this) n = Ok s ->
          workbook_getitem wb' n = Ok (reach_row h s))
    /\ (forall n recs r, In (n, recs) data -> In r recs ->
          exists sheet,
            workbook_getitem (workbook this) n = Ok sheet
            /\ yaml_record float_repr sheet h r)
    /\ export_to_yaml float_repr out override w
       = let grown := {| excel_file := excel_file this;
                         workbook := wb';
                         schema := schema this;
                         header_row := header_row this |} in
         match open_for (files w) Writing out with
         | Ok l =>
             (Ok tt,
              {| self := grown;
                 files := write_file (files w) l (YamlText d data) |})
         | Raise e => (Raise e, {| self := grown; files := files w |})
         end.
Proof.
  intros this h Hh. subst this h.
  destruct (extract_spec float_repr (workbook (self w))
              (path_name (excel_file (self w))) _ Hh) as [d [shs [Hd _]]].
  destruct (yaml_sheets_spec (workbook (self w)) _ Hh
              (sheetnames (workbook (self w))) (workbook (self w)) []
              (sheetnames_getitem _) (sheets_reaching_refl _ _))
    as [data [wb' [Hdata [Hinv [Hdone Hin]]]]].
  exists d, data, wb'. split; [exact Hd|]. split; [exact Hinv|].
  split; [|split].
  - intros n s Hn. apply (Hdone n s Hn). left.
    eapply getitem_sheetnames. exact Hn.
  - intros n recs r Hn Hr. destruct (Hin n recs Hn) as [[]|[sheet [Hs Hrec]]].
    exists sheet. auto.
  - unfold export_to_yaml, extract_structure, mbind, get_self, lift,
      on_workbook, write.
    cbn [resolve_header_row]. rewrite Hd, Hdata. cbn [self files].
    now destruct (open_for (files w) Writing out).
Qed.

(** X13: when the YAML export with a header row from 1 on has returned,
    the file its path leads to holds the extracted structure and, for
    each sheet, records that are non-empty and hold, under each key, a
    value other than [None] taken from one row below the header row: the
    cell of that row in a column whose header cell is truthy and reads as
    the key. *)
Theorem yaml_records_hold_cell_values (w : world) (out : string)
    (override : option Z) :
  let h := resolve_header_row override (self w) in
  1 <= h ->
  fst (export_to_yaml float_repr out override w) = Ok tt ->
  exists l d data,
    node_of (files w) out = FileNode l
    /\ content (files (snd (export_to_yaml float_repr out override w))) l
       = Some (YamlText d data)
    /\ extract float_repr (workbook (self w)) (path_name (excel_file (self w))) h
       = Ok d
    /\ forall n recs r,
         In (n, recs) data -> In r recs ->
         exists sheet,
           workbook_getitem (workbook (self w)) n = Ok sheet
           /\ r <> []
           /\ exists row,
                h < row <= max_row sheet
                /\ forall k v, In (k, v) r ->
                     v <> PyNone
                     /\ exists col,
                          1 <= col <= max_column sheet
                          /\ py_truthy (cell_value sheet h col) = true
                          /\ k = py_str float_repr (cell_value sheet h col)
                          /\ v = cell_value sheet row col.
Proof.
  intros h Hh Hret. subst h.
  destruct (export_to_yaml_eq w out override Hh)
    as [d [data [wb' [Hd [_ [_ [Hrec Heq]]]]]]].
  rewrite Heq in *. cbv zeta in *.
  destruct (open_for (files w) Writing out) as [l|e] eqn:Ho; [|discriminate].
  exists l, d, data. split; [now apply open_for_writing in Ho|].
  split; [cbn [snd files]; apply write_file_same|]. split; [exact Hd|].
  intros n recs r Hn Hr. destruct (Hrec n recs r Hn Hr) as [sheet [Hs Hy]].
  exists sheet. split; [exact Hs|]. exact Hy.
Qed.

End YamlRows.

(** ** Validation against the derived schema *)

Lemma flat_map_nil {A B : Type} (f : A -> list B) (l : list A) :
  (forall x, In x l -> f x = []) -> flat_map f l = [].
Proof.
  induction l as [|x l IH]; intros H; [reflexivity|].
  simpl. rewrite (H x (or_introl eq_refl)). apply IH.
  intros y Hy. apply H. now right.
Qed.

Lemma filter_nil {A : Type} (f : A -> bool) (l : list A) :
  (forall x, In x l -> f x = false) -> filter f l = [].
Proof.
  induction l as [|x l IH]; intros H; [reflexivity|].
  simpl. rewrite (H x (or_introl eq_refl)). apply IH.
  intros y Hy. apply H. now right.
Qed.

(** The errors of a document are those of its sheets that the schema
    knows, or the one type error of a document that is no mapping. *)
Lemma iter_errors_data (s : Structure) (data : json) :
  iter_errors (to_json_schema s) (JDict [("data", data)]) []
  = match data with
    | JDict obj =>
        flat_map
          (fun property : string * json =>
             let (p, subschema) := property in
             match Dict.get String.eqb obj p with
             | Some x => iter_errors subschema x [PKey "data"; PKey p]
             | None => []
             end)
          (data_properties s)
    | _ => [{| validator := "type"; path := [PKey "data"] |}]
    end.
Proof. cbn. rewrite !app_nil_r. destruct data; reflexivity. Qed.

Lemma validate_data_no_error (engine : Engine) (s : Structure) (data : json) :
  iter_errors (to_json_schema s) (JDict [("data", data)]) [] = [] ->
  validate_data engine s data = [].
Proof.
  intros H. unfold validate_data, jsonschema_validate. rewrite H.
  now rewrite (best_match_nil engine).
Qed.

Lemma data_properties_entries (s : Structure) (n : string) (sch : json) :
  In (n, sch) (data_properties s) ->
  exists sh,
    In (n, sh) (get_or_empty (sheets s)) /\ sch = sheet_schema sh.
Proof.
  intros Hin. unfold data_properties in Hin.
  assert (Hnd : NoDup (Dict.keys
                         (fold_left
                            (fun acc entry =>
                               Dict.set String.eqb acc (fst entry)
                                 (sheet_schema (snd entry)))
                            (get_or_empty (sheets s)) []))).
  { apply (DictFacts.NoDup_keys_fold_set String.eqb string_eqb_spec
             fst (fun entry : string * SheetStructure => sheet_schema (snd entry))).
    constructor. }
  apply (DictFacts.in_get String.eqb string_eqb_spec _ _ _ Hnd) in Hin.
  apply (get_fold_set_inv String.eqb string_eqb_spec fst
           (fun entry : string * SheetStructure => sheet_schema (snd entry)))
    in Hin.
  destruct Hin as [Hin|[[n' sh] [Hin [Hn Hs]]]]; [discriminate|].
  simpl in Hn, Hs. subst n' sch. eauto.
Qed.

(** X14: a document that names none of the structure's sheets has no
    validation error, whatever it holds: no sheet is required, and what
    the schema does not know is not looked at. *)
Theorem unknown_sheets_are_not_validated (engine : Engine) (s : Structure)
    (entries : list (string * json)) :
  (forall sheet_name,
      In sheet_name (Dict.keys (get_or_empty (sheets s))) ->
      Dict.get String.eqb entries sheet_name = None) ->
  validate_data engine s (JDict entries) = [].
Proof.
  intros Hnone. apply validate_data_no_error. rewrite iter_errors_data.
  apply flat_map_nil. intros [n sch] Hin.
  destruct (data_properties_entries s n sch Hin) as [sh [Hsh _]].
  rewrite Hnone; [reflexivity|].
  change n with (fst (n, sh)). now apply in_map.
Qed.

(** X15: data that is no mapping gets exactly one message, that of the
    type error at [data], from every engine. *)
Theorem non_mapping_data_has_one_error (engine : Engine) (s : Structure)
    (data : json) :
  (forall entries, data <> JDict entries) ->
  validate_data engine s data
  = [error_str engine {| validator := "type"; path := [PKey "data"] |}].
Proof.
  intros Hnot. unfold validate_data, jsonschema_validate.
  rewrite iter_errors_data.
  set (e := {| validator := "type"; path := [PKey "data"] |}).
  assert (Herr : match data with
                 | JDict obj =>
                     flat_map
                       (fun property : string * json =>
                          let (p, subschema) := property in
                          match Dict.get String.eqb obj p with
                          | Some x => iter_errors subschema x [PKey "data"; PKey p]
                          | None => []
                          end)
                       (data_properties s)
                 | _ => [e]
                 end = [e]).
  { destruct data; try reflexivity. exfalso. now apply (Hnot entries). }
  rewrite Herr. destruct (best_match_in engine e []) as [b [Hb [<-|[]]]].
  now rewrite Hb.
Qed.

(** *** The template against the schema *)

Lemma set_accepts (d1 d2 : list (string * json)) (k : string) (v1 v2 : json) :
  Forall2 accepts d1 d2 -> accepts (k, v1) (k, v2) ->
  Forall2 accepts (Dict.set String.eqb d1 k v1) (Dict.set String.eqb d2 k v2).
Proof.
  intros H Hv. induction H as [|[k1 x1] [k2 x2] l1 l2 [Hk Ha] Hrest IH]; simpl.
  - constructor; [exact Hv|constructor].
  - simpl in Hk. subst k2. destruct (String.eqb k k1).
    + constructor; [|exact Hrest]. split; [reflexivity|exact (proj2 Hv)].
    + constructor; [split; auto|exact IH].
Qed.

Lemma example_accepted (dt description : string) (at_path : list path_elem) :
  iter_errors
    (JDict [("type", _map_to_json_schema_type dt);
            ("description", JStr description)])
    (_get_type_example dt) at_path = [].
Proof.
  unfold _map_to_json_schema_type, _get_type_example, type_map, examples.
  cbn [Dict.get].
  repeat match goal with
         | |- context [String.eqb dt ?c] => destruct (String.eqb dt c)
         end; reflexivity.
Qed.

Lemma properties_accept_example_row (hs : Headers) :
  Forall2 accepts (schema_properties hs) (example_row hs).
Proof.
  unfold schema_properties, example_row.
  assert (H : forall d1 d2,
             Forall2 accepts d1 d2 ->
             Forall2 accepts
               (fold_left
                  (fun properties entry =>
                     Dict.set String.eqb properties (name (snd entry))
                       (JDict [("type",
                                _map_to_json_schema_type
                                  (data_type_or_string (snd entry)));
                               ("description",
                                JStr (fstring ["Column ";
                                               column_letter (snd entry);
                                               " - "; name (snd entry)]))]))
                  hs d1)
               (fold_left
                  (fun row entry =>
                     Dict.set String.eqb row (name (snd entry))
                       (_get_type_example (data_type_or_string (snd entry))))
                  hs d2)).
  { induction hs as [|entry hs IH]; intros d1 d2 Hd; [exact Hd|].
    simpl. apply IH. apply set_accepts; [exact Hd|].
    split; [reflexivity|]. intros at_path. apply example_accepted. }
  apply H. constructor.
Qed.

Lemma accepts_get (props row : list (string * json)) :
  Forall2 accepts props row ->
  forall p,
    match Dict.get String.eqb props p, Dict.get String.eqb row p with
    | Some sub, Some v => forall at_path, iter_errors sub v at_path = []
    | None, None => True
    | _, _ => False
    end.
Proof.
  intros H p. induction H as [|[k1 x1] [k2 x2] l1 l2 [Hk Ha] Hrest IH];
    simpl; [exact I|].
  simpl in Hk. subst k2. destruct (String.eqb p k1); [exact Ha|exact IH].
Qed.

Lemma record_schema_accepts (props row : list (string * json))
    (at_path : list path_elem) :
  Forall2 accepts props row -> NoDup (Dict.keys props) ->
  iter_errors (record_schema props) (JDict row) at_path = [].
Proof.
  intros Hacc Hnd. unfold record_schema. cbn. rewrite app_nil_r.
  assert (Hprops :
            flat_map
              (fun property : string * json =>
                 let (p, subschema) := property in
                 match Dict.get String.eqb row p with
                 | Some x => iter_errors subschema x (at_path ++ [PKey p])
                 | None => []
                 end) props = []).
  { apply flat_map_nil. intros [p sub] Hin.
    pose proof (accepts_get props row Hacc p) as Hp.
    rewrite (DictFacts.in_get String.eqb string_eqb_spec props p sub Hnd Hin)
      in Hp.
    destruct (Dict.get String.eqb row p); [apply Hp|reflexivity]. }
  rewrite Hprops. simpl.
  assert (Hextra : find_additional_properties row
                     [("type", JStr "object"); ("properties", JDict props);
                      ("additionalProperties", JBool false)] = []).
  { unfold find_additional_properties. cbn [Dict.get String.eqb Ascii.eqb Bool.eqb].
    simpl.
    assert (Hall : forall entry, In entry row ->
                     negb (Dict.mem String.eqb props (fst entry)) = false).
    { intros [k v] Hin. simpl. unfold Dict.mem.
      pose proof (accepts_get props row Hacc k) as Hk.
      destruct (Dict.get String.eqb props k); [reflexivity|].
      destruct (Dict.get String.eqb row k) eqn:G; [destruct Hk|].
      exfalso.
      apply (DictFacts.get_none_not_in_keys String.eqb string_eqb_spec) in G.
      apply G. change k with (fst (k, v)). now apply in_map. }
    apply filter_nil. exact Hall. }
  now rewrite Hextra.
Qed.

Lemma sheet_schema_accepts_examples (sh : SheetStructure)
    (at_path : list path_elem) :
  iter_errors (sheet_schema sh)
    (JList (map JDict (example_rows (get_or_empty (headers sh))))) at_path = [].
Proof.
  unfold sheet_schema, example_rows.
  destruct (get_or_empty (headers sh)) as [|entry hs] eqn:E; [reflexivity|].
  rewrite <- E. cbn [map].
  pose proof (record_schema_accepts
                (schema_properties (get_or_empty (headers sh)))
                (example_row (get_or_empty (headers sh)))
                (at_path ++ [PIndex 0])
                (properties_accept_example_row _)
                (schema_properties_NoDup _)) as Hrow.
  unfold record_schema in Hrow.
  cbn [iter_errors flat_map String.eqb Ascii.eqb Bool.eqb existsb type_names
       is_type app List.length seq combine fst snd].
  cbn in Hrow |- *. rewrite Hrow. reflexivity.
Qed.

(** X16: [generate_yaml_template] returns for every structure, and where
    the sheet names are distinct the data of the template it returns has
    no validation error against the schema derived from the same
    structure: each example value has the type its column is given, also
    for an unrecognised tag and for columns that share a name. *)
Theorem template_passes_validation (engine : Engine) (s : Structure) :
  NoDup (Dict.keys (get_or_empty (sheets s))) ->
  exists template,
    generate_yaml_template s = Ok template
    /\ template_schema template = s
    /\ validate_data engine s (template_data_json template) = [].
Proof.
  intros Hnd. unfold generate_yaml_template.
  destruct (template_sheets_spec (get_or_empty (sheets s))
              (Dict.keys (get_or_empty (sheets s))) (incl_refl _) [])
    as [data [Hrun [Hget _]]].
  rewrite Hrun. simpl. eexists. split; [reflexivity|]. split; [reflexivity|].
  apply validate_data_no_error. unfold template_data_json.
  cbn [template_data]. rewrite iter_errors_data. apply flat_map_nil. intros [n sch] Hin.
  destruct (data_properties_entries s n sch Hin) as [sh [Hsh ->]].
  pose proof (get_map_values (fun rows => JList (map JDict rows)) data n)
    as Hmap.
  cbv beta in Hmap. rewrite Hmap. clear Hmap.
  rewrite (Hget n sh).
  - cbn [option_map]. apply sheet_schema_accepts_examples.
  - change n with (fst (n, sh)). now apply in_map.
  - now apply (DictFacts.in_get String.eqb string_eqb_spec).
Qed.

(** ** The template *)




(** ** Text cells *)

Lemma prefix_append (p s : string) :
  String.prefix p s = true <-> exists b, s = String.append p b.
Proof.
  revert s. induction p as [|c p IH]; intros s.
  - split; [intros _; now exists s|intros _; destruct s; reflexivity].
  - destruct s as [|c' s]; simpl;
      [split; [discriminate|intros [b Hb]; discriminate]|].
    destruct (ascii_dec c c') as [->|Hne].
    + rewrite IH. split; intros [b Hb]; exists b; [now rewrite Hb|].
      now injection Hb.
    + split; [discriminate|]. intros [b Hb]. injection Hb as Hc _.
      now subst.
Qed.

Lemma str_contains_append (needle hay : string) :
  str_contains needle hay = true
  <-> exists a b, hay = String.append a (String.append needle b).
Proof.
  induction hay as [|c hay IH]; cbn [str_contains].
  - rewrite orb_false_r, prefix_append. split.
    + intros [b Hb]. exists EmptyString, b. exact Hb.
    + intros [a [b Hab]]. destruct a; simpl in Hab; [eauto|discriminate].
  - rewrite orb_true_iff, prefix_append, IH. split.
    + intros [[b Hb]|[a [b Hab]]].
      * exists EmptyString, b. exact Hb.
      * exists (String c a), b. simpl. now rewrite Hab.
    + intros [a [b Hab]]. destruct a as [|c' a]; simpl in Hab.
      * left. eauto.
      * right. injection Hab as _ Hab. eauto.
Qed.

Lemma lower_append (a b : string) :
  lower (String.append a b) = String.append (lower a) (lower b).
Proof. induction a; simpl; [reflexivity|now rewrite IHa]. Qed.

(** X18: a text cell is tagged "datetime" exactly when its lower-cased
    text has "/", "-", "date" or "time" somewhere in it, and "string"
    otherwise; so an indicator in any mix of cases, anywhere in the text,
    makes it "datetime", and a text is never tagged as a number. *)
Theorem text_is_datetime_iff_indicator (s : string) :
  (_detect_data_type (PyStr s) = "datetime"
   <-> exists indicator a b,
         In indicator ["/"; "-"; "date"; "time"]
         /\ lower s = String.append a (String.append indicator b))
  /\ (_detect_data_type (PyStr s) = "datetime"
      \/ _detect_data_type (PyStr s) = "string")
  /\ (forall a word b,
        In (lower word) ["/"; "-"; "date"; "time"] ->
        _detect_data_type
          (PyStr (String.append a (String.append word b))) = "datetime").
Proof.
  assert (Hiff : forall t,
             _detect_data_type (PyStr t) = "datetime"
             <-> exists indicator a b,
                   In indicator ["/"; "-"; "date"; "time"]
                   /\ lower t = String.append a (String.append indicator b)).
  { intros t. unfold _detect_data_type. cbn [is_none isinstance_bool
      isinstance_int isinstance_float isinstance_str str_value].
    destruct (existsb (fun i => str_contains i (lower t)) date_indicators) eqn:E.
    - split; [intros _|reflexivity].
      apply existsb_exists in E. destruct E as [ind [Hin Hc]].
      apply str_contains_append in Hc. destruct Hc as [a [b Hab]].
      exists ind, a, b. auto.
    - split; [discriminate|]. intros [ind [a [b [Hin Hab]]]]. exfalso.
      assert (Ht : existsb (fun i => str_contains i (lower t)) date_indicators
                   = true).
      { apply existsb_exists. exists ind. split; [exact Hin|].
        apply str_contains_append. eauto. }
      congruence. }
  split; [apply Hiff|]. split.
  - unfold _detect_data_type. cbn [is_none isinstance_bool isinstance_int
      isinstance_float isinstance_str str_value].
    destruct (existsb _ date_indicators); auto.
  - intros a word b Hin. apply Hiff.
    exists (lower word), (lower a), (lower b). split; [exact Hin|].
    now rewrite !lower_append.
Qed.

(** X19: the schema type of a column follows from the cell sampled for
    it: no value gives null or string, a boolean boolean, an integer
    integer, a float number, and every text string, whether or not it was
    tagged "datetime"; an object of another class gives what the mapping
    has for the name of its class, string unless that name is a tag. *)
Theorem schema_type_of_sampled_cell (v : pyvalue) :
  _map_to_json_schema_type (_detect_data_type v)
  = match v with
    | PyNone => JList [JStr "null"; JStr "string"]
    | PyBool _ => JStr "boolean"
    | PyInt _ => JStr "integer"
    | PyFloat _ => JStr "number"
    | PyStr _ => JStr "string"
    | PyObject o => _map_to_json_schema_type (type_name o)
    end.
Proof.
  destruct v as [|b|n|x|s|o]; try reflexivity.
  unfold _detect_data_type. cbn [is_none isinstance_bool isinstance_int
    isinstance_float isinstance_str str_value].
  destruct (existsb _ date_indicators); reflexivity.
Qed.

(** ** Saving and loading a schema *)

Lemma keys_as_text_fixed (hs : Headers) :
  (forall k info, In (k, info) hs -> exists text, k = KStr text) ->
  keys_as_text hs = hs.
Proof.
  intros Hall. unfold keys_as_text. induction hs as [|[k info] hs IH];
    [reflexivity|].
  simpl. destruct (Hall k info (or_introl eq_refl)) as [t ->]. simpl.
  f_equal. apply IH. intros k' info' Hin. apply (Hall k' info'). now right.
Qed.

Lemma json_headers_idempotent (hs : Headers) :
  json_headers (json_headers hs) = json_headers hs.
Proof.
  assert (Hnd : NoDup (Dict.keys (json_headers hs))).
  { unfold json_headers, Dict.of_items.
    apply (DictFacts.NoDup_keys_fold_set colkey_eqb colkey_eqb_spec fst snd).
    constructor. }
  assert (Hfix : keys_as_text (json_headers hs) = json_headers hs)
    by (apply keys_as_text_fixed, json_headers_keys_text).
  unfold json_headers at 1. fold (keys_as_text (json_headers hs)).
  rewrite Hfix. now apply (of_items_distinct colkey_eqb colkey_eqb_spec).
Qed.

Lemma json_structure_idempotent (s : Structure) :
  json_structure (json_structure s) = json_structure s.
Proof.
  unfold json_structure. simpl. f_equal.
  destruct (sheets s) as [shs|]; [|reflexivity]. simpl. f_equal.
  rewrite map_map. apply map_ext. intros [n sh]. simpl. f_equal.
  unfold json_sheet. simpl. rewrite json_headers_idempotent. f_equal.
  destruct (headers sh) as [hs|]; [|reflexivity]. simpl.
  now rewrite json_headers_idempotent.
Qed.

(** X20: when a structure that was loaded has been saved through the
    schema and the saved file may be read, that file loads back as the same
    structure, with the same header row: once its column keys are text,
    the file format changes nothing. *)
Theorem saved_structure_loads_back (w : world)
    (structure_file output_file : string) (s : Structure) :
  read_file (files w) (path_str structure_file) = Ok (JsonText s) ->
  let loaded := snd (load_structure structure_file w) in
  fst (schema_save_structure output_file loaded) = Ok tt ->
  readable (files w) (path_str output_file) ->
  let saved := snd (schema_save_structure output_file loaded) in
  let reloaded := snd (load_structure output_file saved) in
  fst (load_structure structure_file w) = Ok tt
  /\ fst (load_structure output_file saved) = Ok tt
  /\ (exists l,
        node_of (files w) (path_str output_file) = FileNode l
        /\ content (files saved) l = Some (JsonText (json_structure s)))
  /\ structure (schema (self reloaded)) = structure (schema (self loaded))
  /\ header_row (self reloaded) = header_row (self loaded).
Proof.
  intros Hf loaded.
  assert (Hload : forall w0 f s0,
             read_file (files w0) (path_str f) = Ok (JsonText s0) ->
             load_structure f w0
             = (Ok tt,
                {| self := {| excel_file := excel_file (self w0);
                              workbook := workbook (self w0);
                              schema := {| structure := json_structure s0 |};
                              header_row :=
                                match get_header_row s0 with
                                | Some row => row
                                | None => header_row (self w0)
                                end |};
                   files := files w0 |})).
  { intros w0 f s0 H0.
    unfold load_structure, mbind, read, lift, set_schema_structure,
      set_header_row, ret, json_load, schema_load_structure, get_header_row.
    rewrite H0. cbn [json_structure file_properties].
    destruct (file_properties s0) as [props|]; [|reflexivity].
    destruct (fp_header_row props); reflexivity. }
  subst loaded. rewrite (Hload w structure_file s Hf). cbn [fst snd].
  unfold schema_save_structure, mbind, get_self, write.
  cbn [fst snd self schema structure files].
  destruct (open_for (files w) Writing (path_str output_file)) as [l|e] eqn:Ho;
    [|discriminate].
  intros _ Hread.
  destruct (open_for_writing _ _ _ Ho) as [Hn _].
  cbn [fst snd].
  match goal with
  | |- context [load_structure output_file ?w0] =>
      rewrite (Hload w0 output_file (json_structure s)
                 (read_file_written _ _ _ _ Hn (Hread l Hn)))
  end.
  cbn [fst snd self schema structure files header_row].
  rewrite json_structure_idempotent.
  split; [reflexivity|]. split; [reflexivity|].
  split; [exists l; split; [exact Hn|apply write_file_same]|].
  split; [reflexivity|].
  replace (get_header_row (json_structure s)) with (get_header_row s)
    by reflexivity.
  now destruct (get_header_row s).
Qed.

(** ** The further properties at the sample inputs *)

(** A YAML export with header row 5 leaves the two sample sheets, which
    end at rows 3 and 2, reaching row 5, also when the output path cannot
    be opened; the structure extracted afterwards shows it. *)
Example yaml_export_reaches_header_row :
  let rows_of (w : world) :=
    map (fun entry => (fst entry, max_row (snd entry)))
        (worksheets (workbook (self w))) in
  rows_of sample_world = [("Sheet1", 3); ("Sheet2", 2)]
  /\ rows_of (snd (export_to_yaml sample_float_repr "/tmp/d.yaml" (Some 5)
                     sample_world))
     = [("Sheet1", 5); ("Sheet2", 5)]
  /\ export_to_yaml sample_float_repr "" (Some 5) sample_world
     = (Raise FileNotFoundError,
        {| self := self (snd (export_to_yaml sample_float_repr "/tmp/d.yaml"
                                (Some 5) sample_world));
           files := sample_files |}).
Proof. repeat split. Qed.

Lemma sheet_description_witness :
  exists d,
    extract sample_float_repr sample_workbook "book.xlsx" 1 = Ok d
    /\ Dict.get String.eqb (get_or_empty (sheets d)) "Sheet1"
       = Some {| columns := [];
                 rows := max_row sample_sheet1;
                 columns_count := max_column sample_sheet1;
                 merged_cells := sheet_merged_cells sample_sheet1;
                 headers :=
                   if (1 <=? max_row sample_sheet1)
                      && (0 <? max_column sample_sheet1)
                   then Some (map (extracted_entry sample_float_repr
                                     sample_sheet1 1)
                                  (truthy_columns sample_sheet1 1))
                   else None |}.
Proof.
  apply (sheet_description sample_float_repr sample_workbook "book.xlsx" 1
           "Sheet1" sample_sheet1); [lia|reflexivity].
Defined.

Lemma sample_sheetnames_distinct : NoDup (sheetnames sample_workbook).
Proof.
  constructor; [simpl; intros [H|[]]; discriminate|].
  constructor; [simpl; tauto|constructor].
Defined.

Lemma document_lists_sheets_in_order_witness :
  exists d shs,
    extract sample_float_repr sample_workbook "book.xlsx" 1 = Ok d
    /\ sheets d = Some shs
    /\ Dict.keys shs = sheetnames sample_workbook
    /\ file_properties d
       = Some {| filename := Some "book.xlsx";
                 sheet_count := Some (Z.of_nat (List.length shs));
                 fp_header_row := Some 1 |}
    /\ named_ranges d
       = Some (match defined_names sample_workbook with
               | Some defs => Dict.of_items String.eqb defs
               | None => []
               end).
Proof.
  apply (document_lists_sheets_in_order sample_float_repr sample_workbook
           "book.xlsx" 1); [lia|exact sample_sheetnames_distinct].
Defined.

Lemma header_row_below_one_raises_witness :
  extract_structure sample_float_repr (Some 0) sample_world
  = (Raise ValueError, sample_world)
  /\ validate_structure sample_float_repr None (Some 0) sample_world
     = (Raise ValueError, sample_world).
Proof.
  apply (header_row_below_one_raises sample_float_repr sample_world (Some 0)
           None "Sheet1" sample_sheet1);
    [simpl; lia|reflexivity|simpl; lia|simpl; lia].
Defined.

Lemma extraction_reads_two_rows_witness :
  extract_sheet sample_float_repr sample_sheet1 1
  = extract_sheet sample_float_repr sample_sheet1_changed 1.
Proof.
  apply (extraction_reads_two_rows sample_float_repr sample_sheet1
           sample_sheet1_changed 1).
  repeat split; intros col; reflexivity.
Defined.

Lemma renamed_structure_coercible : coercible renamed_structure.
Proof.
  intros n esh entry Hget Hin. simpl in Hget.
  destruct (String.eqb n "Sheet1").
  - injection Hget as <-. simpl in Hin.
    destruct Hin as [<-|[<-|[]]]; eexists; reflexivity.
  - destruct (String.eqb n "Sheet3"); [|discriminate].
    injection Hget as <-. destruct Hin.
Defined.

Lemma discrepancies_reported_witness :
  exists valid issues,
    compare sample_structure (Some renamed_structure) = Ok (valid, issues)
    /\ (valid = true <-> issues = [])
    /\ (forall e c,
          get_header_row renamed_structure = Some e ->
          get_header_row sample_structure = Some c -> e <> c ->
          exists rest,
            issues
            = fstring ["Header row mismatch: expected row "; str_int e;
                       ", got row "; str_int c] :: rest)
    /\ (forall n,
          In n (Dict.keys (get_or_empty (sheets renamed_structure))) ->
          Dict.mem String.eqb (get_or_empty (sheets sample_structure)) n = false ->
          In (fstring ["Missing sheet: "; n]) issues)
    /\ (forall n esh csh entry,
          Dict.get String.eqb (get_or_empty (sheets renamed_structure)) n
          = Some esh ->
          Dict.get String.eqb (get_or_empty (sheets sample_structure)) n
          = Some csh ->
          In entry (get_or_empty (headers esh)) ->
          exists col,
            coerce_col (fst entry) = Ok col
            /\ incl (column_issue (get_or_empty (headers csh)) n col
                       (snd entry))
                    issues).
Proof.
  apply (discrepancies_reported sample_structure renamed_structure);
    [exact renamed_structure_coercible|reflexivity|reflexivity|reflexivity].
Defined.

Lemma valid_iff_contained_witness :
  compare sample_structure (Some renamed_structure) = Ok (true, [])
  <-> contained renamed_structure sample_structure.
Proof.
  apply (valid_iff_contained sample_structure renamed_structure).
  reflexivity.
Defined.

Lemma non_integer_key_raises_witness :
  compare sample_structure (Some misspelt_structure) = Raise ValueError.
Proof.
  apply (non_integer_key_raises sample_structure misspelt_structure "Sheet1"
           {| columns := [];
              rows := 2;
              columns_count := 1;
              merged_cells := [];
              headers :=
                Some [(KStr "A", {| name := "ID";
                                    column_letter := "A";
                                    data_type := None |})] |}
           "A" {| name := "ID"; column_letter := "A"; data_type := None |});
    [reflexivity|reflexivity|now left|reflexivity].
Defined.

Lemma export_then_compare_witness :
  compare_structure sample_float_repr "/tmp/s.json" None
    (snd (export_structure sample_float_repr "/tmp/s.json" None sample_world))
  = (Ok (true, []),
     snd (export_structure sample_float_repr "/tmp/s.json" None sample_world)).
Proof.
  apply (export_then_compare sample_float_repr sample_world "/tmp/s.json" None);
    [simpl; lia|reflexivity|intros l _; reflexivity].
Defined.

Lemma load_adopts_exported_header_row_witness :
  fst (load_structure "/tmp/s.json"
         (snd (export_structure sample_float_repr "/tmp/s.json" (Some 3)
                 sample_world))) = Ok tt
  /\ header_row
       (self (snd (load_structure "/tmp/s.json"
                     (snd (export_structure sample_float_repr "/tmp/s.json"
                             (Some 3) sample_world))))) = 3
  /\ compare_structure sample_float_repr "/tmp/s.json" None
       (snd (load_structure "/tmp/s.json"
               (snd (export_structure sample_float_repr "/tmp/s.json" (Some 3)
                       sample_world))))
     = (Ok (true, []),
        snd (load_structure "/tmp/s.json"
               (snd (export_structure sample_float_repr "/tmp/s.json" (Some 3)
                       sample_world))))
  /\ (1 <= header_row (self sample_world) ->
      header_row (self sample_world) <> 3 ->
      small_int 3 = true ->
      small_int (header_row (self sample_world)) = true ->
      exists rest,
        compare_structure sample_float_repr "/tmp/s.json" None
          (snd (export_structure sample_float_repr "/tmp/s.json" (Some 3)
                  sample_world))
        = (Ok (false,
               fstring ["Header row mismatch: expected row "; str_int 3;
                        ", got row "; str_int (header_row (self sample_world))]
               :: rest),
           snd (export_structure sample_float_repr "/tmp/s.json" (Some 3)
                  sample_world))).
Proof.
  apply (load_adopts_exported_header_row sample_float_repr sample_world
           "/tmp/s.json" 3);
    [lia|reflexivity|intros l _; reflexivity].
Defined.

Lemma yaml_records_hold_cell_values_witness :
  exists l d data,
    node_of (files sample_world) "/tmp/d.yaml" = FileNode l
    /\ content
         (files (snd (export_to_yaml sample_float_repr "/tmp/d.yaml" None
                        sample_world))) l
       = Some (YamlText d data)
    /\ extract sample_float_repr (workbook (self sample_world))
         (path_name (excel_file (self sample_world)))
         (resolve_header_row None (self sample_world))
       = Ok d
    /\ forall n recs r,
         In (n, recs) data -> In r recs ->
         exists sheet,
           workbook_getitem (workbook (self sample_world)) n = Ok sheet
           /\ r <> []
           /\ exists row,
                resolve_header_row None (self sample_world) < row
                  <= max_row sheet
                /\ forall k v, In (k, v) r ->
                     v <> PyNone
                     /\ exists col,
                          1 <= col <= max_column sheet
                          /\ py_truthy
                               (cell_value sheet
                                  (resolve_header_row None (self sample_world))
                                  col) = true
                          /\ k = py_str sample_float_repr
                                   (cell_value sheet
                                      (resolve_header_row None
                                         (self sample_world)) col)
                          /\ v = cell_value sheet row col.
Proof.
  apply (yaml_records_hold_cell_values sample_float_repr sample_world
           "/tmp/d.yaml" None);
    [simpl; lia|reflexivity].
Defined.

Lemma unknown_sheets_are_not_validated_witness :
  validate_data first_error_engine sample_structure
    (JDict [("Other", JList [JInt 1])]) = [].
Proof.
  apply (unknown_sheets_are_not_validated first_error_engine sample_structure
           [("Other", JList [JInt 1])]).
  intros sheet_name [<-|[]]. reflexivity.
Defined.

Lemma non_mapping_data_has_one_error_witness :
  validate_data first_error_engine sample_structure (JList [])
  = [error_str first_error_engine
       {| validator := "type"; path := [PKey "data"] |}].
Proof.
  apply (non_mapping_data_has_one_error first_error_engine sample_structure
           (JList [])).
  intros entries. discriminate.
Defined.

Lemma template_passes_validation_witness :
  exists template,
    generate_yaml_template duplicate_structure = Ok template
    /\ template_schema template = duplicate_structure
    /\ validate_data first_error_engine duplicate_structure
         (template_data_json template) = [].
Proof.
  apply (template_passes_validation first_error_engine duplicate_structure).
  constructor; [simpl; tauto|constructor].
Defined.

Lemma saved_structure_loads_back_witness :
  fst (load_structure "/tmp/s.json" sample_world_with_file) = Ok tt
  /\ fst (load_structure "/tmp/t.json"
            (snd (schema_save_structure "/tmp/t.json"
                    (snd (load_structure "/tmp/s.json" sample_world_with_file)))))
     = Ok tt
  /\ (exists l,
        node_of (files sample_world_with_file) (path_str "/tmp/t.json")
        = FileNode l
        /\ content
             (files (snd (schema_save_structure "/tmp/t.json"
                            (snd (load_structure "/tmp/s.json"
                                    sample_world_with_file)))))
             l
           = Some (JsonText (json_structure sample_structure)))
  /\ structure
       (schema
          (self (snd (load_structure "/tmp/t.json"
                        (snd (schema_save_structure "/tmp/t.json"
                                (snd (load_structure "/tmp/s.json"
                                        sample_world_with_file))))))))
     = structure
         (schema (self (snd (load_structure "/tmp/s.json" sample_world_with_file))))
  /\ header_row
       (self (snd (load_structure "/tmp/t.json"
                     (snd (schema_save_structure "/tmp/t.json"
                             (snd (load_structure "/tmp/s.json"
                                     sample_world_with_file)))))))
     = header_row (self (snd (load_structure "/tmp/s.json" sample_world_with_file))).
Proof.
  apply (saved_structure_loads_back sample_world_with_file "/tmp/s.json"
           "/tmp/t.json" sample_structure);
    [reflexivity|reflexivity|intros l _; reflexivity].
Defined.
